(** * BlackMamba: registration, dependency resolution and command dispatch

    A shallow embedding of [src/blackmamba.js].  The class keeps its
    private tables ([#modules], [#builders], [#packages], [#sources]) in a
    record [state]; every method becomes a state-passing computation that
    may return, throw, or run out of fuel.  The external collaborators
    (the JSON loader, dynamic [import()], the factories found in source
    files and the commands of the modules they build) are the fields of a
    record [world].

    Conventions of the embedding:
    - an [await] is sequencing: one caller at a time, no interleaving;
    - numbers are integers;
    - the three directory options are strings;
    - the collaborators are functions: the same path gives the same
      descriptor, the same source the same exports, for the whole run;
    - factories and module commands are functions of their arguments:
      they do not call back into the instance that runs them.  The bound
      methods that the constructor stores in [#modules] do re-enter the
      instance, and they are modelled as such;
    - every [build()] allocates: the factory is handed a fresh address for
      the module it returns, so that two builds can be told apart. *)

From Stdlib Require Import ZArith String List Lia.
From stdpp Require Import base gmap strings list.

Set Warnings "-register-all".
Open Scope string_scope.

(** ** Values *)

(** The functions the constructor stores in [#modules]. *)
Inductive builtin :=
  | GetRootDirectory | GetSourcesDirectory | GetPackagesDirectory
  | BExecute | BRegister | BHasNotModule | BGetModule
  | BExecuteWithFallback.

(** JavaScript values.  [VArr] and [VObj] are data as [JSON.parse] yields
    it; [VBuilder a] is the Builder object allocated at address [a];
    [VUser a code] is an object or function created by user code, with
    identity [a] and behaviour named [code]. *)
Inductive value :=
  | VUndefined
  | VNull
  | VBool (b : bool)
  | VNum (n : Z)
  | VStr (s : string)
  | VArr (items : list value)
  | VObj (fields : list (string * value))
  | VBuiltin (b : builtin)
  | VBuilder (a : nat)
  | VUser (a : nat) (code : string).

(** Engine-raised type errors, by the expression that raised them. *)
Inductive type_error :=
  | NotAFunction (expr : string)
  | PropertyOfNullish (expr : string)
  | NotIterable (expr : string)
  | ConstAssignment (name : string).

(** What can be thrown.  The [Err*] constructors are the [new Error(...)]
    of the source, one per message template. *)
Inductive exn :=
  | TypeError (why : type_error)
  | ReferenceError (name : string)
  | ErrMustBeString (property : string) (received : value)
  | ErrMustHaveValue (property : string)
  | ErrPackageLoad (packagePath : string) (cause : exn)
  | ErrSourceImport (sourcePath : value) (cause : exn)
  | ErrNoSourceOrBuilder (id : value)
  | ErrNameNotDefined (packageID id : value)
  | Thrown (v : value).

Inductive result (A : Type) :=
  | Ok (a : A)
  | Fail (e : exn).
Arguments Ok {A} a.
Arguments Fail {A} e.

(** ** The external collaborators *)

Record world := {
  (** [loadJson(path)]: the parsed descriptor, or a failure. *)
  loadJson : string → result value;
  (** [import(sourcesDirectory + sourcePath)]: the module namespace. *)
  import_module : string → value → result value;
  (** [factory(dependencies)(settings)], allocating at the given address. *)
  call_factory : value → value → value → nat → result value;
  (** [app[cmd]] when it is callable, as a function of the argument. *)
  member : value → string → option (value → result value);
}.

(** ** The instance *)

Record builder_obj := {
  b_factory : value;
  b_dependencies : value;
  b_settings : value;
}.

Inductive event :=
  | EvLoadJson (packagePath : string)
  | EvImport (dir : string) (sourcePath : value)
  | EvLog (line : string)
  | EvFallback (nextApp defaultApp : value).

(** A JS [Map] keeps its entries in insertion order, a JS [Set] its
    elements. *)
Definition jsmap := list (value * value).
Definition jsset := list value.

Record state := {
  modules : jsmap;                   (* id to built module *)
  builders : jsmap;                  (* id to Builder object *)
  packages : jsset;                  (* ids whose descriptor was loaded *)
  sources : jsmap;                   (* sourcePath to module namespace *)
  rootDirectory : string;
  sourcesDirectory : string;
  packagesDirectory : string;
  defaultApp : value;
  defaultCmd : value;
  defaultData : value;
  heap : gmap nat builder_obj;       (* the Builder objects *)
  next : nat;                        (* next free address *)
  trace : list event;                (* calls to the outside, oldest first *)
}.

Definition set_modules (f : jsmap → jsmap) (st : state) : state :=
  {| modules := f (modules st); builders := builders st; packages := packages st;
     sources := sources st; rootDirectory := rootDirectory st;
     sourcesDirectory := sourcesDirectory st; packagesDirectory := packagesDirectory st;
     defaultApp := defaultApp st; defaultCmd := defaultCmd st; defaultData := defaultData st;
     heap := heap st; next := next st; trace := trace st |}.

Definition set_builders (f : jsmap → jsmap) (st : state) : state :=
  {| modules := modules st; builders := f (builders st); packages := packages st;
     sources := sources st; rootDirectory := rootDirectory st;
     sourcesDirectory := sourcesDirectory st; packagesDirectory := packagesDirectory st;
     defaultApp := defaultApp st; defaultCmd := defaultCmd st; defaultData := defaultData st;
     heap := heap st; next := next st; trace := trace st |}.

Definition set_packages (f : jsset → jsset) (st : state) : state :=
  {| modules := modules st; builders := builders st; packages := f (packages st);
     sources := sources st; rootDirectory := rootDirectory st;
     sourcesDirectory := sourcesDirectory st; packagesDirectory := packagesDirectory st;
     defaultApp := defaultApp st; defaultCmd := defaultCmd st; defaultData := defaultData st;
     heap := heap st; next := next st; trace := trace st |}.

Definition set_sources (f : jsmap → jsmap) (st : state) : state :=
  {| modules := modules st; builders := builders st; packages := packages st;
     sources := f (sources st); rootDirectory := rootDirectory st;
     sourcesDirectory := sourcesDirectory st; packagesDirectory := packagesDirectory st;
     defaultApp := defaultApp st; defaultCmd := defaultCmd st; defaultData := defaultData st;
     heap := heap st; next := next st; trace := trace st |}.

Definition set_heap (f : gmap nat builder_obj → gmap nat builder_obj) (st : state) : state :=
  {| modules := modules st; builders := builders st; packages := packages st;
     sources := sources st; rootDirectory := rootDirectory st;
     sourcesDirectory := sourcesDirectory st; packagesDirectory := packagesDirectory st;
     defaultApp := defaultApp st; defaultCmd := defaultCmd st; defaultData := defaultData st;
     heap := f (heap st); next := next st; trace := trace st |}.

Definition set_next (f : nat → nat) (st : state) : state :=
  {| modules := modules st; builders := builders st; packages := packages st;
     sources := sources st; rootDirectory := rootDirectory st;
     sourcesDirectory := sourcesDirectory st; packagesDirectory := packagesDirectory st;
     defaultApp := defaultApp st; defaultCmd := defaultCmd st; defaultData := defaultData st;
     heap := heap st; next := f (next st); trace := trace st |}.

Definition emit (e : event) (st : state) : state :=
  {| modules := modules st; builders := builders st; packages := packages st;
     sources := sources st; rootDirectory := rootDirectory st;
     sourcesDirectory := sourcesDirectory st; packagesDirectory := packagesDirectory st;
     defaultApp := defaultApp st; defaultCmd := defaultCmd st; defaultData := defaultData st;
     heap := heap st; next := next st; trace := (trace st ++ [e])%list |}.

(** ** Computations: state, exceptions, fuel *)

Inductive outcome (A : Type) :=
  | Ret (a : A)
  | Throw (e : exn)
  | Diverge.
Arguments Ret {A} a.
Arguments Throw {A} e.
Arguments Diverge {A}.

Definition M (A : Type) : Type := state → outcome A * state.

Definition ret {A} (a : A) : M A := fun st => (Ret a, st).
Definition throw {A} (e : exn) : M A := fun st => (Throw e, st).
Definition diverge {A} : M A := fun st => (Diverge, st).

Definition bind {A B} (m : M A) (k : A → M B) : M B :=
  fun st =>
    match m st with
    | (Ret a, st') => k a st'
    | (Throw e, st') => (Throw e, st')
    | (Diverge, st') => (Diverge, st')
    end.

(** [try { m } catch (e) { h e }] *)
Definition try_catch {A} (m : M A) (h : exn → M A) : M A :=
  fun st =>
    match m st with
    | (Throw e, st') => h e st'
    | r => r
    end.

Definition get {A} (f : state → A) : M A := fun st => (Ret (f st), st).
Definition modify (f : state → state) : M unit := fun st => (Ret tt, f st).
Definition lift {A} (r : result A) : M A :=
  match r with Ok a => ret a | Fail e => throw e end.

Notation "'let*' x ':=' m 'in' k" := (bind m (fun x => k))
  (at level 10, x pattern, m at level 100, k at level 200, only parsing).
Notation "m ;;; k" := (bind m (fun _ => k))
  (at level 100, right associativity, only parsing).

Fixpoint for_each {A} (l : list A) (body : A → M unit) : M unit :=
  match l with
  | [] => ret tt
  | x :: r => body x ;;; for_each r body
  end.

(** ** JavaScript on values *)

Definition truthy (v : value) : bool :=
  match v with
  | VUndefined | VNull => false
  | VBool b => b
  | VNum n => negb (n =? 0)%Z
  | VStr s => negb (s =? "")
  | _ => true
  end.

Definition nullish (v : value) : bool :=
  match v with VUndefined | VNull => true | _ => false end.

(** A parameter default [x = d] applies to [undefined] only. *)
Definition default_param (v d : value) : value :=
  match v with VUndefined => d | _ => v end.

(** [a || b] *)
Definition js_or (a b : value) : value := if truthy a then a else b.

Fixpoint field (k : string) (fs : list (string * value)) : value :=
  match fs with
  | [] => VUndefined
  | (k', v) :: r => if k =? k' then v else field k r
  end.

(** Reading one of the descriptor's property names off a value that is
    neither [undefined] nor [null]. *)
Definition get_prop (v : value) (k : string) : value :=
  match v with VObj fs => field k fs | _ => VUndefined end.

Definition builtin_tag (b : builtin) : nat :=
  match b with
  | GetRootDirectory => 0 | GetSourcesDirectory => 1 | GetPackagesDirectory => 2
  | BExecute => 3 | BRegister => 4 | BHasNotModule => 5 | BGetModule => 6
  | BExecuteWithFallback => 7
  end.

(** Key comparison of [Map] and [Set]: primitives by value, objects by
    identity.  Two data objects are never the same object. *)
Definition same_key (a b : value) : bool :=
  match a, b with
  | VUndefined, VUndefined | VNull, VNull => true
  | VBool x, VBool y => Bool.eqb x y
  | VNum x, VNum y => (x =? y)%Z
  | VStr x, VStr y => x =? y
  | VBuiltin x, VBuiltin y => Nat.eqb (builtin_tag x) (builtin_tag y)
  | VBuilder x, VBuilder y => Nat.eqb x y
  | VUser x c, VUser y d => Nat.eqb x y && (c =? d)
  | _, _ => false
  end.

Fixpoint map_get (k : value) (m : jsmap) : option value :=
  match m with
  | [] => None
  | (k', v) :: r => if same_key k k' then Some v else map_get k r
  end.

Definition map_has (k : value) (m : jsmap) : bool :=
  match map_get k m with Some _ => true | None => false end.

(** [m.get(k)] *)
Definition js_get (k : value) (m : jsmap) : value :=
  match map_get k m with Some v => v | None => VUndefined end.

(** [m.set(k, v)]: an existing key keeps its place. *)
Fixpoint map_set (k v : value) (m : jsmap) : jsmap :=
  match m with
  | [] => [(k, v)]
  | (k', v') :: r =>
      if same_key k k' then (k', v) :: r else (k', v') :: map_set k v r
  end.

Definition map_keys (m : jsmap) : list value := map fst m.

Definition set_has (k : value) (s : jsset) : bool := existsb (same_key k) s.

Definition set_add (k : value) (s : jsset) : jsset :=
  if set_has k s then s else (s ++ [k])%list.

(** ** Free functions of the source *)

Definition isString (property : string) (v : value) : M unit :=
  match v with
  | VStr _ => ret tt
  | _ => throw (ErrMustBeString property v)
  end.

(** [hasValue] reads [value.length]; the source calls it only on a value
    that has passed [isString]. *)
Definition hasValue (property : string) (v : value) : M unit :=
  match v with
  | VStr s => if s =? "" then throw (ErrMustHaveValue property) else ret tt
  | VArr l => match l with [] => throw (ErrMustHaveValue property) | _ => ret tt end
  | VUndefined | VNull => throw (TypeError (PropertyOfNullish "value"))
  | _ => ret tt
  end.

(** ** The Builder of [createBuilder] *)

Definition createBuilder (factory : value) : M value :=
  let* a := get next in
  modify (set_next S) ;;;
  modify (set_heap (insert a {| b_factory := factory;
                                b_dependencies := VUndefined;
                                b_settings := VUndefined |})) ;;;
  ret (VBuilder a).

Definition not_a_builder {A} (b : value) (method : string) : M A :=
  match b with
  | VUndefined | VNull => throw (TypeError (PropertyOfNullish "Builder"))
  | _ => throw (TypeError (NotAFunction method))
  end.

Definition with_dependencies (deps : value) (o : builder_obj) : builder_obj :=
  {| b_factory := b_factory o; b_dependencies := deps; b_settings := b_settings o |}.

Definition with_settings (settings : value) (o : builder_obj) : builder_obj :=
  {| b_factory := b_factory o; b_dependencies := b_dependencies o;
     b_settings := settings |}.

Definition inject (b : value) (factoryDependencies : value) : M value :=
  match b with
  | VBuilder a =>
      modify (set_heap (alter (with_dependencies factoryDependencies) a)) ;;;
      ret b
  | _ => not_a_builder b "Builder.inject"
  end.

Definition applySettings (b : value) (factorySettings : value) : M value :=
  match b with
  | VBuilder a =>
      modify (set_heap (alter (with_settings factorySettings) a)) ;;;
      ret b
  | _ => not_a_builder b "Builder.applySettings"
  end.

Definition callable (v : value) : bool :=
  match v with VUser _ _ | VBuiltin _ => true | _ => false end.

Section Methods.

Variable w : world.

(** [factory( dependencies )( settings )] *)
Definition build (b : value) : M value :=
  match b with
  | VBuilder a =>
      let* o := get (fun st => heap st !! a) in
      match o with
      | Some o =>
          if callable (b_factory o) then
            let* fresh := get next in
            modify (set_next S) ;;;
            lift (call_factory w (b_factory o) (b_dependencies o) (b_settings o) fresh)
          else throw (TypeError (NotAFunction "factory"))
      | None => throw (TypeError (NotAFunction "factory"))
      end
  | _ => not_a_builder b "Builder.build"
  end.

(** *** Methods that call no other method *)

Definition hasNotModule (id : value) : M value :=
  get (fun st => VBool (negb (map_has id (modules st)))).

Definition getModule (id : value) : M value :=
  get (fun st => js_get id (modules st)).

Definition listModules : M (list value) :=
  get (fun st => map_keys (modules st)).

Definition packagePath_of (dir path : string) : string :=
  if String.prefix "/" path
  then dir ++ path ++ ".json"
  else dir ++ "/" ++ path ++ ".json".

Definition loadPackage (path : value) : M value :=
  match default_param path (VStr "") with
  | VStr p =>
      let* dir := get packagesDirectory in
      let packagePath := packagePath_of dir p in
      try_catch
        (modify (emit (EvLog ("loading package " ++ packagePath))) ;;;
         modify (emit (EvLoadJson packagePath)) ;;;
         let* pkg := lift (loadJson w packagePath) in
         modify (set_packages (set_add (VStr p))) ;;;
         ret pkg)
        (fun error => throw (ErrPackageLoad packagePath error))
  | VUndefined | VNull => throw (TypeError (PropertyOfNullish "path"))
  | _ => throw (TypeError (NotAFunction "path.startsWith"))
  end.

Definition import (sourcePath : value) : M value :=
  let* cached := get (fun st => map_get sourcePath (sources st)) in
  match cached with
  | Some source => ret source
  | None =>
      try_catch
        (let* dir := get sourcesDirectory in
         modify (emit (EvImport dir sourcePath)) ;;;
         let* source := lift (import_module w dir sourcePath) in
         modify (set_sources (map_set sourcePath source)) ;;;
         ret source)
        (fun error => throw (ErrSourceImport sourcePath error))
  end.

Definition registerBuilder (id factory factoryDependencies : value) : M value :=
  let* b := createBuilder factory in
  let* b := inject b factoryDependencies in
  modify (set_builders (map_set id b)) ;;;
  ret b.

(** [#parseDependencies( packageID, dependency )]: id, name, method, build. *)
Definition parseDependencies (packageID dependency : value)
  : M (value * value * value * value) :=
  let* parsed :=
    match dependency with
    | VStr _ => ret (dependency, dependency, VUndefined, VUndefined)
    | VUndefined | VNull => throw (TypeError (PropertyOfNullish "dependency"))
    | _ =>
        ret (js_or (get_prop dependency "pkg") (get_prop dependency "source"),
             get_prop dependency "name",
             get_prop dependency "method",
             js_or (get_prop dependency "build") (VBool true))
    end in
  match parsed with
  | (id, VUndefined, _, _) => throw (ErrNameNotDefined packageID id)
  | _ => ret parsed
  end.

End Methods.

(** ** Methods that call [register] or [execute]

    A call to one of the four methods below goes through [rec], so that
    the recursion of the source (a builder that refers to another
    package, a built-in that re-enters [execute]) is cut by fuel. *)

Inductive op :=
  | Register (id build : value)
  | Execute (nextApp cmd data : value)
  | ExecuteWithFallback (nextApp cmd data : value)
  | Run (packages : value).

Section Recursive.

Variable w : world.
Variable rec : op → M value.

Definition createModuleFromBuilder (moduleID builderId factorySettings : value)
  : M value :=
  let moduleID := default_param moduleID (VStr "") in
  let builderId := default_param builderId (VStr "") in
  let* known := get (fun st => map_has builderId (builders st)) in
  (if known then ret tt
   else rec (Register builderId (VBool false)) ;;; ret tt) ;;;
  let* Builder := get (fun st => js_get builderId (builders st)) in
  let* configured := applySettings Builder factorySettings in
  let* built := build w configured in
  modify (set_modules (map_set moduleID built)) ;;;
  ret built.

(** One iteration of the loop over [packages].  The source passes the
    spec as [packageID] and nothing as [dependency]; the binding
    [deps[name] = modules.get( id )] names an undeclared [modules]. *)
Definition bind_package (pkg : value) : M unit :=
  let* parsed := parseDependencies pkg VUndefined in
  let '(id, name, method, build) := parsed in
  let* known := get (fun st => map_has id (modules st)) in
  (if known then ret tt else rec (Register id build) ;;; ret tt) ;;;
  throw (ReferenceError "modules").

(** One iteration of the loop over [sources]: [name] is a [const], and
    [name = name || method] assigns to it. *)
Definition bind_source (source : value) : M unit :=
  let* parsed := parseDependencies source VUndefined in
  let '(id, name, method, build) := parsed in
  let* loaded := import w id in
  throw (TypeError (ConstAssignment "name")).

Definition nonempty_array (v : value) : option (list value) :=
  match v with
  | VArr (x :: r) => Some (x :: r)
  | _ => None
  end.

Definition getDependencies (dependencies : value) : M value :=
  let d := default_param dependencies (VObj []) in
  if nullish d then throw (TypeError (PropertyOfNullish "dependencies"))
  else
      let packages := default_param (get_prop d "packages") (VArr []) in
      let sources := default_param (get_prop d "sources") (VArr []) in
      match nonempty_array packages with
      | Some l => for_each l bind_package
      | None => ret tt
      end ;;;
      match nonempty_array sources with
      | Some l => for_each l bind_source
      | None => ret tt
      end ;;;
      ret (VObj []).

(** The lookup that opens [register]. *)
Definition registered (id build : value) (st : state) : option value :=
  if set_has id (packages st) then
    let moduleOrBuilder :=
      if truthy build then js_get id (modules st) else js_get id (builders st) in
    if truthy moduleOrBuilder then Some moduleOrBuilder else None
  else None.

Definition register (id build : value) : M value :=
  let id := default_param id (VStr "") in
  let build := default_param build (VBool true) in
  let* hit := get (registered id build) in
  match hit with
  | Some moduleOrBuilder => ret moduleOrBuilder
  | None =>
      let* pkg := loadPackage w id in
      if nullish pkg then throw (TypeError (PropertyOfNullish "pkg"))
      else
        let builder := get_prop pkg "builder" in
        let source := get_prop pkg "source" in
        let factorySettings := get_prop pkg "factorySettings" in
        let dependencies := get_prop pkg "dependencies" in
        if truthy source then
          let* deps := getDependencies dependencies in
          let* src := import w source in
          if nullish src then throw (TypeError (PropertyOfNullish "source"))
          else
            let* Builder := registerBuilder id (get_prop src "factory") deps in
            if truthy build
            then createModuleFromBuilder id id factorySettings
            else ret Builder
        else if truthy builder then
          createModuleFromBuilder id builder factorySettings
        else throw (ErrNoSourceOrBuilder id)
  end.

(** Calling a function stored by the constructor with no argument, which
    is what [f.call( data )] and [f.apply( data )] do. *)
Definition invoke_builtin (b : builtin) : M value :=
  match b with
  | GetRootDirectory => get (fun st => VStr (rootDirectory st))
  | GetSourcesDirectory => get (fun st => VStr (sourcesDirectory st))
  | GetPackagesDirectory => get (fun st => VStr (packagesDirectory st))
  | BExecute => rec (Execute VUndefined VUndefined VUndefined)
  | BRegister => rec (Register VUndefined VUndefined)
  | BHasNotModule => hasNotModule VUndefined
  | BGetModule => getModule VUndefined
  | BExecuteWithFallback => rec (ExecuteWithFallback VUndefined VUndefined VUndefined)
  end.

(** The property name in [app[cmd]]; [execute] has checked that [cmd] is
    a string. *)
Definition property_key (cmd : value) : string :=
  match cmd with VStr c => c | _ => "" end.

Definition reenters (cmd : string) : bool := (cmd =? "call") || (cmd =? "apply").

(** The function stored by the constructor that [app[cmd]( data )] runs
    with no argument, if any. *)
Definition reentered (app : value) (cmd : string) : option builtin :=
  match app with
  | VBuiltin b => if reenters cmd then Some b else None
  | _ => None
  end.

(** [app[cmd]( data )] *)
Definition call_member (app : value) (cmd : string) (data : value) : M value :=
  if nullish app then throw (TypeError (PropertyOfNullish "app"))
  else
    match reentered app cmd with
    | Some b => invoke_builtin b
    | None =>
        match member w app cmd with
        | Some f => lift (f data)
        | None => throw (TypeError (NotAFunction "app[cmd]"))
        end
    end.

Definition execute (nextApp cmd data : value) : M value :=
  let nextApp := default_param nextApp (VStr "") in
  let cmd := default_param cmd (VStr "") in
  isString "nextApp" nextApp ;;;
  hasValue "nextApp" nextApp ;;;
  isString "cmd" cmd ;;;
  hasValue "cmd" cmd ;;;
  let* known := get (fun st => map_has nextApp (modules st)) in
  (if known then ret tt else rec (Register nextApp VUndefined) ;;; ret tt) ;;;
  let* app := get (fun st => js_get nextApp (modules st)) in
  call_member app (property_key cmd) data.

Definition executeWithFallback (nextApp cmd data : value) : M value :=
  let nextApp := default_param nextApp (VStr "") in
  let cmd := default_param cmd (VStr "") in
  let* known := get (fun st => map_has nextApp (modules st)) in
  let* args :=
    if known then ret (nextApp, cmd, data)
    else
      try_catch
        (rec (Register nextApp VUndefined) ;;; ret (nextApp, cmd, data))
        (fun _err =>
           let* dApp := get defaultApp in
           modify (emit (EvFallback nextApp dApp)) ;;;
           let* dCmd := get defaultCmd in
           let* dData := get defaultData in
           ret (dApp, dCmd, dData)) in
  let '(nextApp, cmd, data) := args in
  rec (Execute nextApp cmd data).

(** The body of the loop of [run]: destructure the entry, then execute. *)
Definition run_entry (entry : value) : M unit :=
  if nullish entry then throw (TypeError (PropertyOfNullish "entry"))
  else
    rec (Execute (get_prop entry "pkg") (get_prop entry "cmd") (get_prop entry "data")) ;;;
    ret tt.

Definition characters (s : string) : list value :=
  map (fun c => VStr (String c EmptyString)) (list_ascii_of_string s).

Definition run (packages : value) : M value :=
  match default_param packages (VArr []) with
  | VArr l => for_each l run_entry ;;; ret VUndefined
  | VStr s => for_each (characters s) run_entry ;;; ret VUndefined
  | _ => throw (TypeError (NotIterable "packages"))
  end.

Definition step (o : op) : M value :=
  match o with
  | Register id build => register id build
  | Execute nextApp cmd data => execute nextApp cmd data
  | ExecuteWithFallback nextApp cmd data => executeWithFallback nextApp cmd data
  | Run packages => run packages
  end.

End Recursive.

(** [exec w n o]: the call [o] with nesting depth at most [n]. *)
Fixpoint exec (w : world) (n : nat) (o : op) : M value :=
  match n with
  | 0 => diverge
  | S k => step w (exec w k) o
  end.

(** ** The constructor *)

Record config := {
  c_rootDirectory : option string;
  c_sourcesDirectory : option string;
  c_packagesDirectory : option string;
  c_defaultApp : value;
  c_defaultCmd : value;
  c_defaultData : value;
}.

Definition builtin_modules : jsmap :=
  [ (VStr "getRootDirectory", VBuiltin GetRootDirectory);
    (VStr "getSourcesDirectory", VBuiltin GetSourcesDirectory);
    (VStr "getPackagesDirectory", VBuiltin GetPackagesDirectory);
    (VStr "execute", VBuiltin BExecute);
    (VStr "register", VBuiltin BRegister);
    (VStr "hasNotModule", VBuiltin BHasNotModule);
    (VStr "getModule", VBuiltin BGetModule) ].

Definition blank (c : config) : state :=
  {| modules := []; builders := []; packages := []; sources := [];
     rootDirectory := default "" (c_rootDirectory c);
     sourcesDirectory := default "./sources" (c_sourcesDirectory c);
     packagesDirectory := default "./packages" (c_packagesDirectory c);
     defaultApp := c_defaultApp c;
     defaultCmd := c_defaultCmd c;
     defaultData := c_defaultData c;
     heap := ∅; next := 0; trace := [] |}.

Definition constructor_body (c : config) : M unit :=
  for_each builtin_modules
    (fun kv => modify (set_modules (map_set (fst kv) (snd kv)))) ;;;
  if truthy (c_defaultApp c) then
    isString "defaulApp" (c_defaultApp c) ;;;
    hasValue "defaultApp" (c_defaultApp c) ;;;
    isString "defaulCmd" (c_defaultCmd c) ;;;
    hasValue "defaultCmd" (c_defaultCmd c) ;;;
    modify (set_modules
              (map_set (VStr "executeWithFallback") (VBuiltin BExecuteWithFallback)))
  else ret tt.

(** [new BlackMamba( c )]: the fresh instance, or what the constructor threw. *)
Definition constructor (c : config) : result state :=
  match constructor_body c (blank c) with
  | (Ret _, st) => Ok st
  | (Throw e, _) => Fail e
  | (Diverge, _) => Fail (TypeError (NotAFunction "constructor"))
  end.

(** ** Notions used to state the properties *)

(** [refines m m']: wherever [m] comes to an end, [m'] ends the same way. *)
Definition refines {A} (m m' : M A) : Prop :=
  ∀ st r st', m st = (r, st') → r ≠ Diverge → m' st = (r, st').

(** [evaluates w o st r st']: the call [o], started in [st], ends with
    [r] in [st']. *)
Definition evaluates (w : world) (o : op) (st : state) (r : outcome value) (st' : state) : Prop :=
  ∃ n, exec w n o st = (r, st') ∧ r ≠ Diverge.

(** [grows st st']: going from [st] to [st'] keeps every key of the three
    tables, extends the trace, and leaves the configuration alone. *)
Record grows (st st' : state) : Prop := {
  grows_modules : ∀ k, map_has k (modules st) = true → map_has k (modules st') = true;
  grows_builders : ∀ k, map_has k (builders st) = true → map_has k (builders st') = true;
  grows_packages : ∀ k, set_has k (packages st) = true → set_has k (packages st') = true;
  grows_trace : ∃ l, trace st' = (trace st ++ l)%list;
  grows_next : (next st ≤ next st')%nat;
  grows_root : rootDirectory st' = rootDirectory st;
  grows_sourcesDirectory : sourcesDirectory st' = sourcesDirectory st;
  grows_packagesDirectory : packagesDirectory st' = packagesDirectory st;
  grows_defaultApp : defaultApp st' = defaultApp st;
  grows_defaultCmd : defaultCmd st' = defaultCmd st;
  grows_defaultData : defaultData st' = defaultData st;
}.

(** [sourced w dir k]: the descriptor of [k] under [dir] has a [source]. *)
Definition sourced (w : world) (dir : string) (k : value) : Prop :=
  ∃ p pkg, k = VStr p ∧ loadJson w (packagePath_of dir p) = Ok pkg
           ∧ truthy (get_prop pkg "source") = true.

(** [safe w st st']: [st'] grows out of [st], and a Builder is stored only
    under the id of a package whose descriptor has a [source]. *)
Definition safe (w : world) (st st' : state) : Prop :=
  grows st st'
  ∧ ∀ k, map_has k (builders st') = true →
         map_has k (builders st) = true ∨ sourced w (packagesDirectory st) k.

(** [keeps w P m]: started where [P] holds, [m] ends in a state that is
    [safe] for the state it started in, however it ends. *)
Definition keeps (w : world) (P : state → Prop) {A} (m : M A) : Prop :=
  ∀ st r st', P st → m st = (r, st') → safe w st st'.

(** ** The spec's words as definitions *)

Definition is_nonempty_string (v : value) : bool :=
  match v with VStr s => negb (s =? "") | _ => false end.

Definition supplied (v : value) : bool :=
  match v with VUndefined => false | _ => true end.

(** The spec's error taxonomy, over what the source throws. *)
Definition ValidationError (e : exn) : Prop :=
  match e with
  | ErrMustBeString _ _ | ErrMustHaveValue _ => True
  | _ => False
  end.

Definition ExecutionError (e : exn) : Prop :=
  e = TypeError (NotAFunction "app[cmd]") ∨ e = TypeError (PropertyOfNullish "app").

(** "Validated as non-empty strings at construction if any is supplied":
    construction succeeds exactly when every supplied member of the
    triple is a non-empty string. *)
Definition validates_supplied_defaults (c : config) : Prop :=
  supplied (c_defaultApp c) || supplied (c_defaultCmd c) || supplied (c_defaultData c) = true →
  ((∃ st, constructor c = Ok st) ↔
   (supplied (c_defaultApp c) = true → is_nonempty_string (c_defaultApp c) = true) ∧
   (supplied (c_defaultCmd c) = true → is_nonempty_string (c_defaultCmd c) = true) ∧
   (supplied (c_defaultData c) = true → is_nonempty_string (c_defaultData c) = true)).

(** "Sequentially executes [execute(pkg, cmd, data)] for each entry ...
    stops at the first failure". *)
Inductive runs_in_order (rec : op → M value)
  : list value → state → outcome value → state → Prop :=
  | runs_done st :
      runs_in_order rec [] st (Ret VUndefined) st
  | runs_next e es st v st1 r st2 :
      rec (Execute (get_prop e "pkg") (get_prop e "cmd") (get_prop e "data")) st
        = (Ret v, st1) →
      runs_in_order rec es st1 r st2 →
      runs_in_order rec (e :: es) st r st2
  | runs_stop e es st x st1 :
      rec (Execute (get_prop e "pkg") (get_prop e "cmd") (get_prop e "data")) st
        = (Throw x, st1) →
      runs_in_order rec (e :: es) st (Throw x) st1
  | runs_out e es st st1 :
      rec (Execute (get_prop e "pkg") (get_prop e "cmd") (get_prop e "data")) st
        = (Diverge, st1) →
      runs_in_order rec (e :: es) st Diverge st1.

(** How often the Descriptor Loader was asked for [path]. *)
Fixpoint loads_of (path : string) (t : list event) : nat :=
  match t with
  | [] => 0
  | EvLoadJson p :: r => (if p =? path then 1 else 0) + loads_of path r
  | _ :: r => loads_of path r
  end.

(** The state in which [#createModuleFromBuilder] leaves the instance:
    the Builder at [a] holds [settings], one address is used up for the
    module [v], and [v] is stored under [moduleID]. *)
Definition built (moduleID v : value) (a : nat) (settings : value) (st : state) : state :=
  set_modules (map_set moduleID v)
    (set_next S (set_heap (alter (with_settings settings) a) st)).

(** The state in which [loadPackage( p )] leaves the instance when the
    loader answers. *)
Definition loaded (p : string) (st : state) : state :=
  set_packages (set_add (VStr p))
    (emit (EvLoadJson (packagePath_of (packagesDirectory st) p))
       (emit (EvLog ("loading package " ++ packagePath_of (packagesDirectory st) p)) st)).

(** The state in which [#registerBuilder( id, factory, deps )] leaves it. *)
Definition builder_registered (id factory deps : value) (st : state) : state :=
  set_builders (map_set id (VBuilder (next st)))
    (set_heap (alter (with_dependencies deps) (next st))
       (set_heap (insert (next st) {| b_factory := factory;
                                      b_dependencies := VUndefined;
                                      b_settings := VUndefined |})
          (set_next S st))).

(** "First ensures the referenced Builder is registered (registering it
    with [build = false] if it is not yet present)": for a package with a
    [builder] and no [source], once [register(builder, false)] has
    returned there is a Builder under [builder]. *)
Definition ensures_the_referenced_builder (w : world) : Prop :=
  ∀ n p build st pkg u st1,
    registered (VStr p) (default_param build (VBool true)) st = None →
    loadJson w (packagePath_of (packagesDirectory st) p) = Ok pkg →
    truthy (get_prop pkg "source") = false →
    truthy (get_prop pkg "builder") = true →
    map_has (get_prop pkg "builder") (builders st) = false →
    exec w n (Register (get_prop pkg "builder") (VBool false)) (loaded p st)
      = (Ret u, st1) →
    ∃ a, js_get (get_prop pkg "builder") (builders st1) = VBuilder a.

(** "The descriptor of [id], if the loader has one, has a [source]." *)
Definition has_source (w : world) (st : state) (id : value) : Prop :=
  ∀ p pkg,
    default_param id (VStr "") = VStr p →
    loadJson w (packagePath_of (packagesDirectory st) p) = Ok pkg →
    truthy (get_prop pkg "source") = true.

(** "Repeated registration of the same id with the same [build] flag is
    side-effect-free after the first call." *)
Definition registration_is_idempotent (w : world) : Prop :=
  ∀ n m id build st v st1 r st2,
    exec w n (Register id build) st = (Ret v, st1) →
    exec w m (Register id build) st1 = (r, st2) →
    r ≠ Diverge →
    r = Ret v ∧ st2 = st1.

(** The ids the constructor always fills in. *)
Definition builtin_ids : list string :=
  [ "getRootDirectory"; "getSourcesDirectory"; "getPackagesDirectory";
    "execute"; "register"; "hasNotModule"; "getModule" ].

(** "[execute] on these ids dispatches to the built-in without loading any
    descriptor." *)
Definition builtins_execute_without_loading (w : world) (c : config) : Prop :=
  ∀ st id cmd data n r st',
    constructor c = Ok st →
    In id builtin_ids →
    exec w n (Execute (VStr id) cmd data) st = (r, st') →
    ∀ path, loads_of path (trace st') = loads_of path (trace st).

(** The stored functions that load a descriptor when run with no argument. *)
Definition registers (b : builtin) : bool :=
  match b with BRegister | BExecuteWithFallback => true | _ => false end.

(** ** A concrete world

    The packages "test" and "greeter" of the repository's tests, and a few
    more: "welcome" is built from the Builder of "greeter"; "needy" and
    "reader" declare dependencies; the factory of "zero" returns [0]. *)

Module Fixture.

Definition descriptor (source : string) : value :=
  VObj [("name", VStr "fixture"); ("source", VStr source)].

Definition welcome : value :=
  VObj [("name", VStr "welcome"); ("builder", VStr "greeter");
        ("factorySettings", VObj [("greeting", VStr "Welcome")])].

Definition needy : value :=
  VObj [("name", VStr "needy"); ("source", VStr "/greeter.js");
        ("dependencies", VObj [("packages", VArr [VStr "greeter"])])].

Definition reader : value :=
  VObj [("name", VStr "reader"); ("source", VStr "/greeter.js");
        ("dependencies",
         VObj [("sources", VArr [VObj [("source", VStr "/lib.js");
                                       ("name", VStr "lib")]])])].

Definition loadJson (path : string) : result value :=
  if path =? "./packages/greeter.json" then Ok (descriptor "/greeter.js")
  else if path =? "./packages/test.json" then Ok (descriptor "/test.js")
  else if path =? "./packages/welcome.json" then Ok welcome
  else if path =? "./packages/needy.json" then Ok needy
  else if path =? "./packages/reader.json" then Ok reader
  else if path =? "./packages/zero.json" then Ok (descriptor "/zero.js")
  else Fail (Thrown (VStr "NotFound")).

Definition import_module (dir : string) (sourcePath : value) : result value :=
  match sourcePath with
  | VStr "/greeter.js" => Ok (VObj [("factory", VUser 0 "greeter.factory")])
  | VStr "/test.js" => Ok (VObj [("factory", VUser 1 "test.factory")])
  | VStr "/lib.js" => Ok (VObj [("default", VUser 2 "lib")])
  | VStr "/zero.js" => Ok (VObj [("factory", VUser 3 "zero.factory")])
  | _ => Fail (Thrown (VStr "Module not found"))
  end.

Definition call_factory (factory deps settings : value) (fresh : nat) : result value :=
  match factory with
  | VUser _ "greeter.factory" => Ok (VUser fresh "greeter")
  | VUser _ "test.factory" => Ok (VUser fresh "test")
  | VUser _ "zero.factory" => Ok (VNum 0)
  | _ => Fail (TypeError (NotAFunction "factory"))
  end.

Definition text (v : value) : string :=
  match v with VStr s => s | _ => "undefined" end.

Definition member (app : value) (cmd : string) : option (value → result value) :=
  match app with
  | VUser _ "greeter" =>
      if cmd =? "greet" then Some (fun name => Ok (VStr ("Hello " ++ text name)))
      else None
  | VUser _ "test" =>
      if cmd =? "call" then Some (fun _ => Ok (VStr "I a module")) else None
  | _ => None
  end.

Definition w : world :=
  Build_world loadJson import_module call_factory member.

Definition plain : config :=
  {| c_rootDirectory := None; c_sourcesDirectory := None; c_packagesDirectory := None;
     c_defaultApp := VUndefined; c_defaultCmd := VUndefined; c_defaultData := VUndefined |}.

Definition with_default : config :=
  {| c_rootDirectory := None; c_sourcesDirectory := None; c_packagesDirectory := None;
     c_defaultApp := VStr "greeter"; c_defaultCmd := VStr "greet";
     c_defaultData := VStr "Nobody" |}.

Definition fresh (c : config) : state :=
  match constructor c with Ok st => st | Fail _ => blank c end.

(** Entries of a batch. *)
Definition greet (name : string) : list (string * value) :=
  [("pkg", VStr "greeter"); ("cmd", VStr "greet"); ("data", VStr name)].

Definition shout : list (string * value) :=
  [("pkg", VStr "shouter"); ("cmd", VStr "shout"); ("data", VStr "Hey You!!!")].

Definition call_test : list (string * value) :=
  [("pkg", VStr "test"); ("cmd", VStr "call")].

End Fixture.

(** ** Further notions *)

(** How often the Source Loader was asked for [sourcePath]. *)
Fixpoint imports_of (sourcePath : value) (t : list event) : nat :=
  match t with
  | [] => 0
  | EvImport _ s :: r => (if same_key s sourcePath then 1 else 0) + imports_of sourcePath r
  | _ :: r => imports_of sourcePath r
  end.

(** A descriptor's [dependencies] with nothing to resolve: absent, or
    without a non-empty [packages] or [sources] array. *)
Definition no_dependencies (dependencies : value) : bool :=
  let d := default_param dependencies (VObj []) in
  negb (nullish d)
  && match nonempty_array (default_param (get_prop d "packages") (VArr [])) with
     | Some _ => false | None => true
     end
  && match nonempty_array (default_param (get_prop d "sources") (VArr [])) with
     | Some _ => false | None => true
     end.


(** [respects R m]: however [m] ends, [R] relates the state it started
    in to the state it ends in. *)
Definition respects (R : state → state → Prop) {A} (m : M A) : Prop :=
  ∀ st r st', m st = (r, st') → R st st'.

(** [reaches w st st']: some sequence of calls made from outside takes
    the instance from [st] to [st'].  The calls are those of the four
    methods that register or execute, of [loadPackage] and [import], and
    of the three methods of a Builder that [register] handed out.  The
    three queries on the module table leave the instance as it is. *)
Inductive reaches (w : world) : state → state → Prop :=
  | reaches_here st :
      reaches w st st
  | reaches_method n o st r st1 st2 :
      exec w n o st = (r, st1) → reaches w st1 st2 → reaches w st st2
  | reaches_loadPackage path st r st1 st2 :
      loadPackage w path st = (r, st1) → reaches w st1 st2 → reaches w st st2
  | reaches_import sourcePath st r st1 st2 :
      import w sourcePath st = (r, st1) → reaches w st1 st2 → reaches w st st2
  | reaches_inject b deps st r st1 st2 :
      inject b deps st = (r, st1) → reaches w st1 st2 → reaches w st st2
  | reaches_applySettings b settings st r st1 st2 :
      applySettings b settings st = (r, st1) → reaches w st1 st2 → reaches w st st2
  | reaches_build b st r st1 st2 :
      build w b st = (r, st1) → reaches w st1 st2 → reaches w st st2.

(** [names_a_source w dir k]: [k] is a string, and the descriptor the
    loader has for it under [dir] has a [source]. *)
Definition names_a_source (w : world) (dir : string) (k : value) : bool :=
  match k with
  | VStr p =>
      match loadJson w (packagePath_of dir p) with
      | Ok pkg => truthy (get_prop pkg "source")
      | Fail _ => false
      end
  | _ => false
  end.

(** ** More packages

    The packages of [Fixture], and two built from a Builder that is not
    there: "hello" names "welcome", which is itself built from the Builder
    of "greeter"; "loop" names itself. *)

Module Catalogue.

Definition hello : value :=
  VObj [("name", VStr "hello"); ("builder", VStr "welcome");
        ("factorySettings", VObj [("greeting", VStr "Hello")])].

Definition loop : value :=
  VObj [("name", VStr "loop"); ("builder", VStr "loop")].

Definition loadJson (path : string) : result value :=
  if path =? "./packages/hello.json" then Ok hello
  else if path =? "./packages/loop.json" then Ok loop
  else Fixture.loadJson path.

Definition w : world :=
  Build_world loadJson Fixture.import_module Fixture.call_factory Fixture.member.

(** A fresh instance, and the instance after [register("greeter", false)]
    and after [register("greeter")]. *)
Definition start : state := Fixture.fresh Fixture.plain.

Definition with_builder : state :=
  snd (exec Fixture.w 1 (Register (VStr "greeter") (VBool false)) start).

Definition with_module : state :=
  snd (exec Fixture.w 1 (Register (VStr "greeter") (VBool true)) start).

End Catalogue.

(** * Properties *)

(** ** Maps and sets *)

Lemma same_key_eq a b : same_key a b = true → a = b.
Proof.
  destruct a, b; simpl; try discriminate; try reflexivity; intros H.
  - apply Bool.eqb_prop in H. congruence.
  - apply Z.eqb_eq in H. congruence.
  - apply String.eqb_eq in H. congruence.
  - apply Nat.eqb_eq in H.
    destruct b, b0; simpl in H; try discriminate; reflexivity.
  - apply Nat.eqb_eq in H. congruence.
  - apply andb_true_iff in H as [Ha Hc].
    apply Nat.eqb_eq in Ha. apply String.eqb_eq in Hc. congruence.
Qed.

Lemma same_key_str s : same_key (VStr s) (VStr s) = true.
Proof. simpl. apply String.eqb_refl. Qed.

Lemma same_key_trans_false j k k' :
  same_key k k' = true → same_key j k = false → same_key j k' = false.
Proof. intros H Hj. apply same_key_eq in H. congruence. Qed.

Lemma map_get_set_eq k v m :
  same_key k k = true → map_get k (map_set k v m) = Some v.
Proof.
  intros Hk. induction m as [|[k' v'] r IH]; simpl.
  - by rewrite Hk.
  - destruct (same_key k k') eqn:E; simpl; by rewrite E.
Qed.

Lemma map_get_set_ne j k v m :
  same_key j k = false → map_get j (map_set k v m) = map_get j m.
Proof.
  intros Hj. induction m as [|[k' v'] r IH]; simpl.
  - by rewrite Hj.
  - destruct (same_key k k') eqn:E; simpl.
    + by rewrite (same_key_trans_false j k k' E Hj).
    + by rewrite IH.
Qed.

Lemma map_has_set_eq k v m : same_key k k = true → map_has k (map_set k v m) = true.
Proof. intros Hk. unfold map_has. by rewrite map_get_set_eq. Qed.

Lemma map_has_set_mono j k v m : map_has j m = true → map_has j (map_set k v m) = true.
Proof.
  unfold map_has. intros H.
  destruct (same_key j k) eqn:E.
  - apply same_key_eq in E as ->.
    assert (Hk : same_key k k = true).
    { clear -H. induction m as [|[k' v'] r IH]; simpl in *; [done|].
      destruct (same_key k k') eqn:E; [|by apply IH].
      by rewrite <- (same_key_eq _ _ E) in E. }
    by rewrite map_get_set_eq.
  - by rewrite map_get_set_ne.
Qed.

Lemma map_has_set_inv j k v m :
  map_has j (map_set k v m) = true → map_has j m = true ∨ j = k.
Proof.
  unfold map_has. intros H.
  destruct (same_key j k) eqn:E.
  - right. by apply same_key_eq.
  - left. by rewrite map_get_set_ne in H.
Qed.

Lemma js_get_set_eq s v m : js_get (VStr s) (map_set (VStr s) v m) = v.
Proof. unfold js_get. by rewrite map_get_set_eq; [|apply same_key_str]. Qed.

Lemma map_has_js_get k m : map_has k m = false → js_get k m = VUndefined.
Proof. unfold map_has, js_get. by destruct (map_get k m). Qed.

Lemma set_has_add_mono j k s : set_has j s = true → set_has j (set_add k s) = true.
Proof.
  unfold set_add. intros H. destruct (set_has k s); [done|].
  unfold set_has in *. rewrite existsb_app, H. done.
Qed.

Lemma set_has_add_eq s l : set_has (VStr s) (set_add (VStr s) l) = true.
Proof.
  unfold set_add. destruct (set_has (VStr s) l) eqn:E; [done|].
  unfold set_has. rewrite existsb_app. simpl. rewrite String.eqb_refl.
  by rewrite orb_true_r.
Qed.

Lemma default_param_idem v d : default_param (default_param v d) d = default_param v d.
Proof. destruct v; try reflexivity. by destruct d. Qed.

(** ** Sequencing *)

Lemma bind_Ret {A B} (m : M A) (k : A → M B) st a st1 :
  m st = (Ret a, st1) → bind m k st = k a st1.
Proof. intros H. unfold bind. by rewrite H. Qed.

Lemma bind_Throw {A B} (m : M A) (k : A → M B) st e st1 :
  m st = (Throw e, st1) → bind m k st = (Throw e, st1).
Proof. intros H. unfold bind. by rewrite H. Qed.

Lemma bind_Diverge {A B} (m : M A) (k : A → M B) st st1 :
  m st = (Diverge, st1) → bind m k st = (Diverge, st1).
Proof. intros H. unfold bind. by rewrite H. Qed.

Lemma bind_inv_Ret {A B} (m : M A) (k : A → M B) st b st' :
  bind m k st = (Ret b, st') →
  ∃ a st1, m st = (Ret a, st1) ∧ k a st1 = (Ret b, st').
Proof.
  unfold bind. destruct (m st) as [[a|e|] st1]; intros H; try discriminate.
  by exists a, st1.
Qed.

(** ** Loading a descriptor *)

Lemma loadPackage_str w p st :
  loadPackage w (VStr p) st =
    let path := packagePath_of (packagesDirectory st) p in
    let st1 := emit (EvLoadJson path) (emit (EvLog ("loading package " ++ path)) st) in
    match loadJson w path with
    | Ok pkg => (Ret pkg, set_packages (set_add (VStr p)) st1)
    | Fail e => (Throw (ErrPackageLoad path e), st1)
    end.
Proof.
  unfold loadPackage, try_catch, bind, get, modify, lift; simpl.
  by destruct (loadJson w _).
Qed.

Lemma loadPackage_ret w v st pkg st1 :
  loadPackage w v st = (Ret pkg, st1) →
  ∃ p, default_param v (VStr "") = VStr p
       ∧ loadJson w (packagePath_of (packagesDirectory st) p) = Ok pkg
       ∧ st1 = loaded p st.
Proof.
  intros H.
  destruct (default_param v (VStr "")) as [| | | |p| | | | |] eqn:E;
    try (unfold loadPackage in H; rewrite E in H; discriminate H).
  exists p. split; [done|].
  assert (Hv : loadPackage w v st = loadPackage w (VStr p) st).
  { unfold loadPackage. by rewrite E. }
  rewrite Hv, loadPackage_str in H. cbv zeta in H.
  destruct (loadJson w _) as [pkg'|e]; [|discriminate].
  by injection H as -> <-.
Qed.

(** ** Fuel *)


Lemma refines_refl {A} (m : M A) : refines m m.
Proof. by intros st r st' H _. Qed.

Lemma refines_bind {A B} (m m' : M A) (k k' : A → M B) :
  refines m m' → (∀ a, refines (k a) (k' a)) → refines (bind m k) (bind m' k').
Proof.
  intros Hm Hk st r st'. unfold bind.
  destruct (m st) as [[a|e|] st1] eqn:E; intros H Hr.
  - rewrite (Hm _ _ _ E); [|done]. by apply Hk.
  - rewrite (Hm _ _ _ E); done.
  - congruence.
Qed.

Lemma refines_try_catch {A} (m m' : M A) (h h' : exn → M A) :
  refines m m' → (∀ e, refines (h e) (h' e)) →
  refines (try_catch m h) (try_catch m' h').
Proof.
  intros Hm Hh st r st'. unfold try_catch.
  destruct (m st) as [[a|e|] st1] eqn:E; intros H Hr.
  - rewrite (Hm _ _ _ E); done.
  - rewrite (Hm _ _ _ E); [|done]. by apply Hh.
  - congruence.
Qed.

Lemma refines_for_each {A} (l : list A) (f f' : A → M unit) :
  (∀ a, refines (f a) (f' a)) → refines (for_each l f) (for_each l f').
Proof.
  intros Hf. induction l as [|x r IH]; simpl.
  - apply refines_refl.
  - apply refines_bind; [apply Hf | intros _; apply IH].
Qed.

Ltac refines_step :=
  first
    [ apply refines_refl
    | match goal with H : ∀ o, refines _ _ |- _ => apply H end
    | apply refines_bind; [|intro]
    | apply refines_try_catch; [|intro]
    | apply refines_for_each; intro
    | match goal with
      | |- refines (if ?b then _ else _) _ => destruct b
      | |- refines (match ?x with _ => _ end) _ => destruct x
      end ].

Section Monotone.

Variable w : world.
Variables rec rec' : op → M value.
Hypothesis rec_le : ∀ o, refines (rec o) (rec' o).

Lemma step_refines o : refines (step w rec o) (step w rec' o).
Proof.
  pose proof rec_le as Hrec.
  destruct o; simpl.
  - unfold register, getDependencies, createModuleFromBuilder, bind_package.
    repeat refines_step.
  - unfold execute, call_member, invoke_builtin. repeat refines_step.
  - unfold executeWithFallback. repeat refines_step.
  - unfold run, run_entry. repeat refines_step.
Qed.

End Monotone.

Lemma exec_refines w (n m : nat) o : (n ≤ m)%nat → refines (exec w n o) (exec w m o).
Proof.
  revert m o. induction n as [|n IH]; intros m o Hle.
  - intros st r st' H Hr. simpl in H. unfold diverge in H. congruence.
  - destruct m as [|m]; [lia|]. simpl.
    apply step_refines. intros o'. apply IH. lia.
Qed.


Lemma evaluates_det w o st r1 st1 r2 st2 :
  evaluates w o st r1 st1 → evaluates w o st r2 st2 → r1 = r2 ∧ st1 = st2.
Proof.
  intros [n [H1 D1]] [m [H2 D2]].
  destruct (Nat.le_ge_cases n m) as [Hle|Hle].
  - pose proof (exec_refines w n m o Hle _ _ _ H1 D1). split; congruence.
  - pose proof (exec_refines w m n o Hle _ _ _ H2 D2). split; congruence.
Qed.

Lemma evaluates_exec w n o st r st' :
  exec w n o st = (r, st') → r ≠ Diverge → evaluates w o st r st'.
Proof. intros H D. by exists n. Qed.

Lemma exec_evaluates w n o st r st' r' st'' :
  evaluates w o st r st' → exec w n o st = (r', st'') → r' ≠ Diverge →
  r' = r ∧ st'' = st'.
Proof.
  intros He H D. eapply evaluates_det; [|exact He]. by exists n.
Qed.

(** ** What no call undoes *)


Lemma grows_refl st : grows st st.
Proof. split; auto. exists []. by rewrite app_nil_r. Qed.

Lemma grows_trans st1 st2 st3 : grows st1 st2 → grows st2 st3 → grows st1 st3.
Proof.
  intros [] []. split; auto; try congruence; try lia.
  destruct grows_trace0 as [l1 H1], grows_trace1 as [l2 H2].
  exists (l1 ++ l2)%list. by rewrite H2, H1, app_assoc.
Qed.

Lemma grows_emit e st : grows st (emit e st).
Proof. split; simpl; auto. by exists [e]. Qed.

Lemma grows_set_next st : grows st (set_next S st).
Proof. split; simpl; auto. exists []. by rewrite app_nil_r. Qed.

Lemma grows_set_heap f st : grows st (set_heap f st).
Proof. split; simpl; auto. exists []. by rewrite app_nil_r. Qed.

Lemma grows_set_sources f st : grows st (set_sources f st).
Proof. split; simpl; auto. exists []. by rewrite app_nil_r. Qed.

Lemma grows_set_packages k st : grows st (set_packages (set_add k) st).
Proof.
  split; simpl; auto using set_has_add_mono. exists []. by rewrite app_nil_r.
Qed.

Lemma grows_set_modules k v st : grows st (set_modules (map_set k v) st).
Proof.
  split; simpl; auto using map_has_set_mono. exists []. by rewrite app_nil_r.
Qed.

Lemma grows_set_builders k v st : grows st (set_builders (map_set k v) st).
Proof.
  split; simpl; auto using map_has_set_mono. exists []. by rewrite app_nil_r.
Qed.


Section Safe.

Variable w : world.

Lemma safe_refl st : safe w st st.
Proof. split; [apply grows_refl | auto]. Qed.

Lemma safe_trans st1 st2 st3 : safe w st1 st2 → safe w st2 st3 → safe w st1 st3.
Proof.
  intros [G1 B1] [G2 B2]. split; [by eapply grows_trans|].
  intros k H. destruct (B2 k H) as [H2|H2]; [by apply B1|].
  right. by rewrite <- (grows_packagesDirectory _ _ G1).
Qed.

Lemma safe_same_builders st st' :
  grows st st' → builders st' = builders st → safe w st st'.
Proof. intros G E. split; [done|]. intros k. rewrite E. auto. Qed.

Lemma safe_set_builders k v st :
  sourced w (packagesDirectory st) k → safe w st (set_builders (map_set k v) st).
Proof.
  intros Hk. split; [apply grows_set_builders|]. simpl. intros j H.
  destruct (map_has_set_inv _ _ _ _ H) as [?| ->]; auto.
Qed.

Lemma sourced_stable st st' k :
  safe w st st' → sourced w (packagesDirectory st) k → sourced w (packagesDirectory st') k.
Proof. intros [G _]. by rewrite (grows_packagesDirectory _ _ G). Qed.

Variable P : state → Prop.
Hypothesis P_stable : ∀ st st', P st → safe w st st' → P st'.

Lemma keeps_ret {A} (a : A) : keeps w P (ret a).
Proof. intros st r st' _ [= _ <-]. apply safe_refl. Qed.

Lemma keeps_throw {A} e : keeps w P (@throw A e).
Proof. intros st r st' _ [= _ <-]. apply safe_refl. Qed.

Lemma keeps_get {A} (f : state → A) : keeps w P (get f).
Proof. intros st r st' _ [= _ <-]. apply safe_refl. Qed.

Lemma keeps_lift {A} (x : result A) : keeps w P (lift x).
Proof. destruct x; [apply keeps_ret | apply keeps_throw]. Qed.

Lemma keeps_modify f : (∀ st, P st → safe w st (f st)) → keeps w P (modify f).
Proof. intros Hf st r st' HP [= _ <-]. by apply Hf. Qed.

Lemma keeps_bind {A B} (m : M A) (k : A → M B) :
  keeps w P m → (∀ a, keeps w P (k a)) → keeps w P (bind m k).
Proof.
  intros Hm Hk st r st' HP. unfold bind.
  destruct (m st) as [[a|e|] st1] eqn:E; intros H.
  - pose proof (Hm _ _ _ HP E) as H1.
    eapply safe_trans; [exact H1|]. eapply Hk; [|exact H]. by eapply P_stable.
  - injection H as <- <-. by eapply Hm.
  - injection H as <- <-. by eapply Hm.
Qed.

Lemma keeps_try_catch {A} (m : M A) (h : exn → M A) :
  keeps w P m → (∀ e, keeps w P (h e)) → keeps w P (try_catch m h).
Proof.
  intros Hm Hh st r st' HP. unfold try_catch.
  destruct (m st) as [[a|e|] st1] eqn:E; intros H.
  - injection H as <- <-. by eapply Hm.
  - pose proof (Hm _ _ _ HP E) as H1.
    eapply safe_trans; [exact H1|]. eapply Hh; [|exact H]. by eapply P_stable.
  - injection H as <- <-. by eapply Hm.
Qed.

Lemma keeps_for_each {A} (l : list A) (f : A → M unit) :
  (∀ a, keeps w P (f a)) → keeps w P (for_each l f).
Proof.
  intros Hf. induction l as [|x r IH]; simpl.
  - apply keeps_ret.
  - apply keeps_bind; [apply Hf | intros _; apply IH].
Qed.

End Safe.

Ltac keeps_step :=
  first
    [ apply keeps_ret | apply keeps_throw | apply keeps_get | apply keeps_lift
    | apply keeps_modify; intros ? ?;
      first [ apply safe_same_builders; [|reflexivity];
              first [ apply grows_emit | apply grows_set_next | apply grows_set_heap
                    | apply grows_set_sources | apply grows_set_packages
                    | apply grows_set_modules ]
            | apply safe_set_builders; assumption ]
    | match goal with H : ∀ o, keeps _ _ _ |- _ => apply H end
    | apply keeps_bind; [assumption| |intro]
    | apply keeps_try_catch; [assumption| |intro]
    | apply keeps_for_each; [assumption|intro]
    | match goal with
      | |- keeps _ _ (if ?b then _ else _) => destruct b
      | |- keeps _ _ (match ?x with _ => _ end) => destruct x
      end ].

Lemma keeps_weaken w (P Q : state → Prop) {A} (m : M A) :
  (∀ st, Q st → P st) → keeps w P m → keeps w Q m.
Proof. intros HPQ Hm st r st' HQ. apply Hm. by apply HPQ. Qed.

Section Keeps.

Variable w : world.
Variable P : state → Prop.
Hypothesis P_stable : ∀ st st', P st → safe w st st' → P st'.

Lemma keeps_build b : keeps w P (build w b).
Proof. unfold build, not_a_builder. repeat keeps_step. Qed.

Lemma keeps_applySettings b fs : keeps w P (applySettings b fs).
Proof. unfold applySettings, not_a_builder. repeat keeps_step. Qed.

Lemma keeps_loadPackage path : keeps w P (loadPackage w path).
Proof. unfold loadPackage. repeat keeps_step. Qed.

Lemma keeps_import sourcePath : keeps w P (import w sourcePath).
Proof. unfold import. repeat keeps_step. Qed.

Lemma keeps_registerBuilder id f deps :
  (∀ st, P st → sourced w (packagesDirectory st) id) →
  keeps w P (registerBuilder id f deps).
Proof.
  intros Hid.
  unfold registerBuilder, createBuilder, inject, not_a_builder.
  repeat first [ keeps_step
               | apply keeps_modify; intros ? ?; apply safe_set_builders; by apply Hid ].
Qed.

Lemma keeps_parseDependencies a b : keeps w P (parseDependencies a b).
Proof. unfold parseDependencies. repeat keeps_step. Qed.

Variable rec : op → M value.
Hypothesis rec_keeps : ∀ o, keeps w P (rec o).

Lemma keeps_createModuleFromBuilder a b c : keeps w P (createModuleFromBuilder w rec a b c).
Proof.
  pose proof rec_keeps.
  unfold createModuleFromBuilder.
  repeat first [ apply keeps_build | apply keeps_applySettings | keeps_step ].
Qed.

Lemma keeps_getDependencies d : keeps w P (getDependencies w rec d).
Proof.
  pose proof rec_keeps.
  unfold getDependencies, bind_package, bind_source.
  repeat first [ apply keeps_parseDependencies | apply keeps_import | keeps_step ].
Qed.

End Keeps.

Section KeepsRegister.

Variable w : world.
Variable rec : op → M value.
Hypothesis rec_keeps : ∀ o, keeps w (λ _, True) (rec o).

Lemma keeps_register id build : keeps w (λ _, True) (register w rec id build).
Proof.
  assert (Htrue : ∀ st st' : state, True → safe w st st' → True) by done.
  intros st r st' _ H. unfold register in H.
  unfold bind at 1, get at 1 in H.
  destruct (registered _ _ st); [injection H as _ <-; apply safe_refl|].
  unfold bind at 1 in H.
  destruct (loadPackage w _ st) as [[pkg|e|] st1] eqn:EL;
    try (injection H as <- <-; by eapply (keeps_loadPackage w (λ _, True))).
  eapply safe_trans; [by eapply (keeps_loadPackage w (λ _, True))|].
  destruct (loadPackage_ret _ _ _ _ _ EL) as (p & Hid & Hload & Hst1).
  rewrite default_param_idem in Hid.
  destruct (nullish pkg); [injection H as _ <-; apply safe_refl|].
  destruct (truthy (get_prop pkg "source")) eqn:Hs.
  - set (P := λ s, sourced w (packagesDirectory s) (VStr p)).
    assert (HP : ∀ s s', P s → safe w s s' → P s').
    { intros s s' Hp Hsafe. by eapply sourced_stable. }
    assert (Hrec : ∀ o, keeps w P (rec o)).
    { intros o. by apply (keeps_weaken w (λ _, True)). }
    assert (P st1) as Hst.
    { subst st1. exists p, pkg. by repeat split. }
    revert H. apply (λ K : keeps w P _, K st1 r st' Hst). rewrite Hid.
    repeat first [ apply keeps_getDependencies | apply keeps_import
                 | apply keeps_createModuleFromBuilder
                 | apply keeps_registerBuilder; [done|done]
                 | keeps_step ]; assumption.
  - revert H. apply (λ K : keeps w (λ _, True) _, K st1 r st' I).
    destruct (truthy (get_prop pkg "builder")).
    + by apply keeps_createModuleFromBuilder.
    + by apply keeps_throw.
Qed.

Lemma keeps_step_op o : keeps w (λ _, True) (step w rec o).
Proof.
  assert (Htrue : ∀ st st' : state, True → safe w st st' → True) by done.
  pose proof rec_keeps.
  destruct o; simpl.
  - apply keeps_register.
  - unfold execute, call_member, invoke_builtin, isString, hasValue,
      hasNotModule, getModule.
    repeat keeps_step.
  - unfold executeWithFallback. repeat keeps_step.
  - unfold run, run_entry. repeat keeps_step.
Qed.

End KeepsRegister.

Lemma exec_keeps w n o : keeps w (λ _, True) (exec w n o).
Proof.
  revert o. induction n as [|n IH]; intros o; simpl.
  - intros st r st' _ [= _ <-]. apply safe_refl.
  - by apply keeps_step_op.
Qed.

Lemma exec_safe w n o st r st' : exec w n o st = (r, st') → safe w st st'.
Proof. by apply exec_keeps. Qed.

Lemma exec_grows w n o st r st' : exec w n o st = (r, st') → grows st st'.
Proof. intros H. by apply (exec_safe w n o st r st'). Qed.

(** ** Dependency resolution *)

Lemma parseDependencies_one_argument packageID st :
  parseDependencies packageID VUndefined st
    = (Throw (TypeError (PropertyOfNullish "dependency")), st).
Proof. reflexivity. Qed.

Lemma nonempty_array_cons v l : nonempty_array v = Some l → ∃ x r, l = x :: r.
Proof. destruct v as [| | | | |[|x r]| | | |]; simpl; intros [= <-]; eauto. Qed.

Section Dependencies.

Variable w : world.
Variable rec : op → M value.

Lemma bind_package_throws pkg st :
  bind_package rec pkg st = (Throw (TypeError (PropertyOfNullish "dependency")), st).
Proof. reflexivity. Qed.

Lemma bind_source_throws source st :
  bind_source w source st = (Throw (TypeError (PropertyOfNullish "dependency")), st).
Proof. reflexivity. Qed.

Lemma getDependencies_packages_throw d first others st :
  get_prop d "packages" = VArr (first :: others) →
  getDependencies w rec d st
    = (Throw (TypeError (PropertyOfNullish "dependency")), st).
Proof.
  intros H. unfold getDependencies.
  destruct d; try discriminate H. simpl in *. by rewrite H.
Qed.

Lemma getDependencies_sources_throw d first others st :
  get_prop d "sources" = VArr (first :: others) →
  getDependencies w rec d st
    = (Throw (TypeError (PropertyOfNullish "dependency")), st).
Proof.
  intros H. unfold getDependencies.
  destruct d; try discriminate H. simpl in *. rewrite H. simpl.
  unfold bind.
  destruct (nonempty_array _) as [l|] eqn:E; [|reflexivity].
  by destruct (nonempty_array_cons _ _ E) as (x & r & ->).
Qed.

(** A call of [getDependencies] that returns has bound nothing. *)
Lemma getDependencies_returns d st r st' :
  getDependencies w rec d st = (r, st') →
  st' = st ∧ (r = Ret (VObj []) ∨ ∃ e, r = Throw e).
Proof.
  unfold getDependencies.
  destruct (nullish (default_param d (VObj []))).
  { intros [= <- <-]. eauto. }
  unfold bind.
  destruct (nonempty_array (default_param (get_prop _ "packages") _)) as [l|] eqn:E.
  { destruct (nonempty_array_cons _ _ E) as (x & r' & ->).
    simpl. intros [= <- <-]. eauto. }
  destruct (nonempty_array (default_param (get_prop _ "sources") _)) as [l|] eqn:E'.
  { destruct (nonempty_array_cons _ _ E') as (x & r' & ->).
    simpl. intros [= <- <-]. eauto. }
  simpl. intros [= <- <-]. eauto.
Qed.

(** What [register] does once the descriptor of a package with a [source]
    is loaded, up to the end of dependency resolution. *)
Lemma register_source_dependencies_throw p build st pkg :
  registered (VStr p) (default_param build (VBool true)) st = None →
  loadJson w (packagePath_of (packagesDirectory st) p) = Ok pkg →
  truthy (get_prop pkg "source") = true →
  (∃ first others,
     get_prop (get_prop pkg "dependencies") "packages" = VArr (first :: others)
     ∨ get_prop (get_prop pkg "dependencies") "sources" = VArr (first :: others)) →
  ∃ st',
    register w rec (VStr p) build st
      = (Throw (TypeError (PropertyOfNullish "dependency")), st')
    ∧ modules st' = modules st ∧ builders st' = builders st
    ∧ heap st' = heap st ∧ sources st' = sources st.
Proof.
  intros Hmiss Hload Hsrc (first & others & Hdeps).
  assert (Hpkg : nullish pkg = false) by (by destruct pkg).
  eexists. split.
  - unfold register. cbn [default_param].
    unfold bind at 1. unfold get at 1. rewrite Hmiss.
    unfold bind at 1. rewrite loadPackage_str. cbv zeta. rewrite Hload, Hpkg, Hsrc.
    unfold bind at 1.
    destruct Hdeps as [H|H];
      [ erewrite getDependencies_packages_throw by exact H
      | erewrite getDependencies_sources_throw by exact H ]; reflexivity.
  - by simpl.
Qed.

End Dependencies.

(** ** What a call that returns has done *)

Section Returns.

Variable w : world.
Variable rec : op → M value.

Lemma applySettings_ret b fs st v st' :
  applySettings b fs st = (Ret v, st') →
  ∃ a, b = VBuilder a ∧ v = b ∧ st' = set_heap (alter (with_settings fs) a) st.
Proof.
  destruct b; simpl; try discriminate.
  unfold bind, modify, ret. intros [= <- <-]. eauto.
Qed.

Lemma build_ret a st v st' :
  build w (VBuilder a) st = (Ret v, st') →
  ∃ o, heap st !! a = Some o ∧ callable (b_factory o) = true
       ∧ call_factory w (b_factory o) (b_dependencies o) (b_settings o) (next st) = Ok v
       ∧ st' = set_next S st.
Proof.
  unfold build, bind, get, throw.
  destruct (heap st !! a) as [o|] eqn:Eo; [|discriminate].
  destruct (callable (b_factory o)) eqn:Ec; [|discriminate].
  unfold modify, lift. simpl.
  destruct (call_factory w _ _ _ _) eqn:E; [|discriminate].
  intros [= <- <-]. by exists o.
Qed.

Lemma createModuleFromBuilder_returns moduleID builderId fs st v st' :
  createModuleFromBuilder w rec moduleID builderId fs st = (Ret v, st') →
  ∃ st1 a o,
    (if map_has (default_param builderId (VStr "")) (builders st) then st1 = st
     else ∃ u, rec (Register (default_param builderId (VStr "")) (VBool false)) st
               = (Ret u, st1))
    ∧ js_get (default_param builderId (VStr "")) (builders st1) = VBuilder a
    ∧ heap st1 !! a = Some o
    ∧ call_factory w (b_factory o) (b_dependencies o) fs (next st1) = Ok v
    ∧ st' = built (default_param moduleID (VStr "")) v a fs st1.
Proof.
  unfold createModuleFromBuilder. intros H.
  apply bind_inv_Ret in H as (known & st0 & Hk & H).
  injection Hk as <- <-.
  apply bind_inv_Ret in H as ([] & st1 & Hens & H).
  apply bind_inv_Ret in H as (Builder & st2 & HB & H).
  injection HB as <- <-.
  apply bind_inv_Ret in H as (conf & st3 & Hconf & H).
  apply applySettings_ret in Hconf as (a & Ha & -> & ->).
  apply bind_inv_Ret in H as (m & st4 & Hm & H).
  rewrite Ha in Hm. apply build_ret in Hm as (o & Ho & Hc & Hcall & ->).
  unfold bind, modify, ret in H. injection H as <- <-.
  simpl in Ho. rewrite lookup_alter_eq in Ho.
  destruct (heap st1 !! a) as [o0|] eqn:Eo; [|discriminate].
  injection Ho as <-. simpl in Hcall.
  exists st1, a, o0. repeat split; try done.
  destruct (map_has _ (builders st)).
  - by injection Hens as <-.
  - apply bind_inv_Ret in Hens as (u & st9 & Hu & Hr).
    injection Hr as <-. by exists u.
Qed.

Lemma import_ret sourcePath st src st' :
  import w sourcePath st = (Ret src, st') →
  (map_get sourcePath (sources st) = Some src ∧ st' = st)
  ∨ (map_get sourcePath (sources st) = None
     ∧ import_module w (sourcesDirectory st) sourcePath = Ok src
     ∧ st' = set_sources (map_set sourcePath src)
               (emit (EvImport (sourcesDirectory st) sourcePath) st)).
Proof.
  unfold import, bind, get.
  destruct (map_get sourcePath (sources st)) as [s|].
  - intros [= <- <-]. by left.
  - unfold try_catch, bind, get, modify, lift; simpl.
    destruct (import_module w _ _) as [s|e] eqn:E; simpl; [|discriminate].
    intros [= <- <-]. by right.
Qed.

Lemma registerBuilder_eq id factory deps st :
  registerBuilder id factory deps st
    = (Ret (VBuilder (next st)), builder_registered id factory deps st).
Proof. reflexivity. Qed.

(** The ways in which [register] returns. *)
Lemma register_returns id build st v st' :
  register w rec id build st = (Ret v, st') →
  (registered (default_param id (VStr "")) (default_param build (VBool true)) st = Some v
   ∧ st' = st)
  ∨ ∃ p pkg,
      registered (default_param id (VStr "")) (default_param build (VBool true)) st = None
      ∧ default_param id (VStr "") = VStr p
      ∧ loadJson w (packagePath_of (packagesDirectory st) p) = Ok pkg
      ∧ nullish pkg = false
      ∧ ((truthy (get_prop pkg "source") = true
          ∧ ∃ src st2,
              import w (get_prop pkg "source") (loaded p st) = (Ret src, st2)
              ∧ nullish src = false
              ∧ let st3 := builder_registered (VStr p) (get_prop src "factory")
                             (VObj []) st2 in
                if truthy (default_param build (VBool true))
                then createModuleFromBuilder w rec (VStr p) (VStr p)
                       (get_prop pkg "factorySettings") st3 = (Ret v, st')
                else v = VBuilder (next st2) ∧ st' = st3)
         ∨ (truthy (get_prop pkg "source") = false
            ∧ truthy (get_prop pkg "builder") = true
            ∧ createModuleFromBuilder w rec (VStr p) (get_prop pkg "builder")
                (get_prop pkg "factorySettings") (loaded p st) = (Ret v, st'))).
Proof.
  unfold register. intros H.
  apply bind_inv_Ret in H as (hit & st0 & Hhit & H).
  injection Hhit as <- <-.
  destruct (registered _ _ st) as [u|] eqn:Ereg.
  { injection H as <- <-. by left. }
  right.
  apply bind_inv_Ret in H as (pkg & st1 & Hload & H).
  apply loadPackage_ret in Hload as (p & Hid & Hjson & ->).
  rewrite default_param_idem in Hid.
  exists p, pkg. rewrite Hid in *.
  destruct (nullish pkg) eqn:Hn; [discriminate|].
  repeat split; try done.
  destruct (truthy (get_prop pkg "source")) eqn:Hs.
  - left. split; [done|].
    apply bind_inv_Ret in H as (deps & st2 & Hdeps & H).
    apply getDependencies_returns in Hdeps as [-> [[= ->]|[e [=]]]].
    apply bind_inv_Ret in H as (src & st2 & Hsrc & H).
    exists src, st2. split; [done|].
    destruct (nullish src); [discriminate|]. split; [done|].
    rewrite (bind_Ret _ _ _ _ _ (registerBuilder_eq _ _ _ _)) in H.
    cbv zeta.
    destruct (truthy (default_param build (VBool true))); [done|].
    by injection H as <- <-.
  - right. split; [done|].
    destruct (truthy (get_prop pkg "builder")); [done|discriminate].
Qed.

Lemma registered_Some id build st v :
  registered id build st = Some v →
  set_has id (packages st) = true ∧ truthy v = true
  ∧ v = (if truthy build then js_get id (modules st) else js_get id (builders st)).
Proof.
  unfold registered.
  destruct (set_has id (packages st)); [|discriminate].
  destruct (truthy (if truthy build then _ else _)) eqn:E; [|discriminate].
  intros [= <-]. by repeat split.
Qed.

(** With [build] on, what [register] returns is what it left under [id]. *)
Lemma register_stored id build st v st' :
  register w rec id build st = (Ret v, st') →
  truthy (default_param build (VBool true)) = true →
  js_get (default_param id (VStr "")) (modules st') = v.
Proof.
  intros H Hb.
  apply register_returns in H
    as [[Hreg ->]|(p & pkg & Hmiss & Hid & Hload & Hn & [(Hs & src & st2 & Hsrc & Hns & H)|(Hs & Hbd & H)])].
  - apply registered_Some in Hreg as (_ & _ & ->). by rewrite Hb.
  - cbv zeta in H. rewrite Hb in H. rewrite Hid.
    apply createModuleFromBuilder_returns in H as (st1 & a & o & _ & _ & _ & _ & ->).
    apply js_get_set_eq.
  - rewrite Hid.
    apply createModuleFromBuilder_returns in H as (st1 & a & o & _ & _ & _ & _ & ->).
    apply js_get_set_eq.
Qed.

Lemma truthy_js_get_has k m : truthy (js_get k m) = true → map_has k m = true.
Proof. unfold js_get, map_has. by destruct (map_get k m). Qed.

(** With [build] on, [register] returns with a module stored under [id]. *)
Lemma register_has id build st v st' :
  register w rec id build st = (Ret v, st') →
  truthy (default_param build (VBool true)) = true →
  map_has (default_param id (VStr "")) (modules st') = true.
Proof.
  intros H Hb.
  apply register_returns in H
    as [[Hreg ->]|(p & pkg & Hmiss & Hid & Hload & Hn & [(Hs & src & st2 & Hsrc & Hns & H)|(Hs & Hbd & H)])].
  - apply registered_Some in Hreg as (_ & Hv & ->). rewrite Hb in Hv.
    by apply truthy_js_get_has.
  - cbv zeta in H. rewrite Hb in H. rewrite Hid.
    apply createModuleFromBuilder_returns in H as (st1 & a & o & _ & _ & _ & _ & ->).
    apply map_has_set_eq, same_key_str.
  - rewrite Hid.
    apply createModuleFromBuilder_returns in H as (st1 & a & o & _ & _ & _ & _ & ->).
    apply map_has_set_eq, same_key_str.
Qed.

End Returns.

(** ** Counting descriptor loads *)

Lemma loads_of_app path t1 t2 :
  loads_of path (t1 ++ t2) = (loads_of path t1 + loads_of path t2)%nat.
Proof.
  induction t1 as [|[q| | |] t1 IH]; simpl; rewrite ?IH; lia.
Qed.

Lemma loads_of_loaded path p st :
  loads_of path (trace (loaded p st))
  = (loads_of path (trace st)
     + if String.eqb (packagePath_of (packagesDirectory st) p) path then 1 else 0)%nat.
Proof.
  unfold loaded. simpl. rewrite !loads_of_app. simpl. lia.
Qed.

Lemma import_ret_loads w sourcePath st src st' path :
  import w sourcePath st = (Ret src, st') →
  loads_of path (trace st') = loads_of path (trace st)
  ∧ builders st' = builders st ∧ modules st' = modules st
  ∧ packages st' = packages st ∧ packagesDirectory st' = packagesDirectory st.
Proof.
  intros H. apply import_ret in H as [[_ ->]|(_ & _ & ->)]; [done|].
  simpl. rewrite loads_of_app. simpl. by rewrite Nat.add_0_r.
Qed.

Section LoadsOnce.

Variable w : world.

(** A nested [register(b, false)] that returns and leaves a Builder under
    [b] where there was none has loaded the descriptor of [b], which has
    a [source], and nothing else. *)
Lemma nested_registration_loads k b st u st1 path pkg :
  exec w k (Register b (VBool false)) st = (Ret u, st1) →
  map_has b (builders st) = false →
  map_has b (builders st1) = true →
  loadJson w path = Ok pkg →
  truthy (get_prop pkg "source") = false →
  loads_of path (trace st1) = loads_of path (trace st).
Proof.
  intros H Hnot Hhas Hpath Hnosrc.
  destruct (proj2 (exec_safe w _ _ _ _ _ H) b Hhas) as [Hold|(q & pkgq & -> & Hq & Hsrcq)];
    [congruence|].
  destruct k as [|k]; [discriminate|]. simpl in H.
  apply register_returns in H
    as [[Hreg ->]|(p' & pkg' & Hmiss & Hid & Hload & Hn & [(Hs & src & st2 & Hsrc & Hns & H)|(Hs & Hbd & H)])].
  - done.
  - cbn [default_param] in Hid. injection Hid as <-.
    cbv zeta in H. cbn [default_param truthy] in H. destruct H as [_ ->].
    simpl. destruct (import_ret_loads w _ _ _ _ path Hsrc) as (-> & _).
    rewrite loads_of_loaded.
    destruct (packagePath_of (packagesDirectory st) q =? path) eqn:E; [|lia].
    apply String.eqb_eq in E. congruence.
  - cbn [default_param] in Hid. injection Hid as <-. congruence.
Qed.

(** A call of [register] that returns has asked the Descriptor Loader for
    the descriptor of its [id] at most once. *)
Lemma register_loads_once n id build st v st1 p :
  exec w n (Register id build) st = (Ret v, st1) →
  default_param id (VStr "") = VStr p →
  (loads_of (packagePath_of (packagesDirectory st) p) (trace st1)
   ≤ S (loads_of (packagePath_of (packagesDirectory st) p) (trace st)))%nat.
Proof.
  intros H Hp.
  destruct n as [|n]; [discriminate|]. simpl in H.
  set (path := packagePath_of (packagesDirectory st) p).
  apply register_returns in H
    as [[Hreg ->]|(p' & pkg & Hmiss & Hid & Hload & Hn & [(Hs & src & st2 & Hsrc & Hns & H)|(Hs & Hbd & H)])].
  - lia.
  - rewrite Hp in Hid. injection Hid as <-.
    destruct (import_ret_loads w _ _ _ _ path Hsrc) as (Hl2 & Hb2 & _).
    assert (Hl : (loads_of path (trace st2) ≤ S (loads_of path (trace st)))%nat).
    { rewrite Hl2, loads_of_loaded. fold path. rewrite String.eqb_refl. lia. }
    cbv zeta in H.
    destruct (truthy (default_param build (VBool true))).
    + apply createModuleFromBuilder_returns in H as (st3 & a & o & Hens & _ & _ & _ & ->).
      cbn [default_param] in Hens. simpl in Hens.
      rewrite map_has_set_eq in Hens by apply same_key_str. by subst st3.
    + by destruct H as [_ ->].
  - rewrite Hp in Hid. injection Hid as <-.
    apply createModuleFromBuilder_returns in H as (st3 & a & o & Hens & Ha & _ & _ & ->).
    simpl.
    assert (Hl : loads_of path (trace (loaded p st)) = S (loads_of path (trace st))).
    { rewrite loads_of_loaded. fold path. rewrite String.eqb_refl. lia. }
    destruct (map_has _ (builders (loaded p st))) eqn:Ehas.
    + subst st3. lia.
    + destruct Hens as [u Hu].
      rewrite (nested_registration_loads _ _ _ _ _ path pkg Hu Ehas); [lia| |done|done].
      apply truthy_js_get_has. by rewrite Ha.
Qed.

End LoadsOnce.

(** ** Registrations that go through a source *)

Lemma import_ret_frame w sourcePath st src st' :
  import w sourcePath st = (Ret src, st') →
  heap st' = heap st ∧ next st' = next st ∧ modules st' = modules st
  ∧ builders st' = builders st ∧ packages st' = packages st
  ∧ packagesDirectory st' = packagesDirectory st
  ∧ ∀ path, loads_of path (trace st') = loads_of path (trace st).
Proof.
  intros H. apply import_ret in H as [[_ ->]|(_ & _ & ->)]; [done|].
  repeat split. intros path. simpl. rewrite loads_of_app. simpl. lia.
Qed.

(** A registration that goes through the [source] of the descriptor and
    returns. *)
Lemma register_source_returns w rec p build st v st' :
  register w rec (VStr p) build st = (Ret v, st') →
  registered (VStr p) (default_param build (VBool true)) st = None →
  has_source w st (VStr p) →
  ∃ pkg src st2,
    loadJson w (packagePath_of (packagesDirectory st) p) = Ok pkg
    ∧ import w (get_prop pkg "source") (loaded p st) = (Ret src, st2)
    ∧ if truthy (default_param build (VBool true))
      then call_factory w (get_prop src "factory") (VObj [])
             (get_prop pkg "factorySettings") (S (next st2)) = Ok v
           ∧ st' = built (VStr p) v (next st2) (get_prop pkg "factorySettings")
                     (builder_registered (VStr p) (get_prop src "factory") (VObj []) st2)
      else v = VBuilder (next st2)
           ∧ st' = builder_registered (VStr p) (get_prop src "factory") (VObj []) st2.
Proof.
  intros H Hmiss Hsrc.
  apply register_returns in H
    as [[Hreg _]|(p' & pkg & _ & Hid & Hload & Hn & [(Hs & src & st2 & Himp & Hns & H)|(Hs & Hb & H)])].
  - cbn [default_param] in Hreg. congruence.
  - cbn [default_param] in Hid. injection Hid as <-.
    exists pkg, src, st2. split; [done|]. split; [done|].
    cbv zeta in H.
    destruct (truthy (default_param build (VBool true))); [|done].
    apply createModuleFromBuilder_returns in H as (st3 & a & o & Hens & Ha & Ho & Hcall & ->).
    cbn [default_param] in Hens, Ha.
    assert (Hhas : map_has (VStr p)
                     (builders (builder_registered (VStr p) (get_prop src "factory")
                                  (VObj []) st2)) = true).
    { simpl. apply map_has_set_eq, same_key_str. }
    rewrite Hhas in Hens. subst st3.
    assert (Hj : js_get (VStr p)
                   (builders (builder_registered (VStr p) (get_prop src "factory")
                                (VObj []) st2)) = VBuilder (next st2))
      by apply js_get_set_eq.
    rewrite Hj in Ha. injection Ha as <-.
    simpl in Ho. rewrite lookup_alter_eq, lookup_insert_eq in Ho.
    injection Ho as <-. by simpl in Hcall.
  - cbn [default_param] in Hid. injection Hid as <-.
    specialize (Hsrc p pkg eq_refl Hload). congruence.
Qed.

(** ** Path resolution *)


(** C8.  [loadPackage(path)] asks the JSON loader for
    [packagesDirectory + path + ".json"] when [path] starts with "/" and
    for [packagesDirectory + "/" + path + ".json"] otherwise, exactly
    once; it returns what the loader returns, or wraps its failure.  So
    [loadPackage("test")] reads [<packagesDirectory>/test.json] and
    [loadPackage("/subfolder/test")] reads
    [<packagesDirectory>/subfolder/test.json]. *)
Theorem loadPackage_resolves_path w (path : string) st :
  let resolved :=
    if String.prefix "/" path
    then packagesDirectory st ++ path ++ ".json"
    else packagesDirectory st ++ "/" ++ path ++ ".json" in
  (trace (snd (loadPackage w (VStr path) st))
     = (trace st ++ [EvLog ("loading package " ++ resolved); EvLoadJson resolved])%list)
  ∧ fst (loadPackage w (VStr path) st)
     = match loadJson w resolved with
       | Ok pkg => Ret pkg
       | Fail e => Throw (ErrPackageLoad resolved e)
       end
  ∧ loads_of (packagesDirectory st ++ "/test.json")
       (trace (snd (loadPackage w (VStr "test") st)))
     = S (loads_of (packagesDirectory st ++ "/test.json") (trace st))
  ∧ loads_of (packagesDirectory st ++ "/subfolder/test.json")
       (trace (snd (loadPackage w (VStr "/subfolder/test") st)))
     = S (loads_of (packagesDirectory st ++ "/subfolder/test.json") (trace st)).
Proof.
  assert (Hloads : ∀ p t, loads_of p (t ++ [EvLog ("loading package " ++ p); EvLoadJson p])
                          = S (loads_of p t)).
  { intros p t. induction t as [|[q| | |] t IH]; simpl; rewrite ?IH, ?String.eqb_refl; lia. }
  assert (Htrace : ∀ p, trace (snd (loadPackage w (VStr p) st))
     = (trace st ++ [EvLog ("loading package " ++ packagePath_of (packagesDirectory st) p);
                     EvLoadJson (packagePath_of (packagesDirectory st) p)])%list).
  { intros p. rewrite loadPackage_str. simpl.
    destruct (loadJson w _); simpl; by rewrite <- app_assoc. }
  repeat split.
  - apply Htrace.
  - rewrite loadPackage_str. simpl. unfold packagePath_of.
    by destruct (loadJson w _).
  - rewrite Htrace. apply Hloads.
  - rewrite Htrace. apply Hloads.
Qed.

(** ** The constructor *)

Lemma constructor_without_default c :
  truthy (c_defaultApp c) = false →
  constructor c = Ok (set_modules (fun _ => builtin_modules) (blank c)).
Proof.
  intros H. unfold constructor, constructor_body.
  unfold bind at 1. simpl. by rewrite H.
Qed.

Lemma constructor_with_default c :
  truthy (c_defaultApp c) = true →
  constructor c =
    if is_nonempty_string (c_defaultApp c) && is_nonempty_string (c_defaultCmd c)
    then Ok (set_modules
               (fun _ => (builtin_modules
                            ++ [(VStr "executeWithFallback", VBuiltin BExecuteWithFallback)])%list)
               (blank c))
    else Fail (match c_defaultApp c with
               | VStr _ =>
                   match c_defaultCmd c with
                   | VStr _ => ErrMustHaveValue "defaultCmd"
                   | v => ErrMustBeString "defaulCmd" v
                   end
               | v => ErrMustBeString "defaulApp" v
               end).
Proof.
  intros H. unfold constructor, constructor_body.
  unfold bind at 1. simpl. rewrite H.
  destruct (c_defaultApp c) as [| | | |a| | | | |] eqn:Ea; try done;
    simpl in H |- *; try reflexivity.
  unfold bind, isString, hasValue, ret, throw, modify; simpl.
  destruct (a =? "") eqn:E; [done|]. simpl.
  destruct (c_defaultCmd c) as [| | | |k| | | | |]; simpl; try reflexivity.
  by destruct (k =? "").
Qed.

(** C9, as the spec words it, fails: a [defaultData] that is not a string
    is accepted, and a [defaultCmd] supplied without a [defaultApp] is not
    looked at. *)
Lemma constructor_does_not_validate_all_supplied :
  ¬ validates_supplied_defaults
      {| c_rootDirectory := None; c_sourcesDirectory := None;
         c_packagesDirectory := None;
         c_defaultApp := VStr "greeter"; c_defaultCmd := VStr "greet";
         c_defaultData := VObj [("message", VStr "Fallback data")] |}
  ∧ ¬ validates_supplied_defaults
      {| c_rootDirectory := None; c_sourcesDirectory := None;
         c_packagesDirectory := None;
         c_defaultApp := VUndefined; c_defaultCmd := VNum 5;
         c_defaultData := VUndefined |}.
Proof.
  split; intros H; unfold validates_supplied_defaults in H; simpl in H.
  - destruct (H eq_refl) as [Hok _].
    destruct Hok as (_ & _ & Hdata); [eexists; reflexivity|].
    by specialize (Hdata eq_refl).
  - destruct (H eq_refl) as [Hok _].
    destruct Hok as (_ & Hcmd & _); [eexists; reflexivity|].
    by specialize (Hcmd eq_refl).
Qed.

(** C9, amended.  The constructor looks at the triple only when
    [defaultApp] is truthy.  Then it succeeds exactly when [defaultApp]
    and [defaultCmd] are non-empty strings, and the module table of the
    fresh instance has the entry "executeWithFallback", which holds the
    bound method; [defaultData] is never inspected.  When [defaultApp] is
    absent or falsy the constructor succeeds and the table has no such
    entry.  (The method [executeWithFallback] itself is there on every
    instance.) *)
Theorem constructor_validates_default_app_and_cmd (c : config) :
  match constructor c with
  | Ok st =>
      map_has (VStr "executeWithFallback") (modules st) = truthy (c_defaultApp c)
      ∧ (if truthy (c_defaultApp c)
         then is_nonempty_string (c_defaultApp c) && is_nonempty_string (c_defaultCmd c)
         else true) = true
      ∧ defaultApp st = c_defaultApp c
      ∧ defaultCmd st = c_defaultCmd c
      ∧ defaultData st = c_defaultData c
      ∧ map_get (VStr "executeWithFallback") (modules st)
        = (if truthy (c_defaultApp c) then Some (VBuiltin BExecuteWithFallback) else None)
  | Fail e =>
      truthy (c_defaultApp c) = true
      ∧ is_nonempty_string (c_defaultApp c) && is_nonempty_string (c_defaultCmd c) = false
      ∧ ValidationError e
  end.
Proof.
  destruct (truthy (c_defaultApp c)) eqn:Ht.
  - rewrite (constructor_with_default c Ht).
    destruct (is_nonempty_string (c_defaultApp c) && is_nonempty_string (c_defaultCmd c)) eqn:E.
    + by repeat split.
    + repeat split.
      destruct (c_defaultApp c); simpl; try done.
      destruct (c_defaultCmd c); simpl; done.
  - rewrite (constructor_without_default c Ht). by repeat split.
Qed.

(** ** Batches *)

Section Run.

Variable rec : op → M value.

Lemma run_entry_object fs st :
  run_entry rec (VObj fs) st =
    match rec (Execute (field "pkg" fs) (field "cmd" fs) (field "data" fs)) st with
    | (Ret _, st') => (Ret tt, st')
    | (Throw e, st') => (Throw e, st')
    | (Diverge, st') => (Diverge, st')
    end.
Proof. unfold run_entry, bind; simpl. by destruct (rec _ st) as [[?|?|] ?]. Qed.

Lemma for_each_entries_in_order (entries : list (list (string * value))) st r st' :
  (for_each (map VObj entries) (run_entry rec) ;;; ret VUndefined) st = (r, st')
  ↔ runs_in_order rec (map VObj entries) st r st'.
Proof.
  revert st. induction entries as [|e es IH]; intros st; simpl.
  - unfold bind, ret. split.
    + intros [= <- <-]. constructor.
    + intros H. by inversion H.
  - unfold bind at 1 2. unfold bind in IH.
    rewrite run_entry_object.
    destruct (rec (Execute (field "pkg" e) (field "cmd" e) (field "data" e)) st)
      as [[v|x|] st1] eqn:E.
    + rewrite IH. split.
      * intros H. by eapply runs_next.
      * intros H. inversion H; subst; simpl in *; congruence.
    + split.
      * intros [= <- <-]. by apply runs_stop.
      * intros H. inversion H; subst; simpl in *; congruence.
    + split.
      * intros [= <- <-]. by apply runs_out.
      * intros H. inversion H; subst; simpl in *; congruence.
Qed.

Lemma runs_in_order_stops pre e post st st1 x st2 :
  runs_in_order rec pre st (Ret VUndefined) st1 →
  rec (Execute (get_prop e "pkg") (get_prop e "cmd") (get_prop e "data")) st1
    = (Throw x, st2) →
  runs_in_order rec (pre ++ e :: post) st (Throw x) st2.
Proof.
  revert st. induction pre as [|p pre IH]; intros st Hpre He; simpl.
  - inversion Hpre; subst. by apply runs_stop.
  - inversion Hpre; subst. eapply runs_next; [done|]. by apply IH.
Qed.

End Run.

(** C7.  [run] executes the entries of its list one after the other, in
    list order, each from the state the one before left; it returns once
    all have returned, and at the first entry whose [execute] fails it
    fails with that failure, in the state of that failure, whatever comes
    after in the list: no later entry is executed. *)
Theorem run_in_order_until_first_failure w n
    (entries before after : list (list (string * value)))
    (failing : list (string * value)) st st1 x st2 :
  exec w (S n) (Run (VArr (map VObj before))) st = (Ret VUndefined, st1) →
  exec w n (Execute (field "pkg" failing) (field "cmd" failing)
                    (field "data" failing)) st1 = (Throw x, st2) →
  exec w (S n) (Run (VArr (map VObj (before ++ failing :: after)))) st
    = (Throw x, st2)
  ∧ ∀ r st',
      exec w (S n) (Run (VArr (map VObj entries))) st = (r, st')
      ↔ runs_in_order (exec w n) (map VObj entries) st r st'.
Proof.
  intros Hbefore Hfail. split.
  - apply (for_each_entries_in_order (exec w n)).
    apply (for_each_entries_in_order (exec w n)) in Hbefore.
    rewrite map_app. simpl. by eapply runs_in_order_stops.
  - intros r st'. apply for_each_entries_in_order.
Qed.

(** ** Dependency resolution at work *)

(** C1 (the code differs).  [#getDependencies] calls
    [#parseDependencies( pkg )] with one argument where two are declared,
    so [dependency] is [undefined] and reading [dependency.pkg] throws a
    TypeError: registering a package whose descriptor has a [source] and a
    non-empty [dependencies.packages] always fails, before any dependency
    is registered or bound and before a Builder is created. *)
Theorem register_with_package_dependencies_throws w n p build st pkg first others :
  registered (VStr p) (default_param build (VBool true)) st = None →
  loadJson w (packagePath_of (packagesDirectory st) p) = Ok pkg →
  truthy (get_prop pkg "source") = true →
  get_prop (get_prop pkg "dependencies") "packages" = VArr (first :: others) →
  ∃ st',
    exec w (S n) (Register (VStr p) build) st
      = (Throw (TypeError (PropertyOfNullish "dependency")), st')
    ∧ modules st' = modules st ∧ builders st' = builders st
    ∧ heap st' = heap st ∧ sources st' = sources st.
Proof.
  intros Hmiss Hload Hsrc Hdeps. simpl.
  eapply register_source_dependencies_throw; eauto.
Qed.

(** C2 (the code differs).  The loop over [dependencies.sources] makes the
    same one-argument call, so a non-empty [sources] list makes
    registration fail with the same TypeError: the Source Loader is never
    asked for a dependency and nothing is bound. *)
Theorem register_with_source_dependencies_throws w n p build st pkg first others :
  registered (VStr p) (default_param build (VBool true)) st = None →
  loadJson w (packagePath_of (packagesDirectory st) p) = Ok pkg →
  truthy (get_prop pkg "source") = true →
  get_prop (get_prop pkg "dependencies") "sources" = VArr (first :: others) →
  ∃ st',
    exec w (S n) (Register (VStr p) build) st
      = (Throw (TypeError (PropertyOfNullish "dependency")), st')
    ∧ modules st' = modules st ∧ builders st' = builders st
    ∧ heap st' = heap st ∧ sources st' = sources st.
Proof.
  intros Hmiss Hload Hsrc Hdeps. simpl.
  eapply register_source_dependencies_throw; eauto.
Qed.

(** ** Registration through another package's Builder *)

Lemma truthy_not_nullish_prop v k : truthy (get_prop v k) = true → nullish v = false.
Proof. by destruct v. Qed.

Lemma truthy_default v d : truthy v = true → default_param v d = v.
Proof. by destruct v. Qed.

Lemma register_builder_path w rec p build st pkg :
  registered (VStr p) (default_param build (VBool true)) st = None →
  loadJson w (packagePath_of (packagesDirectory st) p) = Ok pkg →
  truthy (get_prop pkg "source") = false →
  truthy (get_prop pkg "builder") = true →
  register w rec (VStr p) build st
    = createModuleFromBuilder w rec (VStr p) (get_prop pkg "builder")
        (get_prop pkg "factorySettings") (loaded p st).
Proof.
  intros Hmiss Hload Hsrc Hb.
  pose proof (truthy_not_nullish_prop _ _ Hb) as Hpkg.
  unfold register. cbn [default_param].
  unfold bind at 1. unfold get at 1. rewrite Hmiss.
  unfold bind at 1. rewrite loadPackage_str. cbv zeta.
  by rewrite Hload, Hpkg, Hsrc, Hb.
Qed.

(** Builders are stored only under ids of packages whose descriptor has a
    [source]: true of a fresh instance, and kept by every call. *)
Lemma builders_sourced_fresh w c st :
  constructor c = Ok st →
  ∀ k, map_has k (builders st) = true → sourced w (packagesDirectory st) k.
Proof.
  intros Hc k.
  assert (builders st = []) as ->; [|discriminate].
  destruct (truthy (c_defaultApp c)) eqn:Ht.
  - rewrite (constructor_with_default c Ht) in Hc.
    destruct (_ && _); [|discriminate]. by injection Hc as <-.
  - rewrite (constructor_without_default c Ht) in Hc. by injection Hc as <-.
Qed.

Lemma builders_sourced_exec w n o st r st' :
  (∀ k, map_has k (builders st) = true → sourced w (packagesDirectory st) k) →
  exec w n o st = (r, st') →
  ∀ k, map_has k (builders st') = true → sourced w (packagesDirectory st') k.
Proof.
  intros Hst H k Hk.
  destruct (exec_safe w n o st r st' H) as [G Hb].
  rewrite (grows_packagesDirectory _ _ G).
  destruct (Hb k Hk); auto.
Qed.

(** A nested [register(b, false)] that returns, for a [b] under which no
    Builder is stored: it stores one exactly when the descriptor of [b]
    has a [source]. *)
Lemma nested_registration_of_a_source w n b st u st1 :
  exec w n (Register b (VBool false)) st = (Ret u, st1) →
  map_has b (builders st) = false →
  names_a_source w (packagesDirectory st) b = true →
  ∃ a factory,
    u = VBuilder a
    ∧ js_get b (builders st1) = VBuilder a
    ∧ heap st1 !! a = Some {| b_factory := factory; b_dependencies := VObj [];
                              b_settings := VUndefined |}.
Proof.
  intros H Hnone Hs.
  destruct b as [| | | |q| | | | |]; try discriminate Hs.
  unfold names_a_source in Hs.
  destruct (loadJson w (packagePath_of (packagesDirectory st) q)) as [pkgq|] eqn:Hq;
    [|discriminate].
  destruct n as [|n]; [discriminate|]. simpl in H.
  apply register_source_returns in H as (pkg & src & st2 & Hload & Himp & Hv).
  - cbn [default_param truthy] in Hv. destruct Hv as [-> ->].
    exists (next st2), (get_prop src "factory"). split; [done|]. split.
    + apply js_get_set_eq.
    + simpl. by rewrite lookup_alter_eq, lookup_insert_eq.
  - unfold registered. cbn [default_param truthy].
    rewrite (map_has_js_get _ _ Hnone). by destruct (set_has _ _).
  - intros q' pkg' Hq' Hload'. cbn [default_param] in Hq'. injection Hq' as <-.
    congruence.
Qed.

Lemma nested_registration_of_a_reference w n b st u st1 :
  exec w n (Register b (VBool false)) st = (Ret u, st1) →
  map_has b (builders st) = false →
  names_a_source w (packagesDirectory st) b = false →
  js_get b (builders st1) = VUndefined.
Proof.
  intros H Hnone Hs. apply map_has_js_get.
  destruct (map_has b (builders st1)) eqn:E; [|done].
  destruct (proj2 (exec_safe w _ _ _ _ _ H) b E) as [Hold|(q & pkgq & -> & Hq & Hsq)].
  - congruence.
  - unfold names_a_source in Hs. by rewrite Hq, Hsq in Hs.
Qed.

(** C3, as the spec words it, fails.  "hello" is built from "welcome",
    which is itself built from the Builder of "greeter".
    [register("welcome", false)] returns the module of "welcome" and
    stores no Builder under "welcome", so [register("hello")] throws a
    TypeError and stores nothing under "hello". *)
Lemma builder_references_do_not_chain :
  ¬ ensures_the_referenced_builder Catalogue.w
  ∧ (let nested := exec Catalogue.w 2 (Register (VStr "welcome") (VBool false))
                     (loaded "hello" Catalogue.start) in
     let whole := exec Catalogue.w 3 (Register (VStr "hello") (VBool true))
                    Catalogue.start in
     fst nested = Ret (VUser 1 "greeter")
     ∧ map_has (VStr "welcome") (builders (snd nested)) = false
     ∧ whole = (Throw (TypeError (PropertyOfNullish "Builder")), snd nested)
     ∧ map_has (VStr "hello") (modules (snd whole)) = false).
Proof.
  split; [|vm_compute; by repeat split].
  intros H.
  set (nested := exec Catalogue.w 2 (Register (VStr "welcome") (VBool false))
                   (loaded "hello" Catalogue.start)).
  assert (E : exec Catalogue.w 2 (Register (get_prop Catalogue.hello "builder") (VBool false))
                (loaded "hello" Catalogue.start)
              = (Ret (VUser 1 "greeter"), snd nested)) by (vm_compute; reflexivity).
  assert (Hno : js_get (get_prop Catalogue.hello "builder") (builders (snd nested))
                = VUndefined) by (vm_compute; reflexivity).
  assert (H1 : registered (VStr "hello") (default_param (VBool true) (VBool true))
                 Catalogue.start = None) by (vm_compute; reflexivity).
  assert (H2 : loadJson Catalogue.w
                 (packagePath_of (packagesDirectory Catalogue.start) "hello")
               = Ok Catalogue.hello) by (vm_compute; reflexivity).
  assert (H3 : truthy (get_prop Catalogue.hello "source") = false)
    by (vm_compute; reflexivity).
  assert (H4 : truthy (get_prop Catalogue.hello "builder") = true)
    by (vm_compute; reflexivity).
  assert (H5 : map_has (get_prop Catalogue.hello "builder") (builders Catalogue.start)
               = false) by (vm_compute; reflexivity).
  destruct (H 2 "hello" (VBool true) Catalogue.start Catalogue.hello _ _
              H1 H2 H3 H4 H5 E) as [a Ha].
  rewrite Hno in Ha. discriminate Ha.
Qed.

(** C3, amended.  For a package whose descriptor has a [builder] and no
    [source], [register(id, build)], once past its opening lookup, does
    the same whatever [build] is.  If no Builder is stored under
    [builder] it first runs [register(builder, false)], whose failure is
    the failure of the whole call.  It then takes what is stored under
    [builder]: a Builder gets this descriptor's [factorySettings], its
    factory is called with the Builder's dependencies and those settings,
    and what the factory returns is stored under [id] and returned (if
    the factory throws, so does the call, with nothing stored under
    [id]).  A nested registration that returns has stored a Builder when
    the descriptor of [builder] has a [source]; when it has none, nothing
    is stored under [builder] and the call throws a TypeError. *)
Theorem register_builder_reference w n p flag other st pkg :
  registered (VStr p) (default_param flag (VBool true)) st = None →
  loadJson w (packagePath_of (packagesDirectory st) p) = Ok pkg →
  truthy (get_prop pkg "source") = false →
  truthy (get_prop pkg "builder") = true →
  let b := get_prop pkg "builder" in
  let fs := get_prop pkg "factorySettings" in
  let ensured :=
    if map_has b (builders st) then (Ret VUndefined, loaded p st)
    else exec w n (Register b (VBool false)) (loaded p st) in
  exec w (S n) (Register (VStr p) flag) st =
    match ensured with
    | (Ret _, st1) =>
        match js_get b (builders st1) with
        | VBuilder a =>
            let configured := set_heap (alter (with_settings fs) a) st1 in
            match heap st1 !! a with
            | Some o =>
                if callable (b_factory o) then
                  match call_factory w (b_factory o) (b_dependencies o) fs (next st1) with
                  | Ok v => (Ret v, set_modules (map_set (VStr p) v) (set_next S configured))
                  | Fail e => (Throw e, set_next S configured)
                  end
                else (Throw (TypeError (NotAFunction "factory")), configured)
            | None => (Throw (TypeError (NotAFunction "factory")), configured)
            end
        | VUndefined | VNull => (Throw (TypeError (PropertyOfNullish "Builder")), st1)
        | _ => (Throw (TypeError (NotAFunction "Builder.applySettings")), st1)
        end
    | (Throw e, st1) => (Throw e, st1)
    | (Diverge, st1) => (Diverge, st1)
    end
  ∧ (∀ v s, js_get (VStr p) (modules (set_modules (map_set (VStr p) v) s)) = v
            ∧ builders (set_modules (map_set (VStr p) v) s) = builders s)
  ∧ (map_has b (builders st) = false →
     ∀ u st1, exec w n (Register b (VBool false)) (loaded p st) = (Ret u, st1) →
       if names_a_source w (packagesDirectory st) b
       then ∃ a factory,
              u = VBuilder a
              ∧ js_get b (builders st1) = VBuilder a
              ∧ heap st1 !! a = Some {| b_factory := factory; b_dependencies := VObj [];
                                        b_settings := VUndefined |}
       else js_get b (builders st1) = VUndefined
            ∧ exec w (S n) (Register (VStr p) flag) st
              = (Throw (TypeError (PropertyOfNullish "Builder")), st1))
  ∧ (registered (VStr p) (default_param other (VBool true)) st = None →
     exec w (S n) (Register (VStr p) other) st
       = exec w (S n) (Register (VStr p) flag) st)
  ∧ ((∀ k, map_has k (builders st) = true → sourced w (packagesDirectory st) k) →
     registered (VStr p) (VBool false) st = None).
Proof.
  intros Hmiss Hload Hsrc Hb b fs ensured.
  assert (Hdef : default_param b (VStr "") = b) by (by apply truthy_default).
  assert (Heq : ∀ f, registered (VStr p) (default_param f (VBool true)) st = None →
                exec w (S n) (Register (VStr p) f) st
                = createModuleFromBuilder w (exec w n) (VStr p) b fs (loaded p st)).
  { intros f Hf. simpl. by apply register_builder_path. }
  assert (Hcm : ∀ s,
      createModuleFromBuilder w (exec w n) (VStr p) b fs s =
        match (if map_has b (builders s) then (Ret VUndefined, s)
               else exec w n (Register b (VBool false)) s) with
        | (Ret _, st1) =>
            match js_get b (builders st1) with
            | VBuilder a =>
                let configured := set_heap (alter (with_settings fs) a) st1 in
                match heap st1 !! a with
                | Some o =>
                    if callable (b_factory o) then
                      match call_factory w (b_factory o) (b_dependencies o) fs (next st1) with
                      | Ok v => (Ret v, set_modules (map_set (VStr p) v) (set_next S configured))
                      | Fail e => (Throw e, set_next S configured)
                      end
                    else (Throw (TypeError (NotAFunction "factory")), configured)
                | None => (Throw (TypeError (NotAFunction "factory")), configured)
                end
            | VUndefined | VNull => (Throw (TypeError (PropertyOfNullish "Builder")), st1)
            | _ => (Throw (TypeError (NotAFunction "Builder.applySettings")), st1)
            end
        | (Throw e, st1) => (Throw e, st1)
        | (Diverge, st1) => (Diverge, st1)
        end).
  {intros s. unfold createModuleFromBuilder. cbn [default_param]. rewrite Hdef.
    unfold bind at 1. unfold get at 1.
    assert (Hrest : ∀ st1 : state,
              (let* Builder := get (λ s0, js_get b (builders s0)) in
               let* configured := applySettings Builder fs in
               let* built := build w configured in
               modify (set_modules (map_set (VStr p) built)) ;;; ret built) st1
              = match js_get b (builders st1) with
                | VBuilder a =>
                    let configured := set_heap (alter (with_settings fs) a) st1 in
                    match heap st1 !! a with
                    | Some o =>
                        if callable (b_factory o) then
                          match call_factory w (b_factory o) (b_dependencies o) fs
                                  (next st1) with
                          | Ok v => (Ret v, set_modules (map_set (VStr p) v)
                                              (set_next S configured))
                          | Fail e => (Throw e, set_next S configured)
                          end
                        else (Throw (TypeError (NotAFunction "factory")), configured)
                    | None => (Throw (TypeError (NotAFunction "factory")), configured)
                    end
                | VUndefined | VNull =>
                    (Throw (TypeError (PropertyOfNullish "Builder")), st1)
                | _ => (Throw (TypeError (NotAFunction "Builder.applySettings")), st1)
                end).
    { intros st1. unfold bind at 1. unfold get at 1.
      destruct (js_get b (builders st1)) as [| | | | | | | |a|]; try reflexivity.
      unfold applySettings, bind, modify, ret, build, get. unfold bind, modify, get.
      cbn beta. cbn [heap set_heap].
      rewrite lookup_alter_eq. destruct (heap st1 !! a) as [o|]; [|reflexivity].
      cbn [fmap option_fmap option_map with_settings b_factory b_dependencies b_settings].
      destruct (callable (b_factory o)); [|reflexivity].
      unfold lift. cbn [next set_heap].
      by destruct (call_factory w _ _ _ _). }
    destruct (map_has b (builders s)).
    - unfold bind at 1. unfold ret at 1. apply Hrest.
    - unfold bind at 1. unfold bind at 1.
      destruct (exec w n (Register b (VBool false)) s) as [[u|e|] st1]; try reflexivity.
      unfold ret at 1. apply Hrest. }
  assert (Hfull : exec w (S n) (Register (VStr p) flag) st =
            match ensured with
            | (Ret _, st1) =>
                match js_get b (builders st1) with
                | VBuilder a =>
                    let configured := set_heap (alter (with_settings fs) a) st1 in
                    match heap st1 !! a with
                    | Some o =>
                        if callable (b_factory o) then
                          match call_factory w (b_factory o) (b_dependencies o) fs
                                  (next st1) with
                          | Ok v => (Ret v, set_modules (map_set (VStr p) v)
                                              (set_next S configured))
                          | Fail e => (Throw e, set_next S configured)
                          end
                        else (Throw (TypeError (NotAFunction "factory")), configured)
                    | None => (Throw (TypeError (NotAFunction "factory")), configured)
                    end
                | VUndefined | VNull =>
                    (Throw (TypeError (PropertyOfNullish "Builder")), st1)
                | _ => (Throw (TypeError (NotAFunction "Builder.applySettings")), st1)
                end
            | (Throw e, st1) => (Throw e, st1)
            | (Diverge, st1) => (Diverge, st1)
            end).
  { rewrite (Heq flag Hmiss), Hcm. reflexivity. }
  split; [exact Hfull|]. split; [|split; [|split]].
  - intros v s. split; [|done]. simpl. apply js_get_set_eq.
  - intros Hnone u st1 Hu.
    destruct (names_a_source w (packagesDirectory st) b) eqn:Hs.
    + by apply (nested_registration_of_a_source w n b (loaded p st) u st1).
    + pose proof (nested_registration_of_a_reference w n b (loaded p st) u st1
                    Hu Hnone Hs) as Hno.
      split; [done|]. rewrite Hfull. unfold ensured. by rewrite Hnone, Hu, Hno.
  - intros Hother. by rewrite (Heq other Hother), (Heq flag Hmiss).
  - intros Hwf. unfold registered.
    destruct (set_has (VStr p) (packages st)); [|done]. cbn [truthy].
    destruct (map_has (VStr p) (builders st)) eqn:Ehas.
    + destruct (Hwf _ Ehas) as (p' & pkg' & [= <-] & Hload' & Hsrc').
      congruence.
    + by rewrite (map_has_js_get _ _ Ehas).
Qed.

(** ** Command dispatch *)

Lemma execute_valid w rec a c data st :
  (a =? "") = false → (c =? "") = false →
  execute w rec (VStr a) (VStr c) data st =
    if map_has (VStr a) (modules st)
    then call_member w rec (js_get (VStr a) (modules st)) c data st
    else match rec (Register (VStr a) VUndefined) st with
         | (Ret _, st1) => call_member w rec (js_get (VStr a) (modules st1)) c data st1
         | (Throw e, st1) => (Throw e, st1)
         | (Diverge, st1) => (Diverge, st1)
         end.
Proof.
  intros Ha Hc. unfold execute, isString, hasValue. cbn [default_param].
  rewrite Ha, Hc. unfold bind, ret, get. cbn [property_key].
  destruct (map_has (VStr a) (modules st)); [done|].
  by destruct (rec _ st) as [[?|?|] ?].
Qed.

Lemma execute_invalid nextApp cmd data :
  is_nonempty_string (default_param nextApp (VStr ""))
    && is_nonempty_string (default_param cmd (VStr "")) = false →
  ∃ e, ValidationError e
       ∧ ∀ w rec st, execute w rec nextApp cmd data st = (Throw e, st).
Proof.
  intros H. unfold execute, isString, hasValue.
  destruct (default_param nextApp (VStr "")) as [| | | |a| | | | |];
    try (eexists; split; [|reflexivity]; exact I).
  simpl in H. destruct (a =? ""); [eexists; split; [|reflexivity]; exact I|].
  destruct (default_param cmd (VStr "")) as [| | | |c| | | | |];
    try (eexists; split; [|reflexivity]; exact I).
  simpl in H. destruct (c =? ""); [eexists; split; [|reflexivity]; exact I|done].
Qed.

(** C5.  [execute(nextApp, cmd, data)] throws one of the two validation
    errors, touching nothing, unless [nextApp] and [cmd] are non-empty
    strings.  When they are: if no module is stored under [nextApp] it
    runs [register(nextApp)] with [build] left to its default, and a
    failure of that registration is the failure of [execute]; it then
    calls the member named [cmd] of the module (the one [register]
    returned) with [data] and returns or throws what that call does.  A
    module that is [null] or [undefined], or has no callable member named
    [cmd], makes the call throw the engine's TypeError.  A call
    [register(nextApp)] is a call [register(nextApp, true)]. *)
Theorem execute_validates_registers_dispatches w n nextApp cmd data st :
  let a := default_param nextApp (VStr "") in
  let c := default_param cmd (VStr "") in
  (if is_nonempty_string a && is_nonempty_string c
   then ∃ sa sc,
          a = VStr sa ∧ c = VStr sc
          ∧ exec w (S n) (Execute nextApp cmd data) st =
              if map_has a (modules st)
              then call_member w (exec w n) (js_get a (modules st)) sc data st
              else match exec w n (Register a VUndefined) st with
                   | (Ret app, st1) => call_member w (exec w n) app sc data st1
                   | (Throw e, st1) => (Throw e, st1)
                   | (Diverge, st1) => (Diverge, st1)
                   end
   else ∃ e, ValidationError e
             ∧ exec w (S n) (Execute nextApp cmd data) st = (Throw e, st))
  ∧ exec w n (Register a VUndefined) = exec w n (Register a (VBool true))
  ∧ (∀ rec app k st1,
       (∀ b, app = VBuiltin b → k ≠ "call" ∧ k ≠ "apply") →
       call_member w rec app k data st1 =
         if nullish app then (Throw (TypeError (PropertyOfNullish "app")), st1)
         else match member w app k with
              | Some f =>
                  match f data with
                  | Ok v => (Ret v, st1)
                  | Fail e => (Throw e, st1)
                  end
              | None => (Throw (TypeError (NotAFunction "app[cmd]")), st1)
              end)
  ∧ (∀ rec app k st1,
       (∀ b, app = VBuiltin b → k ≠ "call" ∧ k ≠ "apply") →
       nullish app = true ∨ member w app k = None →
       ∃ e, ExecutionError e ∧ call_member w rec app k data st1 = (Throw e, st1))
  ∧ (∀ sa sc app f,
       nextApp = VStr sa → cmd = VStr sc → (sa =? "") = false → (sc =? "") = false →
       map_get (VStr sa) (modules st) = Some app →
       match app with VUndefined | VNull | VBuiltin _ => False | _ => True end →
       member w app sc = Some f →
       exec w (S n) (Execute nextApp cmd data) st =
         match f data with
         | Ok v => (Ret v, st)
         | Fail e => (Throw e, st)
         end).
Proof.
  intros a c.
  assert (Hcall : ∀ rec app k st1,
            (∀ b, app = VBuiltin b → k ≠ "call" ∧ k ≠ "apply") →
            call_member w rec app k data st1 =
              if nullish app then (Throw (TypeError (PropertyOfNullish "app")), st1)
              else match member w app k with
                   | Some f =>
                       match f data with
                       | Ok v => (Ret v, st1)
                       | Fail e => (Throw e, st1)
                       end
                   | None => (Throw (TypeError (NotAFunction "app[cmd]")), st1)
                   end).
  { intros rec app k st1 Hk. unfold call_member.
    destruct (nullish app); [done|].
    assert (Hr : reentered app k = None).
    { destruct app as [| | | | | | |b| |]; try reflexivity.
      destruct (Hk b eq_refl) as [Hc Ha]. unfold reentered, reenters.
      apply String.eqb_neq in Hc, Ha. by rewrite Hc, Ha. }
    rewrite Hr. destruct (member w app k) as [f|]; [|done].
    unfold lift. by destruct (f data). }
  assert (Hexec : ∀ sa sc,
            (sa =? "") = false → (sc =? "") = false →
            exec w (S n) (Execute (VStr sa) (VStr sc) data) st =
              if map_has (VStr sa) (modules st)
              then call_member w (exec w n) (js_get (VStr sa) (modules st)) sc data st
              else match exec w n (Register (VStr sa) VUndefined) st with
                   | (Ret _, st1) =>
                       call_member w (exec w n) (js_get (VStr sa) (modules st1)) sc data st1
                   | (Throw e, st1) => (Throw e, st1)
                   | (Diverge, st1) => (Diverge, st1)
                   end).
  { intros sa sc Ha Hc. simpl exec. unfold execute, isString, hasValue.
    cbn [default_param]. rewrite Ha, Hc. unfold bind, ret, get. cbn [property_key].
    destruct (map_has (VStr sa) (modules st)); [done|].
    by destruct (exec w n (Register (VStr sa) VUndefined) st) as [[?|?|] ?]. }
  split; [|split; [by destruct n|split; [exact Hcall|split]]].
  - destruct (is_nonempty_string a && is_nonempty_string c) eqn:Hv.
    + apply andb_true_iff in Hv as [Ha Hc].
      destruct a as [| | | |sa| | | | |] eqn:Ea; try discriminate Ha.
      destruct c as [| | | |sc| | | | |] eqn:Ec; try discriminate Hc.
      simpl in Ha, Hc. apply negb_true_iff in Ha, Hc.
      assert (nextApp = VStr sa) as ->.
      { subst a. destruct nextApp; simpl in Ea; try done.
        injection Ea as <-. done. }
      assert (cmd = VStr sc) as ->.
      { subst c. destruct cmd; simpl in Ec; try done.
        injection Ec as <-. done. }
      exists sa, sc. split; [done|]. split; [done|].
      rewrite (Hexec sa sc Ha Hc).
      destruct (map_has (VStr sa) (modules st)); [done|].
      destruct (exec w n (Register (VStr sa) VUndefined) st) as [[v|e|] st1] eqn:ER;
        try done.
      destruct n as [|n]; [discriminate|]. simpl in ER.
      pose proof (register_stored w _ _ _ _ _ _ ER eq_refl) as Hv.
      cbn [default_param] in Hv. by rewrite Hv.
    + subst a c. change (exec w (S n) (Execute nextApp cmd data))
        with (execute w (exec w n) nextApp cmd data).
      destruct (execute_invalid nextApp cmd data Hv) as (e & He & Hthrow).
      by exists e.
  - intros rec app k st1 Hk Hno. rewrite (Hcall rec app k st1 Hk).
    destruct (nullish app) eqn:Hn.
    + eexists. split; [by right|done].
    + destruct Hno as [|Hf]; [done|]. rewrite Hf.
      eexists. split; [by left|done].
  - intros sa sc app f -> -> Ha Hc Hget Happ Hf.
    rewrite (Hexec sa sc Ha Hc).
    unfold map_has, js_get. rewrite Hget.
    rewrite Hcall by (intros b ->; done). rewrite Hf.
    by destruct app.
Qed.

(** ** Fallback *)

Lemma exec_Execute_defaults w k nextApp cmd data :
  exec w k (Execute (default_param nextApp (VStr "")) (default_param cmd (VStr "")) data)
    = exec w k (Execute nextApp cmd data).
Proof.
  destruct k as [|k]; [done|]. simpl. unfold execute.
  by rewrite !default_param_idem.
Qed.

Section Fallback.

Variable w : world.
Variables nextApp cmd data : value.
Variable st : state.

Lemma exec_fallback_known k :
  map_has (default_param nextApp (VStr "")) (modules st) = true →
  exec w (S k) (ExecuteWithFallback nextApp cmd data) st
    = exec w k (Execute nextApp cmd data) st.
Proof.
  intros H. simpl. unfold executeWithFallback.
  unfold bind at 1. unfold get at 1. rewrite H.
  unfold bind, ret. by rewrite exec_Execute_defaults.
Qed.

Lemma exec_fallback_unknown k :
  map_has (default_param nextApp (VStr "")) (modules st) = false →
  exec w (S k) (ExecuteWithFallback nextApp cmd data) st =
    match exec w k (Register (default_param nextApp (VStr "")) VUndefined) st with
    | (Ret _, st1) => exec w k (Execute nextApp cmd data) st1
    | (Throw _, st1) =>
        exec w k (Execute (defaultApp st1) (defaultCmd st1) (defaultData st1))
          (emit (EvFallback (default_param nextApp (VStr "")) (defaultApp st1)) st1)
    | (Diverge, st1) => (Diverge, st1)
    end.
Proof.
  intros H. simpl. unfold executeWithFallback.
  unfold bind at 1. unfold get at 1. rewrite H.
  unfold bind at 1. unfold try_catch. unfold bind at 1.
  destruct (exec w k (Register _ VUndefined) st) as [[v|e|] st1]; simpl.
  - by rewrite exec_Execute_defaults.
  - reflexivity.
  - reflexivity.
Qed.

Lemma fallback_known r st' :
  map_has (default_param nextApp (VStr "")) (modules st) = true →
  evaluates w (ExecuteWithFallback nextApp cmd data) st r st'
  ↔ evaluates w (Execute nextApp cmd data) st r st'.
Proof.
  intros H. split; intros [n [Hn D]].
  - destruct n as [|n]; [by injection Hn as <-|].
    rewrite exec_fallback_known in Hn by done. by exists n.
  - exists (S n). by rewrite exec_fallback_known.
Qed.

Lemma fallback_after_registration o st1 r st' :
  map_has (default_param nextApp (VStr "")) (modules st) = false →
  evaluates w (Register (default_param nextApp (VStr "")) VUndefined) st o st1 →
  evaluates w (ExecuteWithFallback nextApp cmd data) st r st'
  ↔ evaluates w
      (match o with
       | Throw _ => Execute (defaultApp st1) (defaultCmd st1) (defaultData st1)
       | _ => Execute nextApp cmd data
       end)
      (match o with
       | Throw _ => emit (EvFallback (default_param nextApp (VStr "")) (defaultApp st1)) st1
       | _ => st1
       end) r st'.
Proof.
  intros H [m [Hm Dm]]. split; intros [n [Hn D]].
  - destruct n as [|n]; [by injection Hn as <-|].
    rewrite exec_fallback_unknown in Hn by done.
    destruct (exec w n (Register (default_param nextApp (VStr "")) VUndefined) st) as [o' st1'] eqn:E.
    assert (o' ≠ Diverge) as D'.
    { intros ->. by injection Hn as <-. }
    destruct (exec_evaluates w n (Register (default_param nextApp (VStr "")) VUndefined) st o st1 o' st1') as [-> ->];
      [by exists m|done|done|].
    destruct o as [v|e|]; [by exists n|by exists n|done].
  - exists (S (max n m)). rewrite exec_fallback_unknown by done.
    rewrite (exec_refines w m (max n m) _ (Nat.le_max_r _ _) _ _ _ Hm Dm).
    split; [|done].
    destruct o as [v|e|]; [| |done];
      by apply (exec_refines w n (max n m) _ (Nat.le_max_l _ _)).
Qed.

End Fallback.

Lemma valid_arguments nextApp cmd :
  is_nonempty_string (default_param nextApp (VStr ""))
    && is_nonempty_string (default_param cmd (VStr "")) = true →
  ∃ a c, nextApp = VStr a ∧ cmd = VStr c ∧ (a =? "") = false ∧ (c =? "") = false.
Proof.
  intros H. apply andb_true_iff in H as [Ha Hc].
  destruct nextApp as [| | | |a| | | | |]; try discriminate Ha.
  destruct cmd as [| | | |c| | | | |]; try discriminate Hc.
  simpl in Ha, Hc. apply negb_true_iff in Ha, Hc. by exists a, c.
Qed.

(** Executing after a registration that succeeded is executing. *)
Lemma execute_after_registration w nextApp cmd data st v st1 r st' :
  map_has (default_param nextApp (VStr "")) (modules st) = false →
  evaluates w (Register (default_param nextApp (VStr "")) VUndefined) st (Ret v) st1 →
  evaluates w (Execute nextApp cmd data) st1 r st' →
  ∃ st'', evaluates w (Execute nextApp cmd data) st r st''
          ∧ (is_nonempty_string (default_param nextApp (VStr ""))
               && is_nonempty_string (default_param cmd (VStr "")) = true → st'' = st').
Proof.
  intros Hnew [m [Hm Dm]] [k [Hk Dk]].
  destruct (is_nonempty_string (default_param nextApp (VStr ""))
              && is_nonempty_string (default_param cmd (VStr ""))) eqn:Hv.
  - destruct (valid_arguments _ _ Hv) as (a & c & -> & -> & Ha & Hc).
    cbn [default_param] in *.
    exists st'. split; [|done].
    destruct k as [|k]; [by injection Hk as <-|].
    destruct m as [|m]; [discriminate|].
    pose proof (register_stored w _ _ _ _ _ _ Hm eq_refl) as Hstored.
    pose proof (register_has w _ _ _ _ _ _ Hm eq_refl) as Hhas.
    cbn [default_param] in Hstored, Hhas.
    set (K := max k (S m)).
    pose proof (exec_refines w (S k) (S K) _ ltac:(lia) _ _ _ Hk Dk) as HK.
    pose proof (exec_refines w (S m) K _ ltac:(lia) _ _ _ Hm Dm) as HR.
    exists (S K). split; [|done].
    simpl in HK |- *. rewrite execute_valid in HK |- * by done.
    by rewrite Hnew, HR, <- HK, Hhas.
  - destruct (execute_invalid nextApp cmd data Hv) as (e & _ & Hthrow).
    exists st. split; [|done].
    destruct k as [|k]; [by injection Hk as <-|].
    simpl in Hk. rewrite Hthrow in Hk. injection Hk as <- <-.
    exists 1. split; [|done]. simpl. apply Hthrow.
Qed.

(** C6.  [executeWithFallback(nextApp, cmd, data)] ends as
    [execute(nextApp, cmd, data)] does when a module is already stored
    under [nextApp], and when it is not and [register(nextApp)] returns;
    when that registration throws, the exception is dropped, the fallback
    is reported, and the call ends as
    [execute(defaultApp, defaultCmd, defaultData)] does: what that second
    call throws is what the caller gets. *)
Theorem executeWithFallback_is_execute_or_default w nextApp cmd data st :
  let a := default_param nextApp (VStr "") in
  (map_has a (modules st) = true →
   ∀ r st', evaluates w (ExecuteWithFallback nextApp cmd data) st r st'
            ↔ evaluates w (Execute nextApp cmd data) st r st')
  ∧ (map_has a (modules st) = false →
     ∀ v st1, evaluates w (Register a VUndefined) st (Ret v) st1 →
     ∀ r st',
       (evaluates w (ExecuteWithFallback nextApp cmd data) st r st'
        ↔ evaluates w (Execute nextApp cmd data) st1 r st')
       ∧ (evaluates w (ExecuteWithFallback nextApp cmd data) st r st' →
          ∃ st'', evaluates w (Execute nextApp cmd data) st r st''
                  ∧ (is_nonempty_string a
                       && is_nonempty_string (default_param cmd (VStr "")) = true →
                     st'' = st')))
  ∧ (map_has a (modules st) = false →
     ∀ e st1, evaluates w (Register a VUndefined) st (Throw e) st1 →
     ∀ r st',
       evaluates w (ExecuteWithFallback nextApp cmd data) st r st'
       ↔ evaluates w (Execute (defaultApp st) (defaultCmd st) (defaultData st))
           (emit (EvFallback a (defaultApp st)) st1) r st').
Proof.
  intros a. split; [|split].
  - intros Hknown r st'. by apply fallback_known.
  - intros Hnew v st1 Hreg r st'.
    pose proof (fallback_after_registration w nextApp cmd data st (Ret v) st1 r st'
                  Hnew Hreg) as Hiff.
    split; [exact Hiff|].
    intros Hf. apply Hiff in Hf. by eapply execute_after_registration.
  - intros Hnew e st1 Hreg r st'.
    pose proof (fallback_after_registration w nextApp cmd data st (Throw e) st1 r st'
                  Hnew Hreg) as Hiff.
    destruct Hreg as [m [Hm _]].
    pose proof (exec_grows w _ _ _ _ _ Hm) as G.
    by rewrite (grows_defaultApp _ _ G), (grows_defaultCmd _ _ G),
      (grows_defaultData _ _ G) in Hiff.
Qed.

(** ** Registering twice *)

Section Twice.

Variable w : world.

Lemma register_hit m id build st v :
  registered (default_param id (VStr "")) (default_param build (VBool true)) st = Some v →
  exec w (S m) (Register id build) st = (Ret v, st).
Proof.
  intros H. simpl. unfold register, bind, get. by rewrite H.
Qed.

Lemma registered_intro p build st v :
  set_has (VStr p) (packages st) = true →
  truthy v = true →
  (if truthy build then js_get (VStr p) (modules st) else js_get (VStr p) (builders st)) = v →
  registered (VStr p) build st = Some v.
Proof.
  intros Hp Hv Hget. unfold registered. by rewrite Hp, Hget, Hv.
Qed.

Lemma register_leaves_registered n id build st v st1 :
  exec w n (Register id build) st = (Ret v, st1) →
  (if truthy (default_param build (VBool true)) then truthy v = true
   else has_source w st id) →
  registered (default_param id (VStr "")) (default_param build (VBool true)) st1 = Some v.
Proof.
  intros H Hyp.
  destruct n as [|n]; [discriminate|]. simpl in H.
  apply register_returns in H
    as [[Hreg ->]|(p & pkg & Hmiss & Hid & Hload & Hn & [(Hs & src & st2 & Hsrc & Hns & H)|(Hs & Hbd & H)])];
    [done| |].
  - rewrite Hid.
    destruct (import_ret_loads w _ _ _ _ "" Hsrc) as (_ & _ & _ & Hpk & _).
    cbv zeta in H.
    destruct (truthy (default_param build (VBool true))) eqn:Hb.
    + apply createModuleFromBuilder_returns in H as (st3 & a & o & Hens & _ & _ & _ & ->).
      cbn [default_param] in Hens. simpl in Hens.
      rewrite map_has_set_eq in Hens by apply same_key_str. subst st3.
      apply registered_intro; [|done|].
      * simpl. rewrite Hpk. apply set_has_add_eq.
      * rewrite Hb. simpl. apply js_get_set_eq.
    + destruct H as [-> ->].
      apply registered_intro; [|done|].
      * simpl. rewrite Hpk. apply set_has_add_eq.
      * rewrite Hb. simpl. apply js_get_set_eq.
  - rewrite Hid.
    destruct (truthy (default_param build (VBool true))) eqn:Hb.
    + apply createModuleFromBuilder_returns in H as (st3 & a & o & Hens & _ & _ & _ & ->).
      apply registered_intro; [|done|].
      * simpl.
        assert (G : grows (loaded p st) st3).
        { destruct (map_has _ (builders (loaded p st))); [subst; apply grows_refl|].
          destruct Hens as [u Hu]. by eapply exec_grows. }
        apply (grows_packages _ _ G). simpl. apply set_has_add_eq.
      * rewrite Hb. simpl. apply js_get_set_eq.
    + specialize (Hyp p pkg Hid Hload). congruence.
Qed.

End Twice.

(** C4, as the spec words it, fails.  [register("welcome", false)], for a
    package built from another package's Builder, stores no Builder under
    "welcome": the second call loads the descriptor again and builds
    again.  And [register("zero")], whose factory returns [0], finds a
    falsy module in the table and also starts over. *)
Lemma repeated_registration_reloads :
  ¬ registration_is_idempotent Fixture.w
  ∧ (let first := exec Fixture.w 3 (Register (VStr "welcome") (VBool false))
                    (Fixture.fresh Fixture.plain) in
     let second := exec Fixture.w 3 (Register (VStr "welcome") (VBool false))
                     (snd first) in
     fst first = Ret (VUser 1 "greeter")
     ∧ fst second = Ret (VUser 2 "greeter")
     ∧ loads_of "./packages/welcome.json" (trace (snd second)) = 2)
  ∧ (let first := exec Fixture.w 3 (Register (VStr "zero") (VBool true))
                    (Fixture.fresh Fixture.plain) in
     let second := exec Fixture.w 3 (Register (VStr "zero") (VBool true))
                     (snd first) in
     fst first = Ret (VNum 0)
     ∧ fst second = Ret (VNum 0)
     ∧ loads_of "./packages/zero.json" (trace (snd second)) = 2).
Proof.
  split; [|split; vm_compute; by repeat split].
  intros H.
  set (call := exec Fixture.w 3 (Register (VStr "welcome") (VBool false))).
  set (first := call (Fixture.fresh Fixture.plain)).
  assert (E1 : call (Fixture.fresh Fixture.plain) = (Ret (VUser 1 "greeter"), snd first))
    by (vm_compute; reflexivity).
  assert (E2 : call (snd first) = (Ret (VUser 2 "greeter"), snd (call (snd first))))
    by (vm_compute; reflexivity).
  destruct (H 3 3 _ _ _ _ _ _ _ E1 E2) as [[=] _]. done.
Qed.

(** C4, amended.  A call [register(id, build)] that returns has asked the
    Descriptor Loader for the descriptor of [id] at most once, and the
    same call made again returns the same value and changes nothing (so
    the loader is not asked again), in these two cases: [build] is on and
    the module returned is truthy, as an object or a function is; [build]
    is off and the descriptor of [id] has a [source], so that what was
    returned is the Builder stored under [id]. *)
Theorem register_twice w n m id build st v st1 :
  exec w n (Register id build) st = (Ret v, st1) →
  (if truthy (default_param build (VBool true)) then truthy v = true
   else has_source w st id) →
  exec w (S m) (Register id build) st1 = (Ret v, st1)
  ∧ ∀ p, default_param id (VStr "") = VStr p →
         (loads_of (packagePath_of (packagesDirectory st) p) (trace st1)
          ≤ S (loads_of (packagePath_of (packagesDirectory st) p) (trace st)))%nat.
Proof.
  intros H Hyp. split.
  - apply register_hit. by eapply register_leaves_registered.
  - intros p Hp. by eapply register_loads_once.
Qed.

(** ** The entries the constructor fills in *)

Lemma constructor_modules c st :
  constructor c = Ok st →
  modules st = (builtin_modules
                ++ if truthy (c_defaultApp c)
                   then [(VStr "executeWithFallback", VBuiltin BExecuteWithFallback)]
                   else [])%list.
Proof.
  destruct (truthy (c_defaultApp c)) eqn:Ht.
  - rewrite (constructor_with_default c Ht).
    destruct (_ && _); [|discriminate]. by intros [= <-].
  - rewrite (constructor_without_default c Ht). by intros [= <-].
Qed.

Lemma builtin_id_entry id rest :
  In id builtin_ids →
  ∃ b, map_get (VStr id) (builtin_modules ++ rest)%list = Some (VBuiltin b).
Proof.
  unfold builtin_ids. simpl.
  intros [<-|[<-|[<-|[<-|[<-|[<-|[<-|[]]]]]]]]; eexists; reflexivity.
Qed.

Lemma call_member_builtin_state w n b k data st :
  reenters k = false ∨ registers b = false →
  snd (call_member w (exec w n) (VBuiltin b) k data st) = st.
Proof.
  intros H. unfold call_member. cbn [nullish reentered].
  destruct (reenters k) eqn:Hk.
  - destruct H as [H|H]; [done|].
    destruct b; try discriminate H; try reflexivity.
    simpl. destruct n as [|n]; [done|]. reflexivity.
  - by destruct (member w (VBuiltin b) k) as [f|]; [destruct (f data)|].
Qed.

(** C10, as worded, fails: [execute("register", "call", data)] runs the
    stored [register] with no argument, which asks the Descriptor Loader
    for the descriptor of the empty id. *)
Lemma execute_register_call_loads :
  ¬ builtins_execute_without_loading Fixture.w Fixture.plain.
Proof.
  intros H.
  set (st := Fixture.fresh Fixture.plain).
  set (call := exec Fixture.w 3 (Execute (VStr "register") (VStr "call") VUndefined)).
  assert (Hc : constructor Fixture.plain = Ok st) by reflexivity.
  assert (Hid : In "register" builtin_ids) by (simpl; tauto).
  assert (E : call st = (fst (call st), snd (call st))) by (by destruct (call st)).
  specialize (H st "register" (VStr "call") VUndefined 3 _ _ Hc Hid E "./packages/.json").
  vm_compute in H. discriminate H.
Qed.

(** C10, amended.  A fresh instance has a stored function under each of
    the seven ids, and under "executeWithFallback" exactly when
    [defaultApp] is truthy; [hasNotModule] answers false for them and
    [listModules] lists them.  No call removes a key from the module
    table.  [execute] on such an id registers nothing: with a [cmd] that
    is a non-empty string it is the call of the member [cmd] of the stored
    function, and that call leaves the instance as it was, so no
    descriptor is loaded, unless [cmd] is "call" or "apply" and the
    function is [register] or [executeWithFallback]. *)
Theorem builtin_entries_stay w c st :
  constructor c = Ok st →
  (∀ id, In id builtin_ids →
     (∃ b, map_get (VStr id) (modules st) = Some (VBuiltin b))
     ∧ hasNotModule (VStr id) st = (Ret (VBool false), st)
     ∧ In (VStr id) (map_keys (modules st)))
  ∧ map_has (VStr "executeWithFallback") (modules st) = truthy (c_defaultApp c)
  ∧ fst (listModules st) = Ret (map_keys (modules st))
  ∧ (∀ k st0, map_has k (modules st0) = true →
       (∀ n o r st', exec w n o st0 = (r, st') → map_has k (modules st') = true)
       ∧ (∀ path r st', loadPackage w path st0 = (r, st') → map_has k (modules st') = true)
       ∧ (∀ sourcePath r st', import w sourcePath st0 = (r, st') →
            map_has k (modules st') = true))
  ∧ (∀ id b n cmd data,
       map_get (VStr id) (modules st) = Some (VBuiltin b) →
       id ≠ "" →
       if is_nonempty_string (default_param cmd (VStr ""))
       then exec w (S n) (Execute (VStr id) cmd data) st
              = call_member w (exec w n) (VBuiltin b)
                  (property_key (default_param cmd (VStr ""))) data st
            ∧ (reenters (property_key (default_param cmd (VStr ""))) = false
               ∨ registers b = false →
               snd (exec w (S n) (Execute (VStr id) cmd data) st) = st)
       else ∃ e, ValidationError e
                 ∧ exec w (S n) (Execute (VStr id) cmd data) st = (Throw e, st)).
Proof.
  intros Hc. pose proof (constructor_modules c st Hc) as Hm.
  split; [|split; [|split; [|split]]].
  - intros id Hid.
    destruct (builtin_id_entry id
                (if truthy (c_defaultApp c)
                 then [(VStr "executeWithFallback", VBuiltin BExecuteWithFallback)]
                 else []) Hid) as [b Hb].
    rewrite <- Hm in Hb. repeat split.
    + by exists b.
    + unfold hasNotModule, get, map_has. by rewrite Hb.
    + rewrite Hm. unfold map_keys. rewrite map_app. apply in_or_app. left.
      unfold builtin_ids in Hid. simpl in Hid |- *.
      destruct Hid as [<-|[<-|[<-|[<-|[<-|[<-|[<-|[]]]]]]]]; tauto.
  - rewrite Hm. by destruct (truthy (c_defaultApp c)).
  - reflexivity.
  - intros k st0 Hk. repeat split.
    + intros n o r st' H. by apply (grows_modules _ _ (exec_grows w n o st0 r st' H)).
    + intros path r st' H.
      apply (grows_modules st0 st'); [|done].
      by apply (keeps_loadPackage w (λ _, True) ltac:(done) path st0 r st' I).
    + intros sourcePath r st' H.
      apply (grows_modules st0 st'); [|done].
      by apply (keeps_import w (λ _, True) ltac:(done) sourcePath st0 r st' I).
  - intros id b n cmd data Hb Hid.
    destruct (is_nonempty_string (default_param cmd (VStr ""))) eqn:Hcmd; cycle 1.
    { destruct (execute_invalid (VStr id) cmd data) as (e & He & Hthrow).
      - cbn [default_param]. by rewrite Hcmd, andb_false_r.
      - exists e. split; [done|]. apply Hthrow. }
    destruct (default_param cmd (VStr "")) as [| | | |k| | | | |] eqn:Ek;
      try discriminate Hcmd.
    simpl in Hcmd. apply negb_true_iff in Hcmd.
    assert (cmd = VStr k) as ->.
    { destruct cmd; simpl in Ek; try done. injection Ek as <-. done. }
    assert (Hid' : (id =? "") = false) by (by apply String.eqb_neq).
    assert (Heq : exec w (S n) (Execute (VStr id) (VStr k) data) st
                  = call_member w (exec w n) (VBuiltin b) k data st).
    { simpl. rewrite execute_valid by done.
      unfold map_has, js_get. by rewrite Hb. }
    split; [done|]. intros H. rewrite Heq.
    by apply call_member_builtin_state.
Qed.

(** ** Concrete runs *)

(** Scenario (b) of the spec: [execute("greeter", "greet", "John")]. *)
Example execute_greeter_greets :
  fst (exec Fixture.w 3 (Execute (VStr "greeter") (VStr "greet") (VStr "John"))
         (Fixture.fresh Fixture.plain))
  = Ret (VStr "Hello John").
Proof. vm_compute. reflexivity. Qed.

(** Scenario (c) of the spec: the package "shouter" does not exist. *)
Example fallback_greets_nobody :
  fst (exec Fixture.w 4
         (ExecuteWithFallback (VStr "shouter") (VStr "shouter") (VStr "Hey You!!!"))
         (Fixture.fresh Fixture.with_default))
  = Ret (VStr "Hello Nobody").
Proof. vm_compute. reflexivity. Qed.

(** Registering "needy", which lists the package "greeter" as a
    dependency, on a fresh instance. *)
Lemma register_with_package_dependencies_throws_witness :
  ∃ st',
    exec Fixture.w 3 (Register (VStr "needy") VUndefined) (Fixture.fresh Fixture.plain)
      = (Throw (TypeError (PropertyOfNullish "dependency")), st')
    ∧ modules st' = modules (Fixture.fresh Fixture.plain)
    ∧ builders st' = builders (Fixture.fresh Fixture.plain)
    ∧ heap st' = heap (Fixture.fresh Fixture.plain)
    ∧ sources st' = sources (Fixture.fresh Fixture.plain).
Proof.
  apply (register_with_package_dependencies_throws Fixture.w 2 "needy" VUndefined
           (Fixture.fresh Fixture.plain) Fixture.needy (VStr "greeter") []);
    vm_compute; reflexivity.
Defined.

(** Registering "reader", which lists the source "/lib.js" as a
    dependency, on a fresh instance. *)
Lemma register_with_source_dependencies_throws_witness :
  ∃ st',
    exec Fixture.w 3 (Register (VStr "reader") VUndefined) (Fixture.fresh Fixture.plain)
      = (Throw (TypeError (PropertyOfNullish "dependency")), st')
    ∧ modules st' = modules (Fixture.fresh Fixture.plain)
    ∧ builders st' = builders (Fixture.fresh Fixture.plain)
    ∧ heap st' = heap (Fixture.fresh Fixture.plain)
    ∧ sources st' = sources (Fixture.fresh Fixture.plain).
Proof.
  apply (register_with_source_dependencies_throws Fixture.w 2 "reader" VUndefined
           (Fixture.fresh Fixture.plain) Fixture.reader
           (VObj [("source", VStr "/lib.js"); ("name", VStr "lib")]) []);
    vm_compute; reflexivity.
Defined.

(** Registering "welcome", built from the Builder of "greeter", with
    [build] off: "greeter" is registered on the way, and the module of
    "welcome" is built, stored and returned. *)
Lemma register_builder_reference_witness :
  fst (exec Fixture.w 2 (Register (VStr "welcome") (VBool false))
         (Fixture.fresh Fixture.plain))
  = Ret (VUser 1 "greeter")
  ∧ js_get (VStr "welcome")
      (modules (snd (exec Fixture.w 2 (Register (VStr "welcome") (VBool false))
                       (Fixture.fresh Fixture.plain))))
    = VUser 1 "greeter"
  ∧ js_get (VStr "greeter")
      (builders (snd (exec Fixture.w 2 (Register (VStr "welcome") (VBool false))
                        (Fixture.fresh Fixture.plain))))
    = VBuilder 0
  ∧ js_get (VStr "welcome")
      (builders (snd (exec Fixture.w 2 (Register (VStr "welcome") (VBool false))
                        (Fixture.fresh Fixture.plain))))
    = VUndefined.
Proof.
  assert (Hrun : exec Fixture.w 2 (Register (VStr "welcome") (VBool false))
                   (Fixture.fresh Fixture.plain)
                 = (Ret (VUser 1 "greeter"),
                    snd (exec Fixture.w 2 (Register (VStr "welcome") (VBool false))
                           (Fixture.fresh Fixture.plain))))
    by (vm_compute; reflexivity).
  assert (H1 : registered (VStr "welcome") (default_param (VBool false) (VBool true))
                 (Fixture.fresh Fixture.plain) = None) by (vm_compute; reflexivity).
  assert (H2 : loadJson Fixture.w
                 (packagePath_of (packagesDirectory (Fixture.fresh Fixture.plain)) "welcome")
               = Ok Fixture.welcome) by (vm_compute; reflexivity).
  assert (H3 : truthy (get_prop Fixture.welcome "source") = false)
    by (vm_compute; reflexivity).
  assert (H4 : truthy (get_prop Fixture.welcome "builder") = true)
    by (vm_compute; reflexivity).
  pose proof (register_builder_reference Fixture.w 1 "welcome" (VBool false) (VBool true)
                (Fixture.fresh Fixture.plain) Fixture.welcome H1 H2 H3 H4) as T.
  cbv zeta in T. destruct T as [T _].
  split; [rewrite T; vm_compute; reflexivity|].
  clear T. vm_compute. repeat split; reflexivity.
Defined.

(** Registering "greeter" a second time. *)
Lemma register_twice_witness :
  exec Fixture.w 1 (Register (VStr "greeter") VUndefined)
    (snd (exec Fixture.w 3 (Register (VStr "greeter") VUndefined)
            (Fixture.fresh Fixture.plain)))
  = (Ret (VUser 1 "greeter"),
     snd (exec Fixture.w 3 (Register (VStr "greeter") VUndefined)
            (Fixture.fresh Fixture.plain))).
Proof.
  assert (H1 : exec Fixture.w 3 (Register (VStr "greeter") VUndefined)
                 (Fixture.fresh Fixture.plain)
               = (Ret (VUser 1 "greeter"),
                  snd (exec Fixture.w 3 (Register (VStr "greeter") VUndefined)
                         (Fixture.fresh Fixture.plain))))
    by (vm_compute; reflexivity).
  assert (H2 : if truthy (default_param VUndefined (VBool true))
               then truthy (VUser 1 "greeter") = true
               else has_source Fixture.w (Fixture.fresh Fixture.plain) (VStr "greeter"))
    by (vm_compute; reflexivity).
  exact (proj1 (register_twice Fixture.w 3 0 (VStr "greeter") VUndefined
                  (Fixture.fresh Fixture.plain) (VUser 1 "greeter") _ H1 H2)).
Defined.

(** A batch whose second entry names a package that does not exist: the
    third entry is not executed. *)
Lemma run_in_order_until_first_failure_witness :
  exec Fixture.w 5
    (Run (VArr (map VObj ([Fixture.greet "John"] ++ Fixture.shout :: [Fixture.call_test]))))
    (Fixture.fresh Fixture.plain)
  = (Throw (ErrPackageLoad "./packages/shouter.json" (Thrown (VStr "NotFound"))),
     snd (exec Fixture.w 4
            (Execute (VStr "shouter") (VStr "shout") (VStr "Hey You!!!"))
            (snd (exec Fixture.w 5 (Run (VArr (map VObj [Fixture.greet "John"])))
                    (Fixture.fresh Fixture.plain))))).
Proof.
  assert (H1 : exec Fixture.w 5 (Run (VArr (map VObj [Fixture.greet "John"])))
                 (Fixture.fresh Fixture.plain)
               = (Ret VUndefined,
                  snd (exec Fixture.w 5 (Run (VArr (map VObj [Fixture.greet "John"])))
                         (Fixture.fresh Fixture.plain))))
    by (vm_compute; reflexivity).
  assert (H2 : exec Fixture.w 4
                 (Execute (field "pkg" Fixture.shout) (field "cmd" Fixture.shout)
                    (field "data" Fixture.shout))
                 (snd (exec Fixture.w 5 (Run (VArr (map VObj [Fixture.greet "John"])))
                         (Fixture.fresh Fixture.plain)))
               = (Throw (ErrPackageLoad "./packages/shouter.json" (Thrown (VStr "NotFound"))),
                  snd (exec Fixture.w 4
                         (Execute (VStr "shouter") (VStr "shout") (VStr "Hey You!!!"))
                         (snd (exec Fixture.w 5
                                 (Run (VArr (map VObj [Fixture.greet "John"])))
                                 (Fixture.fresh Fixture.plain))))))
    by (vm_compute; reflexivity).
  exact (proj1 (run_in_order_until_first_failure Fixture.w 4
                  [] [Fixture.greet "John"] [Fixture.call_test] Fixture.shout
                  _ _ _ _ H1 H2)).
Defined.

(** The entry "register" of a fresh instance. *)
Lemma builtin_entries_stay_witness :
  hasNotModule (VStr "register") (Fixture.fresh Fixture.plain)
  = (Ret (VBool false), Fixture.fresh Fixture.plain).
Proof.
  assert (H : constructor Fixture.plain = Ok (Fixture.fresh Fixture.plain))
    by (vm_compute; reflexivity).
  destruct (builtin_entries_stay Fixture.w Fixture.plain (Fixture.fresh Fixture.plain) H)
    as [Hentries _].
  destruct (Hentries "register") as (_ & Hnot & _); [|exact Hnot].
  simpl. tauto.
Defined.

(** * More of the source *)

(** ** The Source Loader's cache *)

Lemma imports_of_app sp t1 t2 :
  imports_of sp (t1 ++ t2) = (imports_of sp t1 + imports_of sp t2)%nat.
Proof.
  induction t1 as [|[q|d s| |] t1 IH]; simpl; rewrite ?IH; lia.
Qed.


(** ** What [loadPackage] remembers *)


(** ** Registration of a package with a source *)

Lemma getDependencies_none w rec d st :
  no_dependencies d = true → getDependencies w rec d st = (Ret (VObj []), st).
Proof.
  unfold no_dependencies, getDependencies. cbv zeta. intros H.
  apply andb_true_iff in H as [H Hs]. apply andb_true_iff in H as [Hn Hp].
  apply negb_true_iff in Hn. rewrite Hn.
  destruct (nonempty_array (default_param (get_prop _ "packages") _)); [discriminate|].
  destruct (nonempty_array (default_param (get_prop _ "sources") _)); [discriminate|].
  reflexivity.
Qed.

(** [#createModuleFromBuilder] when a live Builder is stored under
    [builderId]: no registration, one build. *)
Lemma createModuleFromBuilder_stored w rec m b fs st a o :
  js_get (VStr b) (builders st) = VBuilder a →
  heap st !! a = Some o →
  createModuleFromBuilder w rec (VStr m) (VStr b) fs st =
    if callable (b_factory o) then
      match call_factory w (b_factory o) (b_dependencies o) fs (next st) with
      | Ok v => (Ret v, built (VStr m) v a fs st)
      | Fail e => (Throw e, set_next S (set_heap (alter (with_settings fs) a) st))
      end
    else (Throw (TypeError (NotAFunction "factory")),
          set_heap (alter (with_settings fs) a) st).
Proof.
  intros Hb Ho. unfold createModuleFromBuilder. cbn [default_param].
  assert (Hhas : map_has (VStr b) (builders st) = true).
  { apply truthy_js_get_has. by rewrite Hb. }
  unfold bind, get, ret. rewrite Hhas, Hb.
  unfold applySettings, bind, modify, ret, build, bind, get.
  cbn [heap set_heap]. rewrite lookup_alter_eq, Ho.
  cbn [fmap option_fmap option_map with_settings b_factory b_dependencies b_settings].
  destruct (callable (b_factory o)); [|reflexivity].
  unfold modify, lift. cbn [next set_heap].
  by destruct (call_factory w _ _ _ _).
Qed.

Lemma register_source_path w rec p build st pkg src st2 :
  registered (VStr p) (default_param build (VBool true)) st = None →
  loadJson w (packagePath_of (packagesDirectory st) p) = Ok pkg →
  truthy (get_prop pkg "source") = true →
  no_dependencies (get_prop pkg "dependencies") = true →
  import w (get_prop pkg "source") (loaded p st) = (Ret src, st2) →
  nullish src = false →
  register w rec (VStr p) build st =
    if truthy (default_param build (VBool true))
    then createModuleFromBuilder w rec (VStr p) (VStr p) (get_prop pkg "factorySettings")
           (builder_registered (VStr p) (get_prop src "factory") (VObj []) st2)
    else (Ret (VBuilder (next st2)),
          builder_registered (VStr p) (get_prop src "factory") (VObj []) st2).
Proof.
  intros Hmiss Hload Hsrc Hdeps Himp Hn.
  pose proof (truthy_not_nullish_prop _ _ Hsrc) as Hpkg.
  unfold register. cbn [default_param].
  unfold bind at 1. unfold get at 1. rewrite Hmiss.
  unfold bind at 1. rewrite loadPackage_str. cbv zeta. rewrite Hload, Hpkg, Hsrc.
  unfold bind at 1. rewrite (getDependencies_none _ _ _ _ Hdeps).
  unfold loaded in Himp.
  unfold bind at 1. rewrite Himp, Hn.
  unfold bind at 1. rewrite registerBuilder_eq.
  by destruct (truthy (default_param build (VBool true))).
Qed.

(** X3.  [register] of a package whose descriptor has a [source] and nothing
    to resolve, on a miss of the opening lookup: a new Builder, holding
    the [factory] export and the empty dependency object, is stored under
    [id] and the module table is not touched.  With [build] off that
    Builder is returned.  With [build] on the factory is called with the
    empty dependency object and the descriptor's [factorySettings]: what
    it returns is stored under [id] and returned; if it throws, or if
    [factory] is not callable, the call fails and the Builder stays
    stored. *)
Theorem register_source_package w n p build st pkg src st2 :
  registered (VStr p) (default_param build (VBool true)) st = None →
  loadJson w (packagePath_of (packagesDirectory st) p) = Ok pkg →
  truthy (get_prop pkg "source") = true →
  no_dependencies (get_prop pkg "dependencies") = true →
  import w (get_prop pkg "source") (loaded p st) = (Ret src, st2) →
  nullish src = false →
  let factory := get_prop src "factory" in
  let fs := get_prop pkg "factorySettings" in
  let st3 := builder_registered (VStr p) factory (VObj []) st2 in
  exec w (S n) (Register (VStr p) build) st =
    (if truthy (default_param build (VBool true)) then
       if callable factory then
         match call_factory w factory (VObj []) fs (S (next st2)) with
         | Ok v => (Ret v, built (VStr p) v (next st2) fs st3)
         | Fail e =>
             (Throw e, set_next S (set_heap (alter (with_settings fs) (next st2)) st3))
         end
       else (Throw (TypeError (NotAFunction "factory")),
             set_heap (alter (with_settings fs) (next st2)) st3)
     else (Ret (VBuilder (next st2)), st3))
  ∧ modules st3 = modules st
  ∧ js_get (VStr p) (builders st3) = VBuilder (next st2)
  ∧ heap st3 !! next st2
    = Some {| b_factory := factory; b_dependencies := VObj [];
              b_settings := VUndefined |}.
Proof.
  intros Hmiss Hload Hsrc Hdeps Himp Hn factory fs st3.
  assert (Hb : js_get (VStr p) (builders st3) = VBuilder (next st2))
    by apply js_get_set_eq.
  assert (Ho : heap st3 !! next st2
               = Some {| b_factory := factory; b_dependencies := VObj [];
                         b_settings := VUndefined |}).
  { simpl. by rewrite lookup_alter_eq, lookup_insert_eq. }
  split; [|split; [|done]].
  - simpl exec. rewrite (register_source_path w _ p build st pkg src st2) by done.
    destruct (truthy (default_param build (VBool true))); [|done].
    fold factory fs st3.
    by rewrite (createModuleFromBuilder_stored w _ p p fs st3 _ _ Hb Ho).
  - destruct (import_ret_loads w _ _ _ _ "" Himp) as (_ & _ & Hm & _).
    simpl. by rewrite Hm.
Qed.

(** ** Registrations that fail *)

(** X4.  [register] on a miss of its opening lookup fails in three ways before
    anything is built.  When the loader fails, the failure is wrapped with
    the resolved path and nothing is remembered.  When the descriptor is
    [null], or has neither a [source] nor a [builder], the call throws
    with the id recorded as loaded.  In all three cases the module table,
    the Builders and the loaded sources are as before. *)
Theorem register_fails_before_building w n p build st :
  registered (VStr p) (default_param build (VBool true)) st = None →
  let path := packagePath_of (packagesDirectory st) p in
  let asked := emit (EvLoadJson path) (emit (EvLog ("loading package " ++ path)) st) in
  (∀ cause, loadJson w path = Fail cause →
     exec w (S n) (Register (VStr p) build) st
       = (Throw (ErrPackageLoad path cause), asked))
  ∧ (∀ pkg, loadJson w path = Ok pkg → nullish pkg = true →
     exec w (S n) (Register (VStr p) build) st
       = (Throw (TypeError (PropertyOfNullish "pkg")), loaded p st))
  ∧ (∀ pkg, loadJson w path = Ok pkg → nullish pkg = false →
     truthy (get_prop pkg "source") = false →
     truthy (get_prop pkg "builder") = false →
     exec w (S n) (Register (VStr p) build) st
       = (Throw (ErrNoSourceOrBuilder (VStr p)), loaded p st))
  ∧ packages asked = packages st
  ∧ set_has (VStr p) (packages (loaded p st)) = true
  ∧ modules (loaded p st) = modules st ∧ builders (loaded p st) = builders st
  ∧ sources (loaded p st) = sources st ∧ heap (loaded p st) = heap st.
Proof.
  intros Hmiss path asked.
  assert (Hstep : register w (exec w n) (VStr p) build st =
            match loadJson w path with
            | Ok pkg =>
                if nullish pkg
                then (Throw (TypeError (PropertyOfNullish "pkg")), loaded p st)
                else if truthy (get_prop pkg "source")
                then register w (exec w n) (VStr p) build st
                else if truthy (get_prop pkg "builder")
                then register w (exec w n) (VStr p) build st
                else (Throw (ErrNoSourceOrBuilder (VStr p)), loaded p st)
            | Fail cause => (Throw (ErrPackageLoad path cause), asked)
            end).
  { destruct (loadJson w path) as [pkg|cause] eqn:Hload.
    - destruct (nullish pkg) eqn:Hn;
        [|destruct (truthy (get_prop pkg "source")) eqn:Hs; [done|];
          destruct (truthy (get_prop pkg "builder")) eqn:Hb; [done|]];
        unfold register; cbn [default_param];
        unfold bind at 1; unfold get at 1; rewrite Hmiss;
        unfold bind at 1; rewrite loadPackage_str; cbv zeta; fold path;
        rewrite Hload, Hn; [done|]. by rewrite Hs, Hb.
    - unfold register. cbn [default_param].
      unfold bind at 1. unfold get at 1. rewrite Hmiss.
      unfold bind at 1. rewrite loadPackage_str. cbv zeta. fold path.
      by rewrite Hload. }
  repeat split; try done.
  - intros cause Hload. simpl exec. by rewrite Hstep, Hload.
  - intros pkg Hload Hn. simpl exec. by rewrite Hstep, Hload, Hn.
  - intros pkg Hload Hn Hs Hb. simpl exec. by rewrite Hstep, Hload, Hn, Hs, Hb.
  - simpl. apply set_has_add_eq.
Qed.

(** ** One package, both flags *)

(** X5.  [register(id, false)] followed by [register(id, true)], for a package
    with a [source] that has no module yet: the second call does not use
    the Builder the first one stored and returned.  It loads the
    descriptor a second time and stores a new Builder under [id], from
    which the module is built; the first Builder is left as it was. *)
Theorem register_builds_from_a_new_builder w n1 n2 p st B st1 v st2 :
  registered (VStr p) (VBool false) st = None →
  has_source w st (VStr p) →
  truthy (js_get (VStr p) (modules st)) = false →
  exec w n1 (Register (VStr p) (VBool false)) st = (Ret B, st1) →
  exec w n2 (Register (VStr p) (VBool true)) st1 = (Ret v, st2) →
  ∃ a a',
    B = VBuilder a
    ∧ js_get (VStr p) (builders st1) = VBuilder a
    ∧ js_get (VStr p) (builders st2) = VBuilder a'
    ∧ a ≠ a'
    ∧ heap st2 !! a = heap st1 !! a
    ∧ js_get (VStr p) (modules st2) = v
    ∧ loads_of (packagePath_of (packagesDirectory st) p) (trace st2)
      = S (S (loads_of (packagePath_of (packagesDirectory st) p) (trace st))).
Proof.
  intros Hmiss Hsrc Hnomod H1 H2.
  destruct n1 as [|n1]; [discriminate|]. destruct n2 as [|n2]; [discriminate|].
  simpl in H1, H2.
  apply register_source_returns in H1 as (pkg & src & s2 & Hload & Himp & HB);
    [|done|done].
  cbn [default_param truthy] in HB. destruct HB as [-> ->].
  destruct (import_ret_frame _ _ _ _ _ Himp) as (Hh & Hnx & Hm & Hb & Hp & Hd & Hl).
  set (st1 := builder_registered (VStr p) (get_prop src "factory") (VObj []) s2) in *.
  assert (Hdir : packagesDirectory st1 = packagesDirectory st) by (by simpl; rewrite Hd).
  assert (Hmiss1 : registered (VStr p) (VBool true) st1 = None).
  { unfold registered. cbn [truthy]. simpl modules. rewrite Hm. simpl modules.
    rewrite Hnomod. by destruct (set_has _ _). }
  assert (Hsrc1 : has_source w st1 (VStr p)).
  { intros q pkg' Hq. rewrite Hdir. by apply Hsrc. }
  apply register_source_returns in H2 as (pkg' & src' & s3 & Hload' & Himp' & Hv);
    [|done|done].
  cbn [default_param truthy] in Hv. destruct Hv as [Hcall ->].
  destruct (import_ret_frame _ _ _ _ _ Himp') as (Hh' & Hnx' & Hm' & Hb' & Hp' & Hd' & Hl').
  exists (next s2), (next s3).
  assert (Hne : next s2 ≠ next s3).
  { rewrite Hnx'. simpl. lia. }
  repeat split; try done.
  - apply js_get_set_eq.
  - simpl. apply js_get_set_eq.
  - simpl. rewrite lookup_alter_ne, lookup_alter_ne, lookup_insert_ne by done.
    rewrite Hh'. simpl. reflexivity.
  - simpl. apply js_get_set_eq.
  - simpl. rewrite Hl', loads_of_loaded. simpl trace. rewrite Hl, loads_of_loaded.
    simpl packagesDirectory. rewrite Hd. rewrite !String.eqb_refl. lia.
Qed.

(** X6.  [register(id)] followed by [register(id, false)], for a package with
    a [source] registered for the first time: the second call loads
    nothing and returns the Builder the module was built from, which
    holds the empty dependency object and the descriptor's
    [factorySettings]. *)
Theorem register_returns_the_builder_of_the_module w n m p st v st1 :
  registered (VStr p) (VBool true) st = None →
  has_source w st (VStr p) →
  exec w n (Register (VStr p) (VBool true)) st = (Ret v, st1) →
  ∃ a o pkg,
    exec w (S m) (Register (VStr p) (VBool false)) st1 = (Ret (VBuilder a), st1)
    ∧ heap st1 !! a = Some o
    ∧ loadJson w (packagePath_of (packagesDirectory st) p) = Ok pkg
    ∧ b_dependencies o = VObj []
    ∧ b_settings o = get_prop pkg "factorySettings"
    ∧ call_factory w (b_factory o) (b_dependencies o) (b_settings o) (S a) = Ok v.
Proof.
  intros Hmiss Hsrc H.
  destruct n as [|n]; [discriminate|]. simpl in H.
  apply register_source_returns in H as (pkg & src & s2 & Hload & Himp & Hv);
    [|done|done].
  cbn [default_param truthy] in Hv. destruct Hv as [Hcall ->].
  destruct (import_ret_frame _ _ _ _ _ Himp) as (Hh & Hnx & Hm & Hb & Hp & Hd & Hl).
  exists (next s2),
    (with_settings (get_prop pkg "factorySettings")
       {| b_factory := get_prop src "factory"; b_dependencies := VObj [];
          b_settings := VUndefined |}), pkg.
  repeat split; try done.
  - apply register_hit. cbn [default_param]. apply registered_intro.
    + simpl. rewrite Hp. simpl. apply set_has_add_eq.
    + done.
    + cbn [truthy]. simpl. apply js_get_set_eq.
  - simpl. by rewrite !lookup_alter_eq, lookup_insert_eq.
Qed.

(** ** Fallback without a default *)

(** X7.  On an instance built without [defaultApp], [executeWithFallback] on a
    package whose registration throws does not report that failure: the
    substituted call is [execute(undefined, undefined, undefined)], and
    what the caller gets is the validation error on [nextApp]. *)
Theorem executeWithFallback_without_default_hides_the_failure
    w n nextApp cmd data st e st1 :
  map_has (default_param nextApp (VStr "")) (modules st) = false →
  defaultApp st = VUndefined →
  exec w n (Register (default_param nextApp (VStr "")) VUndefined) st = (Throw e, st1) →
  exec w (S n) (ExecuteWithFallback nextApp cmd data) st
    = (Throw (ErrMustHaveValue "nextApp"),
       emit (EvFallback (default_param nextApp (VStr "")) VUndefined) st1).
Proof.
  intros Hnew Hdef Hreg.
  pose proof (exec_grows w _ _ _ _ _ Hreg) as G.
  rewrite exec_fallback_unknown, Hreg by done.
  rewrite (grows_defaultApp _ _ G), Hdef.
  destruct n as [|n]; [discriminate|]. reflexivity.
Qed.

(** ** Executing registers *)

(** X8.  For an id with no module yet and arguments that pass validation,
    [execute(id, cmd, data)] ends as [register(id)] followed by
    [execute(id, cmd, data)] does; and when [register(id)] throws,
    [execute] throws the same and stops there. *)
Theorem execute_is_register_then_execute w a c data st :
  (a =? "") = false → (c =? "") = false →
  map_has (VStr a) (modules st) = false →
  (∀ v st1 r st',
     evaluates w (Register (VStr a) VUndefined) st (Ret v) st1 →
     (evaluates w (Execute (VStr a) (VStr c) data) st r st'
      ↔ evaluates w (Execute (VStr a) (VStr c) data) st1 r st'))
  ∧ (∀ e st1,
     evaluates w (Register (VStr a) VUndefined) st (Throw e) st1 →
     evaluates w (Execute (VStr a) (VStr c) data) st (Throw e) st1).
Proof.
  intros Ha Hc Hnew. split.
  - intros v st1 r st' Hreg.
    assert (Hvalid : is_nonempty_string (default_param (VStr a) (VStr ""))
                       && is_nonempty_string (default_param (VStr c) (VStr "")) = true).
    { simpl. by rewrite Ha, Hc. }
    split.
    + intros He.
      destruct Hreg as [m [Hm Dm]]. destruct He as [k [Hk Dk]].
      destruct k as [|k]; [by injection Hk as <-|].
      destruct m as [|m]; [discriminate|].
      pose proof (register_has w _ _ _ _ _ _ Hm eq_refl) as Hhas.
      cbn [default_param] in Hhas.
      set (K := max k (S m)).
      pose proof (exec_refines w (S k) (S K) _ ltac:(lia) _ _ _ Hk Dk) as HK.
      pose proof (exec_refines w (S m) K _ ltac:(lia) _ _ _ Hm Dm) as HR.
      simpl in HK. rewrite execute_valid in HK by done. rewrite Hnew, HR in HK.
      exists (S K). split; [|done].
      simpl. rewrite execute_valid by done. by rewrite Hhas.
    + intros He.
      destruct (execute_after_registration w (VStr a) (VStr c) data st v st1 r st'
                  Hnew Hreg He) as (st'' & Hev & Hst).
      by rewrite <- (Hst Hvalid).
  - intros e st1 [m [Hm Dm]]. exists (S m). split; [|done].
    simpl exec. rewrite execute_valid by done. by rewrite Hnew, Hm.
Qed.

(** ** Batches compose *)

Lemma for_each_app {A} (l1 l2 : list A) (f : A → M unit) st :
  for_each (l1 ++ l2) f st =
    match for_each l1 f st with
    | (Ret _, st1) => for_each l2 f st1
    | other => other
    end.
Proof.
  revert st. induction l1 as [|x l1 IH]; intros st; simpl; [done|].
  unfold bind. destruct (f x st) as [[[]|e|] st1]; [apply IH|done|done].
Qed.

(** X9.  [run] of a list followed by another is [run] of the first, then, if
    that returns, [run] of the second from where the first ended; [run]
    of the empty list, like [run()], returns [undefined] and leaves the
    instance as it is; [run] of something that cannot be iterated
    throws. *)
Theorem run_composes w n (first second : list value) st :
  exec w (S n) (Run (VArr (first ++ second))) st =
    match exec w (S n) (Run (VArr first)) st with
    | (Ret _, st1) => exec w (S n) (Run (VArr second)) st1
    | other => other
    end
  ∧ exec w (S n) (Run (VArr [])) st = (Ret VUndefined, st)
  ∧ exec w (S n) (Run VUndefined) st = (Ret VUndefined, st)
  ∧ (∀ v, match v with VUndefined | VArr _ | VStr _ => False | _ => True end →
          exec w (S n) (Run v) st = (Throw (TypeError (NotIterable "packages")), st)).
Proof.
  repeat split.
  - simpl. unfold run. cbn [default_param]. unfold bind.
    rewrite for_each_app.
    by destruct (for_each first (run_entry (exec w n)) st) as [[[]|e|] st1].
  - intros v Hv. by destruct v.
Qed.

(** ** What every sequence of calls respects *)

(** A relation between states that is reflexive and transitive holds
    across a computation as soon as it holds across the steps the
    computation is made of. *)
Section Respects.

Variable R : state → state → Prop.
Hypothesis R_refl : ∀ st, R st st.
Hypothesis R_trans : ∀ st1 st2 st3, R st1 st2 → R st2 st3 → R st1 st3.

Lemma respects_ret {A} (a : A) : respects R (ret a).
Proof. intros st r st' [= _ <-]. apply R_refl. Qed.

Lemma respects_throw {A} e : respects R (@throw A e).
Proof. intros st r st' [= _ <-]. apply R_refl. Qed.

Lemma respects_diverge {A} : respects R (@diverge A).
Proof. intros st r st' [= _ <-]. apply R_refl. Qed.

Lemma respects_get {A} (f : state → A) : respects R (get f).
Proof. intros st r st' [= _ <-]. apply R_refl. Qed.

Lemma respects_lift {A} (x : result A) : respects R (lift x).
Proof. destruct x; [apply respects_ret | apply respects_throw]. Qed.

Lemma respects_modify f : (∀ st, R st (f st)) → respects R (modify f).
Proof. intros Hf st r st' [= _ <-]. apply Hf. Qed.

Lemma respects_bind {A B} (m : M A) (k : A → M B) :
  respects R m → (∀ a, respects R (k a)) → respects R (bind m k).
Proof.
  intros Hm Hk st r st'. unfold bind.
  destruct (m st) as [[a|e|] st1] eqn:E; intros H.
  - eapply R_trans; [by eapply Hm | by eapply Hk].
  - injection H as <- <-. by eapply Hm.
  - injection H as <- <-. by eapply Hm.
Qed.

Lemma respects_try_catch {A} (m : M A) (h : exn → M A) :
  respects R m → (∀ e, respects R (h e)) → respects R (try_catch m h).
Proof.
  intros Hm Hh st r st'. unfold try_catch.
  destruct (m st) as [[a|e|] st1] eqn:E; intros H.
  - injection H as <- <-. by eapply Hm.
  - eapply R_trans; [by eapply Hm | by eapply Hh].
  - injection H as <- <-. by eapply Hm.
Qed.

Lemma respects_for_each {A} (l : list A) (f : A → M unit) :
  (∀ a, respects R (f a)) → respects R (for_each l f).
Proof.
  intros Hf. induction l as [|x r IH]; simpl.
  - apply respects_ret.
  - apply respects_bind; [apply Hf | intros _; apply IH].
Qed.

Ltac respects_step :=
  first
    [ apply respects_ret | apply respects_throw | apply respects_get
    | apply respects_lift | apply respects_diverge
    | apply respects_modify; intro; solve [auto]
    | match goal with H : ∀ x, respects _ _ |- _ => apply H end
    | match goal with H : ∀ x y, respects _ _ |- _ => apply H end
    | match goal with H : ∀ x y z, respects _ _ |- _ => apply H end
    | apply respects_bind; [| intro]
    | apply respects_try_catch; [| intro]
    | apply respects_for_each; intro
    | match goal with
      | |- respects _ (if ?b then _ else _) => destruct b
      | |- respects _ (match ?x with _ => _ end) => destruct x
      end ].

(** *** The steps that write one table *)

Section Leaves.

Variable w : world.
Hypothesis R_log : ∀ line st, R st (emit (EvLog line) st).
Hypothesis R_asked : ∀ path st, R st (emit (EvLoadJson path) st).
Hypothesis R_importing : ∀ dir s st, R st (emit (EvImport dir s) st).
Hypothesis R_next : ∀ st, R st (set_next S st).
Hypothesis R_heap : ∀ f st, R st (set_heap f st).
Hypothesis R_sources : ∀ k v st, R st (set_sources (map_set k v) st).
Hypothesis R_packages : ∀ k st, R st (set_packages (set_add k) st).
Hypothesis R_builders : ∀ k v st, R st (set_builders (map_set k v) st).

Lemma respects_inject b deps : respects R (inject b deps).
Proof. unfold inject, not_a_builder. repeat respects_step. Qed.

Lemma respects_applySettings b fs : respects R (applySettings b fs).
Proof. unfold applySettings, not_a_builder. repeat respects_step. Qed.

Lemma respects_build b : respects R (build w b).
Proof. unfold build, not_a_builder. repeat respects_step. Qed.

Lemma respects_loadPackage path : respects R (loadPackage w path).
Proof. unfold loadPackage. repeat respects_step. Qed.

Lemma respects_import sourcePath : respects R (import w sourcePath).
Proof. unfold import. repeat respects_step. Qed.

Lemma respects_registerBuilder id f deps : respects R (registerBuilder id f deps).
Proof.
  unfold registerBuilder, createBuilder, inject, not_a_builder. repeat respects_step.
Qed.

End Leaves.

(** *** The methods, given the steps *)

Section Calls.

Variable w : world.
Hypothesis R_loadPackage : ∀ path, respects R (loadPackage w path).
Hypothesis R_import : ∀ sourcePath, respects R (import w sourcePath).
Hypothesis R_registerBuilder : ∀ id f deps, respects R (registerBuilder id f deps).
Hypothesis R_applySettings : ∀ b fs, respects R (applySettings b fs).
Hypothesis R_build : ∀ b, respects R (build w b).
Hypothesis R_store : ∀ k v st, R st (set_modules (map_set k v) st).
Hypothesis R_fallback : ∀ a b st, R st (emit (EvFallback a b) st).

Lemma respects_step_op rec o :
  (∀ o, respects R (rec o)) → respects R (step w rec o).
Proof.
  intros Hrec.
  assert (Hp : ∀ a b, respects R (parseDependencies a b)).
  { intros a b. unfold parseDependencies. repeat respects_step. }
  assert (Hc : ∀ a b c, respects R (createModuleFromBuilder w rec a b c)).
  { intros a b c. unfold createModuleFromBuilder. repeat respects_step. }
  assert (Hd : ∀ d, respects R (getDependencies w rec d)).
  { intros d. unfold getDependencies, bind_package, bind_source.
    repeat respects_step. }
  destruct o; simpl.
  - unfold register. repeat respects_step.
  - unfold execute, call_member, invoke_builtin, isString, hasValue,
      hasNotModule, getModule.
    repeat respects_step.
  - unfold executeWithFallback. repeat respects_step.
  - unfold run, run_entry. repeat respects_step.
Qed.

Lemma exec_respects n o : respects R (exec w n o).
Proof.
  revert o. induction n as [|n IH]; intros o; simpl.
  - apply respects_diverge.
  - by apply respects_step_op.
Qed.

Hypothesis R_inject : ∀ b deps, respects R (inject b deps).

Lemma reaches_respects st st' : reaches w st st' → R st st'.
Proof.
  induction 1 as [st|n o st r st1 st2 H _ IH|path st r st1 st2 H _ IH
                 |sp st r st1 st2 H _ IH|b d st r st1 st2 H _ IH
                 |b s st r st1 st2 H _ IH|b st r st1 st2 H _ IH];
    [apply R_refl|..]; (eapply R_trans; [|exact IH]).
  - by eapply exec_respects.
  - by eapply R_loadPackage.
  - by eapply R_import.
  - by eapply R_inject.
  - by eapply R_applySettings.
  - by eapply R_build.
Qed.

End Calls.

End Respects.

(** Nothing that a call does removes a key, a log entry or an address,
    or touches the configuration. *)
Lemma grows_inject b deps : respects grows (inject b deps).
Proof.
  apply (respects_inject grows grows_refl grows_trans). apply grows_set_heap.
Qed.

Lemma reaches_grows w st st' : reaches w st st' → grows st st'.
Proof.
  assert (Hs : ∀ st st' : state, True → safe w st st' → True) by done.
  apply (reaches_respects grows grows_refl grows_trans w);
    auto using grows_set_modules, grows_emit, grows_inject.
  - intros path s r s' H. by apply (keeps_loadPackage w (λ _, True) Hs path s r s' I).
  - intros sp s r s' H. by apply (keeps_import w (λ _, True) Hs sp s r s' I).
  - intros id f d.
    apply (respects_registerBuilder grows grows_refl grows_trans);
      auto using grows_set_heap, grows_set_next, grows_set_builders.
  - intros b fs s r s' H. by apply (keeps_applySettings w (λ _, True) Hs b fs s r s' I).
  - intros b s r s' H. by apply (keeps_build w (λ _, True) Hs b s r s' I).
Qed.

(** ** The configuration *)

(** X10.  Whatever is called on an instance, in whatever order, the three
    directories and the three defaults are those the constructor was
    given (or its defaults for the directories), and no Builder and no
    loaded package id is forgotten. *)
Theorem configuration_never_changes w c st st' :
  constructor c = Ok st →
  reaches w st st' →
  rootDirectory st' = default "" (c_rootDirectory c)
  ∧ sourcesDirectory st' = default "./sources" (c_sourcesDirectory c)
  ∧ packagesDirectory st' = default "./packages" (c_packagesDirectory c)
  ∧ defaultApp st' = c_defaultApp c
  ∧ defaultCmd st' = c_defaultCmd c
  ∧ defaultData st' = c_defaultData c
  ∧ (∀ k st'', reaches w st' st'' →
       (map_has k (builders st') = true → map_has k (builders st'') = true)
       ∧ (set_has k (packages st') = true → set_has k (packages st'') = true)).
Proof.
  intros Hc Hr. apply reaches_grows in Hr as G.
  assert (Hst : ∃ ms, st = set_modules (λ _, ms) (blank c)).
  { destruct (truthy (c_defaultApp c)) eqn:Ht.
    - rewrite (constructor_with_default c Ht) in Hc.
      destruct (_ && _); [|discriminate]. injection Hc as <-. by eexists.
    - rewrite (constructor_without_default c Ht) in Hc. injection Hc as <-.
      by eexists. }
  destruct Hst as [ms ->]. destruct G. simpl in *.
  repeat split; try done.
  - apply reaches_grows in H. by apply (grows_builders _ _ H).
  - apply reaches_grows in H. by apply (grows_packages _ _ H).
Qed.

(** ** The order of the module table *)

Lemma map_keys_set k v m : ∃ l, map_keys (map_set k v m) = (map_keys m ++ l)%list.
Proof.
  induction m as [|[k' v'] r [l IH]]; simpl.
  - by exists [k].
  - destruct (same_key k k'); simpl.
    + exists []. by rewrite app_nil_r.
    + exists l. by rewrite IH.
Qed.

(** After any sequence of calls the keys of the module table are those
    it had, in the same order, followed by new ones. *)
Lemma reaches_appends w st st' :
  reaches w st st' →
  ∃ l, map_keys (modules st') = (map_keys (modules st) ++ l)%list.
Proof.
  set (R := λ st st' : state,
              ∃ l, map_keys (modules st') = (map_keys (modules st) ++ l)%list).
  assert (R_refl : ∀ st, R st st) by (intros s; exists []; by rewrite app_nil_r).
  assert (R_trans : ∀ a b c, R a b → R b c → R a c).
  { intros a b c [l1 H1] [l2 H2]. exists (l1 ++ l2)%list.
    by rewrite H2, H1, app_assoc. }
  assert (R_same : ∀ s s' : state, modules s' = modules s → R s s').
  { intros s s' E. exists []. by rewrite E, app_nil_r. }
  apply (reaches_respects R R_refl R_trans w).
  - intros path. apply (respects_loadPackage R R_refl R_trans); auto.
  - intros sp. apply (respects_import R R_refl R_trans); auto.
  - intros id f d. apply (respects_registerBuilder R R_refl R_trans); auto.
  - intros b fs. apply (respects_applySettings R R_refl R_trans); auto.
  - intros b. apply (respects_build R R_refl R_trans w); auto.
  - intros k v s. apply map_keys_set.
  - auto.
  - intros b d. apply (respects_inject R R_refl R_trans); auto.
Qed.

(** X11.  [listModules] lists ids in the order in which they were first
    stored: the ids the constructor fills in come first, in the order of
    the constructor, and whatever is called later only appends. *)
Theorem listModules_keeps_the_order_of_first_registration w c st st' :
  constructor c = Ok st →
  reaches w st st' →
  (∃ added,
     listModules st' =
       (Ret (map VStr builtin_ids
               ++ (if truthy (c_defaultApp c) then [VStr "executeWithFallback"] else [])
               ++ added)%list, st'))
  ∧ (∀ st'', reaches w st' st'' →
       ∃ later, listModules st'' = (Ret (map_keys (modules st') ++ later)%list, st'')).
Proof.
  intros Hc Hr. split.
  - destruct (reaches_appends w st st' Hr) as [l Hl]. exists l.
    unfold listModules, get. rewrite Hl, (constructor_modules c st Hc).
    unfold map_keys. rewrite map_app, <- app_assoc.
    by destruct (truthy (c_defaultApp c)).
  - intros st'' H. destruct (reaches_appends w st' st'' H) as [l Hl]. exists l.
    unfold listModules, get. by rewrite Hl.
Qed.

(** ** Sources are imported once *)

Lemma same_key_sym_false j k : same_key j k = false → same_key k j = false.
Proof.
  intros H. destruct (same_key k j) eqn:E; [|done].
  pose proof (same_key_eq _ _ E) as Hkj. subst k. congruence.
Qed.

Lemma reaches_cached w st st' :
  reaches w st st' →
  ∀ k v, map_get k (sources st) = Some v →
         map_get k (sources st') = Some v
         ∧ imports_of k (trace st') = imports_of k (trace st).
Proof.
  set (R := λ st st' : state,
              ∀ k v, map_get k (sources st) = Some v →
                     map_get k (sources st') = Some v
                     ∧ imports_of k (trace st') = imports_of k (trace st)).
  assert (R_refl : ∀ st, R st st) by (by intros s k v).
  assert (R_trans : ∀ a b c, R a b → R b c → R a c).
  { intros a b c H1 H2 k v Hk. destruct (H1 k v Hk) as [Hb Eb].
    destruct (H2 k v Hb) as [Hc Ec]. split; [done|congruence]. }
  assert (R_quiet : ∀ (s : state) e,
            match e with EvImport _ _ => False | _ => True end → R s (emit e s)).
  { intros s e He k v Hk. split; [done|]. simpl. rewrite imports_of_app.
    destruct e; simpl; lia. }
  assert (R_log : ∀ line s, R s (emit (EvLog line) s))
    by (intros line s; by apply R_quiet).
  assert (R_asked : ∀ path s, R s (emit (EvLoadJson path) s))
    by (intros path s; by apply R_quiet).
  assert (R_same : ∀ s s' : state,
            sources s' = sources s → trace s' = trace s → R s s').
  { intros s s' E1 E2 k v Hk. by rewrite E1, E2. }
  apply (reaches_respects R R_refl R_trans w).
  - intros path. apply (respects_loadPackage R R_refl R_trans); auto.
  - intros sp s r s' H k v Hk.
    unfold import, bind, get in H.
    destruct (map_get sp (sources s)) as [c|] eqn:Hc; [by injection H as _ <-|].
    assert (Hne : same_key k sp = false).
    { destruct (same_key k sp) eqn:E; [|done].
      pose proof (same_key_eq _ _ E) as Hksp. subst k. congruence. }
    assert (Hcount : imports_of k (trace s ++ [EvImport (sourcesDirectory s) sp])
                     = imports_of k (trace s)).
    { rewrite imports_of_app. simpl. rewrite (same_key_sym_false _ _ Hne). lia. }
    unfold try_catch, bind, get, modify, lift in H. simpl in H.
    destruct (import_module w (sourcesDirectory s) sp) as [src|cause];
      simpl in H; injection H as _ <-; simpl.
    + by rewrite map_get_set_ne.
    + done.
  - intros id f d. apply (respects_registerBuilder R R_refl R_trans); auto.
  - intros b fs. apply (respects_applySettings R R_refl R_trans); auto.
  - intros b. apply (respects_build R R_refl R_trans w); auto.
  - auto.
  - intros a b s. by apply R_quiet.
  - intros b d. apply (respects_inject R R_refl R_trans); auto.
Qed.

(** X12.  A source that has been imported stays as it is: whatever is called
    afterwards, [import] of the same path returns the same namespace, the
    Source Loader is never asked for that path again, and the instance is
    left as it is. *)
Theorem sources_are_imported_once w sourcePath source st st' :
  map_get sourcePath (sources st) = Some source →
  reaches w st st' →
  import w sourcePath st' = (Ret source, st')
  ∧ imports_of sourcePath (trace st') = imports_of sourcePath (trace st).
Proof.
  intros Hk Hr. destruct (reaches_cached w st st' Hr _ _ Hk) as [Hc Hi].
  split; [|done]. unfold import, bind, get. by rewrite Hc.
Qed.

(** ** Loaded packages *)

Lemma set_has_add_inv j k s :
  set_has j (set_add k s) = true → set_has j s = true ∨ j = k.
Proof.
  unfold set_add. destruct (set_has k s); [by left|].
  unfold set_has. rewrite existsb_app. simpl. rewrite orb_false_r.
  intros H. apply orb_true_iff in H as [H|H]; [by left|].
  right. by apply same_key_eq.
Qed.

(** X13.  An id is remembered as loaded only if it is a string for which the
    Descriptor Loader answered, under the packages directory of the
    instance.  Ids that were remembered before the calls stay. *)
Theorem loaded_packages_were_answered w st st' :
  reaches w st st' →
  ∀ k, set_has k (packages st') = true →
       set_has k (packages st) = true
       ∨ ∃ p pkg, k = VStr p
                  ∧ loadJson w (packagePath_of (packagesDirectory st') p) = Ok pkg.
Proof.
  set (R := λ st st' : state,
              packagesDirectory st' = packagesDirectory st
              ∧ ∀ k, set_has k (packages st') = true →
                     set_has k (packages st) = true
                     ∨ ∃ p pkg, k = VStr p
                                ∧ loadJson w (packagePath_of (packagesDirectory st) p)
                                  = Ok pkg).
  assert (R_refl : ∀ st, R st st) by (intros s; split; auto).
  assert (R_trans : ∀ a b c, R a b → R b c → R a c).
  { intros a b c [D1 H1] [D2 H2]. split; [congruence|]. intros k Hk.
    destruct (H2 k Hk) as [Hb|Hb]; [by apply H1|]. right. by rewrite <- D1. }
  assert (R_same : ∀ s s' : state,
            packages s' = packages s → packagesDirectory s' = packagesDirectory s →
            R s s').
  { intros s s' E1 E2. split; [done|]. intros k. rewrite E1. auto. }
  intros Hr.
  assert (HR : R st st'); [|destruct HR as [D H]; by rewrite D].
  revert Hr. apply (reaches_respects R R_refl R_trans w).
  - intros path s r s' H.
    destruct r as [pkg|e|].
    + apply loadPackage_ret in H as (p & Hp & Hload & ->).
      split; [done|]. simpl. intros k Hk.
      apply set_has_add_inv in Hk as [Hk| ->]; [by left|]. right. by exists p, pkg.
    + apply R_same.
      * unfold loadPackage in H.
        destruct (default_param path (VStr "")) as [| | | |p| | | | |];
          try (by injection H as _ <-).
        change (loadPackage w (VStr p) s = (Throw e, s')) in H.
        rewrite loadPackage_str in H. cbv zeta in H.
        destruct (loadJson w _); [discriminate|]. by injection H as _ <-.
      * unfold loadPackage in H.
        destruct (default_param path (VStr "")) as [| | | |p| | | | |];
          try (by injection H as _ <-).
        change (loadPackage w (VStr p) s = (Throw e, s')) in H.
        rewrite loadPackage_str in H. cbv zeta in H.
        destruct (loadJson w _); [discriminate|]. by injection H as _ <-.
    + unfold loadPackage in H.
      destruct (default_param path (VStr "")) as [| | | |p| | | | |];
        try discriminate H.
      change (loadPackage w (VStr p) s = (Diverge, s')) in H.
      rewrite loadPackage_str in H. cbv zeta in H.
      destruct (loadJson w _); discriminate.
  - intros sp. apply (respects_import R R_refl R_trans); auto.
  - intros id f d. apply (respects_registerBuilder R R_refl R_trans); auto.
  - intros b fs. apply (respects_applySettings R R_refl R_trans); auto.
  - intros b. apply (respects_build R R_refl R_trans w); auto.
  - auto.
  - auto.
  - intros b d. apply (respects_inject R R_refl R_trans); auto.
Qed.

(** ** The Builder *)

(** X14.  A Builder can be built over and over.  [applySettings] returns the
    Builder it was called on and replaces the settings only; [build]
    calls the factory with the dependencies and settings the Builder
    holds, uses up one address for the module, and touches neither the
    Builder nor any table of the instance.  So a second [build] calls the
    factory with the same arguments, and a [build] after another
    [applySettings] with the same dependencies and the new settings. *)
Theorem builder_is_reusable w a o s1 s2 st :
  heap st !! a = Some o →
  callable (b_factory o) = true →
  let configured := set_heap (alter (with_settings s1) a) st in
  let st1 := set_next S configured in
  applySettings (VBuilder a) s1 st = (Ret (VBuilder a), configured)
  ∧ heap configured !! a = Some (with_settings s1 o)
  ∧ (∀ a', a' ≠ a → heap configured !! a' = heap st !! a')
  ∧ build w (VBuilder a) configured
    = lift (call_factory w (b_factory o) (b_dependencies o) s1 (next st)) st1
  ∧ build w (VBuilder a) st1
    = lift (call_factory w (b_factory o) (b_dependencies o) s1 (S (next st)))
        (set_next S st1)
  ∧ (let* b := applySettings (VBuilder a) s2 in build w b) st1
    = lift (call_factory w (b_factory o) (b_dependencies o) s2 (S (next st)))
        (set_next S (set_heap (alter (with_settings s2) a) st1))
  ∧ modules st1 = modules st ∧ builders st1 = builders st
  ∧ packages st1 = packages st ∧ sources st1 = sources st
  ∧ trace st1 = trace st.
Proof.
  intros Ho Hc configured st1.
  assert (H1 : heap configured !! a = Some (with_settings s1 o)).
  { unfold configured. simpl. by rewrite lookup_alter_eq, Ho. }
  repeat split; try done.
  - intros a' Hne. unfold configured. simpl. by rewrite lookup_alter_ne.
  - unfold build, bind, get. rewrite H1. simpl. rewrite Hc.
    unfold modify, lift. simpl. by destruct (call_factory w _ _ _ _).
  - unfold build, bind, get. change (heap st1) with (heap configured).
    rewrite H1. simpl. rewrite Hc.
    unfold modify, lift. simpl. by destruct (call_factory w _ _ _ _).
  - unfold applySettings, bind, modify, ret. unfold build, bind, get.
    simpl. rewrite !lookup_alter_eq, Ho. simpl. rewrite Hc.
    unfold modify, lift. simpl. by destruct (call_factory w _ _ _ _).
Qed.

(** ** Packages built from another package's Builder *)

(** X15.  [register] of a package that names the Builder of another package,
    when that Builder is stored: the other package is not registered
    again.  The stored Builder is given this package's [factorySettings],
    the factory is called with the Builder's dependencies and those
    settings, and what it returns is stored under [id] and returned.  The
    table of Builders is left as it is, so no Builder is stored under
    [id]; the shared Builder keeps the settings of the last package built
    from it.  If the factory throws, the call fails with nothing stored
    under [id]. *)
Theorem register_from_a_stored_builder w n p build st pkg q a o :
  registered (VStr p) (default_param build (VBool true)) st = None →
  loadJson w (packagePath_of (packagesDirectory st) p) = Ok pkg →
  truthy (get_prop pkg "source") = false →
  get_prop pkg "builder" = VStr q →
  (q =? "") = false →
  js_get (VStr q) (builders st) = VBuilder a →
  heap st !! a = Some o →
  callable (b_factory o) = true →
  let fs := get_prop pkg "factorySettings" in
  let configured := set_heap (alter (with_settings fs) a) (loaded p st) in
  exec w (S n) (Register (VStr p) build) st =
    match call_factory w (b_factory o) (b_dependencies o) fs (next st) with
    | Ok v => (Ret v, set_modules (map_set (VStr p) v) (set_next S configured))
    | Fail e => (Throw e, set_next S configured)
    end
  ∧ builders configured = builders st
  ∧ modules configured = modules st
  ∧ heap configured !! a = Some (with_settings fs o)
  ∧ trace configured
    = (trace st
       ++ [EvLog ("loading package " ++ packagePath_of (packagesDirectory st) p);
           EvLoadJson (packagePath_of (packagesDirectory st) p)])%list.
Proof.
  intros Hmiss Hload Hsrc Hb Hq Hj Ho Hc fs configured.
  assert (Hbt : truthy (get_prop pkg "builder") = true).
  { rewrite Hb. simpl. by rewrite Hq. }
  repeat split.
  - simpl exec.
    rewrite (register_builder_path w _ p build st pkg Hmiss Hload Hsrc Hbt), Hb.
    rewrite (createModuleFromBuilder_stored w _ p q _ (loaded p st) a o Hj Ho), Hc.
    fold fs. by destruct (call_factory w _ _ _ _).
  - simpl. by rewrite lookup_alter_eq, Ho.
  - simpl. by rewrite <- app_assoc.
Qed.

(** X16.  A [builder] must name a package that has a [source].  When no
    Builder is stored under the name and the descriptor of the named
    package has no [source] (or cannot be loaded), [register] does not
    return.  In particular references do not chain: if the named package
    is itself built from a third one, it is registered, its module is
    built and stored, and then the call throws a TypeError, because no
    Builder was stored under the name. *)
Theorem builder_reference_needs_a_source w n p build st pkg :
  registered (VStr p) (default_param build (VBool true)) st = None →
  loadJson w (packagePath_of (packagesDirectory st) p) = Ok pkg →
  truthy (get_prop pkg "source") = false →
  truthy (get_prop pkg "builder") = true →
  map_has (get_prop pkg "builder") (builders st) = false →
  names_a_source w (packagesDirectory st) (get_prop pkg "builder") = false →
  (∀ v st', exec w (S n) (Register (VStr p) build) st ≠ (Ret v, st'))
  ∧ (∀ u st1,
       exec w n (Register (get_prop pkg "builder") (VBool false)) (loaded p st)
         = (Ret u, st1) →
       exec w (S n) (Register (VStr p) build) st
         = (Throw (TypeError (PropertyOfNullish "Builder")), st1)).
Proof.
  intros Hmiss Hload Hsrc Hb Hnone Hns.
  set (b := get_prop pkg "builder") in *.
  assert (Hdef : default_param b (VStr "") = b) by (by apply truthy_default).
  assert (Hstep : exec w (S n) (Register (VStr p) build) st
                  = createModuleFromBuilder w (exec w n) (VStr p) b
                      (get_prop pkg "factorySettings") (loaded p st)).
  { simpl exec. by apply register_builder_path. }
  assert (Hstays : ∀ u st1,
            exec w n (Register b (VBool false)) (loaded p st) = (Ret u, st1) →
            map_has b (builders st1) = false).
  { intros u st1 Hu. destruct (map_has b (builders st1)) eqn:E; [|done].
    destruct (proj2 (exec_safe w _ _ _ _ _ Hu) b E) as [Hold|Hs].
    - simpl in Hold. congruence.
    - destruct Hs as (q & pkgq & Hq & Hlq & Hsq).
      change (packagesDirectory (loaded p st)) with (packagesDirectory st) in Hlq.
      unfold names_a_source in Hns. by rewrite Hq, Hlq, Hsq in Hns. }
  split.
  - intros v st' H. rewrite Hstep in H.
    apply createModuleFromBuilder_returns in H as (st1 & a & o & Hens & Ha & _).
    rewrite Hdef in Hens, Ha.
    assert (Hhas : map_has b (builders st1) = true).
    { apply truthy_js_get_has. by rewrite Ha. }
    change (builders (loaded p st)) with (builders st) in Hens.
    rewrite Hnone in Hens. destruct Hens as [u Hu].
    by rewrite (Hstays u st1 Hu) in Hhas.
  - intros u st1 Hu. rewrite Hstep. unfold createModuleFromBuilder.
    cbn [default_param]. rewrite Hdef.
    unfold bind at 1. unfold get at 1.
    change (builders (loaded p st)) with (builders st). rewrite Hnone.
    unfold bind at 1. unfold bind at 1. rewrite Hu.
    unfold ret at 1. unfold bind at 1. unfold get at 1.
    by rewrite (map_has_js_get _ _ (Hstays u st1 Hu)).
Qed.

(** ** Asking the module table *)

Lemma map_has_keys k m : map_has k m = true → In k (map_keys m).
Proof.
  unfold map_has. induction m as [|[k' v'] r IH]; simpl; [done|].
  destruct (same_key k k') eqn:E; [|auto].
  intros _. left. symmetry. by apply same_key_eq.
Qed.

(** X17.  What [register(id)] returned is what [getModule(id)] returns right
    after it; [hasNotModule(id)] then answers false, and keeps doing so
    whatever is called; [listModules] lists the id; and [execute] on the
    id calls the command on that module without registering anything.
    An id for which [hasNotModule] answers true has no module:
    [getModule] returns [undefined] for it. *)
Theorem getModule_returns_what_register_returned w n id build st v st1 :
  truthy (default_param build (VBool true)) = true →
  exec w n (Register id build) st = (Ret v, st1) →
  getModule (default_param id (VStr "")) st1 = (Ret v, st1)
  ∧ hasNotModule (default_param id (VStr "")) st1 = (Ret (VBool false), st1)
  ∧ (∃ ids, listModules st1 = (Ret ids, st1) ∧ In (default_param id (VStr "")) ids)
  ∧ (∀ st2, reaches w st1 st2 →
       hasNotModule (default_param id (VStr "")) st2 = (Ret (VBool false), st2))
  ∧ (∀ a c data m,
       id = VStr a → (a =? "") = false → (c =? "") = false →
       exec w (S m) (Execute id (VStr c) data) st1
         = call_member w (exec w m) v c data st1)
  ∧ (∀ k s, hasNotModule k s = (Ret (VBool true), s) →
            getModule k s = (Ret VUndefined, s)).
Proof.
  intros Hb H. destruct n as [|n]; [discriminate|]. simpl in H.
  pose proof (register_stored w _ _ _ _ _ _ H Hb) as Hget.
  pose proof (register_has w _ _ _ _ _ _ H Hb) as Hhas.
  repeat split.
  - unfold getModule, get. by rewrite Hget.
  - unfold hasNotModule, get. by rewrite Hhas.
  - exists (map_keys (modules st1)). split; [done|]. by apply map_has_keys.
  - intros st2 Hr. unfold hasNotModule, get.
    by rewrite (grows_modules _ _ (reaches_grows w _ _ Hr) _ Hhas).
  - intros a c data m -> Ha Hc. cbn [default_param] in Hget, Hhas.
    simpl exec. rewrite execute_valid by done. by rewrite Hhas, Hget.
  - intros k s Hk. unfold hasNotModule, get in Hk. unfold getModule, get.
    injection Hk as Hk. apply negb_true_iff in Hk. by rewrite map_has_js_get.
Qed.

(** ** Ids and paths *)

Lemma slash_path dir p :
  String.prefix "/" p = false →
  packagePath_of dir ("/" ++ p) = packagePath_of dir p.
Proof.
  intros H. unfold packagePath_of. rewrite H.
  change (String.prefix "/" ("/" ++ p)) with (String.prefix "" p).
  by destruct p.
Qed.

Lemma slash_key p : same_key (VStr p) (VStr ("/" ++ p)) = false.
Proof.
  simpl. apply String.eqb_neq. intros H.
  apply (f_equal String.length) in H.
  change (String.length p = S (String.length p)) in H. lia.
Qed.

(** X18.  An id written with a leading slash and the same id written without
    it resolve to the same descriptor path, and are two ids for the
    registry.  For a package with a [source]: after [register("p")], the
    call [register("/p")] loads the descriptor again, stores a second
    Builder and builds a second module, each under its own id. *)
Theorem leading_slash_is_another_id w n m p st v st1 v' st2 :
  String.prefix "/" p = false →
  has_source w st (VStr p) →
  registered (VStr p) (VBool true) st = None →
  set_has (VStr ("/" ++ p)) (packages st) = false →
  exec w n (Register (VStr p) (VBool true)) st = (Ret v, st1) →
  exec w m (Register (VStr ("/" ++ p)) (VBool true)) st1 = (Ret v', st2) →
  packagePath_of (packagesDirectory st) ("/" ++ p) = packagePath_of (packagesDirectory st) p
  ∧ loads_of (packagePath_of (packagesDirectory st) p) (trace st2)
    = S (S (loads_of (packagePath_of (packagesDirectory st) p) (trace st)))
  ∧ getModule (VStr p) st2 = (Ret v, st2)
  ∧ getModule (VStr ("/" ++ p)) st2 = (Ret v', st2)
  ∧ ∃ a a', a ≠ a'
            ∧ js_get (VStr p) (builders st2) = VBuilder a
            ∧ js_get (VStr ("/" ++ p)) (builders st2) = VBuilder a'.
Proof.
  intros Hp Hsrc Hmiss Hnew H1 H2.
  pose proof (slash_path (packagesDirectory st) p Hp) as Hpath.
  pose proof (slash_key p) as Hkey.
  destruct n as [|n]; [discriminate|]. destruct m as [|m]; [discriminate|].
  simpl in H1, H2.
  apply register_source_returns in H1 as (pkg & src & s2 & Hload & Himp & Hv);
    [|done|done].
  cbn [default_param truthy] in Hv. destruct Hv as [Hcall ->].
  destruct (import_ret_frame _ _ _ _ _ Himp) as (Hh & Hnx & Hm & Hb & Hpk & Hd & Hl).
  set (fs := get_prop pkg "factorySettings") in *.
  set (st1 := built (VStr p) v (next s2) fs
                (builder_registered (VStr p) (get_prop src "factory") (VObj []) s2)) in *.
  assert (Hdir : packagesDirectory st1 = packagesDirectory st) by (by simpl; rewrite Hd).
  assert (Hmiss1 : registered (VStr ("/" ++ p)) (VBool true) st1 = None).
  { unfold registered.
    assert (Hno : set_has (VStr ("/" ++ p)) (packages st1) = false).
    { simpl packages. rewrite Hpk. simpl packages.
      destruct (set_has (VStr ("/" ++ p)) (set_add (VStr p) (packages st))) eqn:E; [|done].
      apply set_has_add_inv in E as [E|E]; [congruence|].
      injection E as E. apply (f_equal String.length) in E.
      change (S (String.length p) = String.length p) in E. lia. }
    by rewrite Hno. }
  assert (Hsrc1 : has_source w st1 (VStr ("/" ++ p))).
  { intros q pkg' Hq. cbn [default_param] in Hq. injection Hq as <-.
    rewrite Hdir, Hpath. by apply Hsrc. }
  apply register_source_returns in H2 as (pkg' & src' & s3 & Hload' & Himp' & Hv');
    [|done|done].
  cbn [default_param truthy] in Hv'. destruct Hv' as [Hcall' ->].
  destruct (import_ret_frame _ _ _ _ _ Himp')
    as (Hh' & Hnx' & Hm' & Hb' & Hpk' & Hd' & Hl').
  assert (Hkey' : same_key (VStr ("/" ++ p)) (VStr p) = false)
    by (by apply same_key_sym_false).
  split; [done|]. split; [|split; [|split]].
  - simpl. rewrite Hl', loads_of_loaded. rewrite Hdir, Hpath, String.eqb_refl.
    simpl trace. rewrite Hl, loads_of_loaded, String.eqb_refl. lia.
  - unfold getModule, get. f_equal. f_equal. simpl modules. unfold js_get.
    rewrite map_get_set_ne by done. rewrite Hm'. simpl modules.
    by rewrite map_get_set_eq by apply same_key_str.
  - unfold getModule, get. f_equal. f_equal. simpl modules. apply js_get_set_eq.
  - exists (next s2), (next s3). split; [|split].
    + rewrite Hnx'. simpl. lia.
    + simpl builders. unfold js_get. rewrite map_get_set_ne by done.
      rewrite Hb'. simpl builders. by rewrite map_get_set_eq by apply same_key_str.
    + simpl builders. apply js_get_set_eq.
Qed.

(** ** A Builder reference to oneself *)

(** X19.  A package whose [builder] is its own id, with no [source], cannot be
    registered: [register] registers the id in order to find its
    Builder, which registers the id, and so on.  No depth of nesting is
    enough for the call to end, and each level asks the Descriptor Loader
    for the same descriptor again. *)
Theorem register_of_a_self_reference_never_ends w p pkg :
  (p =? "") = false →
  truthy (get_prop pkg "source") = false →
  get_prop pkg "builder" = VStr p →
  ∀ n build st,
    loadJson w (packagePath_of (packagesDirectory st) p) = Ok pkg →
    map_has (VStr p) (builders st) = false →
    registered (VStr p) (default_param build (VBool true)) st = None →
    fst (exec w n (Register (VStr p) build) st) = Diverge
    ∧ loads_of (packagePath_of (packagesDirectory st) p)
        (trace (snd (exec w n (Register (VStr p) build) st)))
      = (n + loads_of (packagePath_of (packagesDirectory st) p) (trace st))%nat.
Proof.
  intros Hp Hsrc Hb.
  assert (Hbt : truthy (get_prop pkg "builder") = true).
  { rewrite Hb. simpl. by rewrite Hp. }
  induction n as [|n IH]; intros build st Hload Hnone Hmiss; [done|].
  simpl exec.
  rewrite (register_builder_path w _ p build st pkg Hmiss Hload Hsrc Hbt), Hb.
  assert (Hnone1 : map_has (VStr p) (builders (loaded p st)) = false) by done.
  assert (Hmiss1 : registered (VStr p) (default_param (VBool false) (VBool true))
                     (loaded p st) = None).
  { unfold registered. cbn [default_param truthy].
    rewrite (map_has_js_get _ _ Hnone1). by destruct (set_has _ _). }
  destruct (IH (VBool false) (loaded p st) Hload Hnone1 Hmiss1) as [Hd Hl].
  destruct (exec w n (Register (VStr p) (VBool false)) (loaded p st)) as [r s] eqn:E.
  simpl in Hd, Hl. subst r.
  assert (Hstep : createModuleFromBuilder w (exec w n) (VStr p) (VStr p)
                    (get_prop pkg "factorySettings") (loaded p st) = (Diverge, s)).
  { unfold createModuleFromBuilder. cbn [default_param].
    unfold bind at 1. unfold get at 1. rewrite Hnone1.
    unfold bind at 1. unfold bind at 1. by rewrite E. }
  rewrite Hstep. split; [done|]. cbn [snd].
  rewrite Hl, !loads_of_app. simpl. rewrite String.eqb_refl. lia.
Qed.

(** ** Entries of a batch that name no package *)

Lemma run_array rec l st :
  run rec (VArr l) st =
    match for_each l (run_entry rec) st with
    | (Ret _, st1) => (Ret VUndefined, st1)
    | (Throw e, st1) => (Throw e, st1)
    | (Diverge, st1) => (Diverge, st1)
    end.
Proof.
  unfold run. cbn [default_param]. unfold bind.
  by destruct (for_each l (run_entry rec) st) as [[[]|e|] st1].
Qed.

Lemma run_entry_without_pkg w n entry st :
  default_param (get_prop entry "pkg") (VStr "") = VStr "" →
  run_entry (exec w (S n)) entry st =
    (Throw (if nullish entry then TypeError (PropertyOfNullish "entry")
            else ErrMustHaveValue "nextApp"), st).
Proof.
  intros Hpkg. unfold run_entry. destruct (nullish entry); [done|].
  unfold bind at 1. simpl exec. unfold execute at 1. rewrite Hpkg.
  by unfold bind, isString, hasValue, ret, throw.
Qed.

(** X20.  [run] destructures each entry and hands [pkg], [cmd] and [data] to
    [execute].  An entry with no [pkg], or an empty one, stops the batch
    with the validation error of [execute], once the entries before it
    have been executed; so does every character of a string given in
    place of the list.  An entry that is [null] or [undefined] stops it
    with a TypeError. *)
Theorem run_stops_at_an_entry_without_pkg w n before entry after st :
  default_param (get_prop entry "pkg") (VStr "") = VStr "" →
  exec w (S (S n)) (Run (VArr (before ++ entry :: after))) st =
    match exec w (S (S n)) (Run (VArr before)) st with
    | (Ret _, st1) =>
        (Throw (if nullish entry then TypeError (PropertyOfNullish "entry")
                else ErrMustHaveValue "nextApp"), st1)
    | other => other
    end
  ∧ (∀ c s, exec w (S (S n)) (Run (VStr (String c s))) st
            = (Throw (ErrMustHaveValue "nextApp"), st)).
Proof.
  intros Hpkg. split.
  - change (exec w (S (S n)) (Run (VArr (before ++ entry :: after))) st)
      with (run (exec w (S n)) (VArr (before ++ entry :: after)) st).
    change (exec w (S (S n)) (Run (VArr before)) st)
      with (run (exec w (S n)) (VArr before) st).
    rewrite !run_array, for_each_app.
    destruct (for_each before _ st) as [[[]|e|] st1]; [|done|done].
    cbn [for_each]. unfold bind at 1.
    by rewrite (run_entry_without_pkg w n entry st1 Hpkg).
  - intros c s.
    change (exec w (S (S n)) (Run (VStr (String c s))) st)
      with (run (exec w (S n)) (VStr (String c s)) st).
    unfold run. cbn [default_param]. unfold bind at 1.
    change (characters (String c s))
      with (VStr (String c EmptyString) :: characters s).
    cbn [for_each]. unfold bind at 1.
    by rewrite (run_entry_without_pkg w n (VStr (String c EmptyString)) st).
Qed.

(** ** Concrete runs of the properties above *)


(** Registering "greeter" on a fresh instance. *)
Lemma register_source_package_witness :
  fst (exec Fixture.w 1 (Register (VStr "greeter") VUndefined) Catalogue.start)
  = Ret (VUser 1 "greeter").
Proof.
  assert (H1 : registered (VStr "greeter") (default_param VUndefined (VBool true))
                 Catalogue.start = None) by (vm_compute; reflexivity).
  assert (H2 : loadJson Fixture.w
                 (packagePath_of (packagesDirectory Catalogue.start) "greeter")
               = Ok (Fixture.descriptor "/greeter.js")) by (vm_compute; reflexivity).
  assert (H3 : truthy (get_prop (Fixture.descriptor "/greeter.js") "source") = true)
    by (vm_compute; reflexivity).
  assert (H4 : no_dependencies (get_prop (Fixture.descriptor "/greeter.js") "dependencies")
               = true) by (vm_compute; reflexivity).
  assert (H5 : import Fixture.w (get_prop (Fixture.descriptor "/greeter.js") "source")
                 (loaded "greeter" Catalogue.start)
               = (Ret (VObj [("factory", VUser 0 "greeter.factory")]),
                  snd (import Fixture.w (VStr "/greeter.js")
                         (loaded "greeter" Catalogue.start))))
    by (vm_compute; reflexivity).
  assert (H6 : nullish (VObj [("factory", VUser 0 "greeter.factory")]) = false)
    by (vm_compute; reflexivity).
  pose proof (register_source_package Fixture.w 0 "greeter" VUndefined Catalogue.start
                _ _ _ H1 H2 H3 H4 H5 H6) as T.
  cbv zeta in T. destruct T as [T _]. rewrite T. vm_compute. reflexivity.
Defined.

(** Registering "shouter", for which there is no descriptor. *)
Lemma register_fails_before_building_witness :
  fst (exec Fixture.w 1 (Register (VStr "shouter") VUndefined) Catalogue.start)
  = Throw (ErrPackageLoad "./packages/shouter.json" (Thrown (VStr "NotFound"))).
Proof.
  assert (H1 : registered (VStr "shouter") (default_param VUndefined (VBool true))
                 Catalogue.start = None) by (vm_compute; reflexivity).
  assert (H2 : loadJson Fixture.w
                 (packagePath_of (packagesDirectory Catalogue.start) "shouter")
               = Fail (Thrown (VStr "NotFound"))) by (vm_compute; reflexivity).
  pose proof (register_fails_before_building Fixture.w 0 "shouter" VUndefined
                Catalogue.start H1) as T.
  cbv zeta in T. destruct T as [T _]. rewrite (T _ H2). vm_compute. reflexivity.
Defined.

(** [register("greeter", false)], then [register("greeter")]. *)
Lemma register_builds_from_a_new_builder_witness :
  ∃ a a',
    VBuilder 0 = VBuilder a
    ∧ js_get (VStr "greeter") (builders Catalogue.with_builder) = VBuilder a
    ∧ js_get (VStr "greeter")
        (builders (snd (exec Fixture.w 1 (Register (VStr "greeter") (VBool true))
                          Catalogue.with_builder))) = VBuilder a'
    ∧ a ≠ a'.
Proof.
  assert (H1 : registered (VStr "greeter") (VBool false) Catalogue.start = None)
    by (vm_compute; reflexivity).
  assert (H2 : has_source Fixture.w Catalogue.start (VStr "greeter")).
  { intros p pkg Hp Hload. injection Hp as <-.
    vm_compute in Hload. injection Hload as <-. vm_compute. reflexivity. }
  assert (H3 : truthy (js_get (VStr "greeter") (modules Catalogue.start)) = false)
    by (vm_compute; reflexivity).
  assert (H4 : exec Fixture.w 1 (Register (VStr "greeter") (VBool false)) Catalogue.start
               = (Ret (VBuilder 0), Catalogue.with_builder))
    by (vm_compute; reflexivity).
  assert (H5 : exec Fixture.w 1 (Register (VStr "greeter") (VBool true))
                 Catalogue.with_builder
               = (Ret (VUser 2 "greeter"),
                  snd (exec Fixture.w 1 (Register (VStr "greeter") (VBool true))
                         Catalogue.with_builder)))
    by (vm_compute; reflexivity).
  destruct (register_builds_from_a_new_builder Fixture.w 1 1 "greeter" Catalogue.start
              _ _ _ _ H1 H2 H3 H4 H5) as (a & a' & Ha & Hb & Hb' & Hne & _).
  by exists a, a'.
Defined.

(** [register("greeter")], then [register("greeter", false)]. *)
Lemma register_returns_the_builder_of_the_module_witness :
  ∃ a, exec Fixture.w 1 (Register (VStr "greeter") (VBool false)) Catalogue.with_module
       = (Ret (VBuilder a), Catalogue.with_module).
Proof.
  assert (H1 : registered (VStr "greeter") (VBool true) Catalogue.start = None)
    by (vm_compute; reflexivity).
  assert (H2 : has_source Fixture.w Catalogue.start (VStr "greeter")).
  { intros p pkg Hp Hload. injection Hp as <-.
    vm_compute in Hload. injection Hload as <-. vm_compute. reflexivity. }
  assert (H3 : exec Fixture.w 1 (Register (VStr "greeter") (VBool true)) Catalogue.start
               = (Ret (VUser 1 "greeter"), Catalogue.with_module))
    by (vm_compute; reflexivity).
  destruct (register_returns_the_builder_of_the_module Fixture.w 1 0 "greeter"
              Catalogue.start _ _ H1 H2 H3) as (a & o & pkg & H & _).
  by exists a.
Defined.

(** [executeWithFallback("shouter", "shout", "Hey")] with no default. *)
Lemma executeWithFallback_without_default_hides_the_failure_witness :
  fst (exec Fixture.w 2 (ExecuteWithFallback (VStr "shouter") (VStr "shout") (VStr "Hey"))
         Catalogue.start)
  = Throw (ErrMustHaveValue "nextApp").
Proof.
  assert (H1 : map_has (default_param (VStr "shouter") (VStr "")) (modules Catalogue.start)
               = false) by (vm_compute; reflexivity).
  assert (H2 : defaultApp Catalogue.start = VUndefined) by (vm_compute; reflexivity).
  assert (H3 : exec Fixture.w 1
                 (Register (default_param (VStr "shouter") (VStr "")) VUndefined)
                 Catalogue.start
               = (Throw (ErrPackageLoad "./packages/shouter.json" (Thrown (VStr "NotFound"))),
                  snd (exec Fixture.w 1 (Register (VStr "shouter") VUndefined)
                         Catalogue.start)))
    by (vm_compute; reflexivity).
  by rewrite (executeWithFallback_without_default_hides_the_failure Fixture.w 1
                (VStr "shouter") (VStr "shout") (VStr "Hey") Catalogue.start _ _ H1 H2 H3).
Defined.

(** [execute("greeter", "greet", "John")] on a fresh instance, from the
    same call made once "greeter" is registered. *)
Lemma execute_is_register_then_execute_witness :
  evaluates Fixture.w (Execute (VStr "greeter") (VStr "greet") (VStr "John"))
    Catalogue.start (Ret (VStr "Hello John")) Catalogue.with_module.
Proof.
  assert (H1 : ("greeter" =? "") = false) by (vm_compute; reflexivity).
  assert (H2 : ("greet" =? "") = false) by (vm_compute; reflexivity).
  assert (H3 : map_has (VStr "greeter") (modules Catalogue.start) = false)
    by (vm_compute; reflexivity).
  assert (H4 : exec Fixture.w 1 (Register (VStr "greeter") VUndefined) Catalogue.start
               = (Ret (VUser 1 "greeter"), Catalogue.with_module))
    by (vm_compute; reflexivity).
  assert (H5 : exec Fixture.w 1 (Execute (VStr "greeter") (VStr "greet") (VStr "John"))
                 Catalogue.with_module
               = (Ret (VStr "Hello John"), Catalogue.with_module))
    by (vm_compute; reflexivity).
  apply (proj1 (execute_is_register_then_execute Fixture.w "greeter" "greet" (VStr "John")
                  Catalogue.start H1 H2 H3)
           (VUser 1 "greeter") Catalogue.with_module).
  - exists 1. split; [exact H4|discriminate].
  - exists 1. split; [exact H5|discriminate].
Defined.

(** The packages directory after [execute("greeter", "greet", "John")]
    on an instance built with defaults. *)
Lemma configuration_never_changes_witness :
  packagesDirectory
    (snd (exec Fixture.w 2 (Execute (VStr "greeter") (VStr "greet") (VStr "John"))
            (Fixture.fresh Fixture.with_default)))
  = "./packages".
Proof.
  assert (H1 : constructor Fixture.with_default = Ok (Fixture.fresh Fixture.with_default))
    by (vm_compute; reflexivity).
  assert (H2 : exec Fixture.w 2 (Execute (VStr "greeter") (VStr "greet") (VStr "John"))
                 (Fixture.fresh Fixture.with_default)
               = (Ret (VStr "Hello John"),
                  snd (exec Fixture.w 2
                         (Execute (VStr "greeter") (VStr "greet") (VStr "John"))
                         (Fixture.fresh Fixture.with_default))))
    by (vm_compute; reflexivity).
  exact (proj1 (proj2 (proj2
           (configuration_never_changes Fixture.w Fixture.with_default _ _ H1
              (reaches_method Fixture.w _ _ _ _ _ _ H2 (reaches_here Fixture.w _)))))).
Defined.

(** The ids listed after [execute("greeter", "greet", "John")] on an
    instance built with defaults. *)
Lemma listModules_keeps_the_order_of_first_registration_witness :
  ∃ added,
    listModules
      (snd (exec Fixture.w 2 (Execute (VStr "greeter") (VStr "greet") (VStr "John"))
              (Fixture.fresh Fixture.with_default)))
    = (Ret (map VStr builtin_ids ++ [VStr "executeWithFallback"] ++ added)%list,
       snd (exec Fixture.w 2 (Execute (VStr "greeter") (VStr "greet") (VStr "John"))
              (Fixture.fresh Fixture.with_default))).
Proof.
  assert (H1 : constructor Fixture.with_default = Ok (Fixture.fresh Fixture.with_default))
    by (vm_compute; reflexivity).
  assert (H2 : exec Fixture.w 2 (Execute (VStr "greeter") (VStr "greet") (VStr "John"))
                 (Fixture.fresh Fixture.with_default)
               = (Ret (VStr "Hello John"),
                  snd (exec Fixture.w 2
                         (Execute (VStr "greeter") (VStr "greet") (VStr "John"))
                         (Fixture.fresh Fixture.with_default))))
    by (vm_compute; reflexivity).
  exact (proj1 (listModules_keeps_the_order_of_first_registration Fixture.w
                  Fixture.with_default _ _ H1
                  (reaches_method Fixture.w _ _ _ _ _ _ H2 (reaches_here Fixture.w _)))).
Defined.

(** Importing "/greeter.js" after "greeter" was registered and "test"
    executed. *)
Lemma sources_are_imported_once_witness :
  import Fixture.w (VStr "/greeter.js")
    (snd (exec Fixture.w 2 (Execute (VStr "test") (VStr "call") VUndefined)
            Catalogue.with_module))
  = (Ret (VObj [("factory", VUser 0 "greeter.factory")]),
     snd (exec Fixture.w 2 (Execute (VStr "test") (VStr "call") VUndefined)
            Catalogue.with_module)).
Proof.
  assert (H1 : map_get (VStr "/greeter.js") (sources Catalogue.with_module)
               = Some (VObj [("factory", VUser 0 "greeter.factory")]))
    by (vm_compute; reflexivity).
  assert (H2 : exec Fixture.w 2 (Execute (VStr "test") (VStr "call") VUndefined)
                 Catalogue.with_module
               = (Ret (VStr "I a module"),
                  snd (exec Fixture.w 2 (Execute (VStr "test") (VStr "call") VUndefined)
                         Catalogue.with_module)))
    by (vm_compute; reflexivity).
  exact (proj1 (sources_are_imported_once Fixture.w _ _ _ _ H1
                  (reaches_method Fixture.w _ _ _ _ _ _ H2 (reaches_here Fixture.w _)))).
Defined.

(** Why "greeter" is remembered as loaded after it was registered. *)
Lemma loaded_packages_were_answered_witness :
  set_has (VStr "greeter") (packages Catalogue.start) = true
  ∨ ∃ p pkg, VStr "greeter" = VStr p
             ∧ loadJson Fixture.w (packagePath_of (packagesDirectory Catalogue.with_module) p)
               = Ok pkg.
Proof.
  assert (H1 : exec Fixture.w 1 (Register (VStr "greeter") (VBool true)) Catalogue.start
               = (Ret (VUser 1 "greeter"), Catalogue.with_module))
    by (vm_compute; reflexivity).
  assert (H2 : set_has (VStr "greeter") (packages Catalogue.with_module) = true)
    by (vm_compute; reflexivity).
  exact (loaded_packages_were_answered Fixture.w _ _
           (reaches_method Fixture.w _ _ _ _ _ _ H1 (reaches_here Fixture.w _))
           (VStr "greeter") H2).
Defined.

(** Building the Builder of "greeter" twice with the same settings. *)
Lemma builder_is_reusable_witness :
  fst (build Fixture.w (VBuilder 0)
         (set_next S (set_heap (alter (with_settings (VStr "Hi")) 0) Catalogue.with_builder)))
  = Ret (VUser 2 "greeter").
Proof.
  assert (H1 : heap Catalogue.with_builder !! 0
               = Some {| b_factory := VUser 0 "greeter.factory";
                         b_dependencies := VObj []; b_settings := VUndefined |})
    by (vm_compute; reflexivity).
  assert (H2 : callable (VUser 0 "greeter.factory") = true) by (vm_compute; reflexivity).
  pose proof (builder_is_reusable Fixture.w 0 _ (VStr "Hi") (VStr "Ho")
                Catalogue.with_builder H1 H2) as T.
  cbv zeta in T. destruct T as (_ & _ & _ & _ & T & _). rewrite T.
  vm_compute. reflexivity.
Defined.

(** Registering "welcome" when the Builder of "greeter" is stored. *)
Lemma register_from_a_stored_builder_witness :
  fst (exec Fixture.w 1 (Register (VStr "welcome") VUndefined) Catalogue.with_builder)
  = Ret (VUser 1 "greeter").
Proof.
  assert (H1 : registered (VStr "welcome") (default_param VUndefined (VBool true))
                 Catalogue.with_builder = None) by (vm_compute; reflexivity).
  assert (H2 : loadJson Fixture.w
                 (packagePath_of (packagesDirectory Catalogue.with_builder) "welcome")
               = Ok Fixture.welcome) by (vm_compute; reflexivity).
  assert (H3 : truthy (get_prop Fixture.welcome "source") = false)
    by (vm_compute; reflexivity).
  assert (H4 : get_prop Fixture.welcome "builder" = VStr "greeter")
    by (vm_compute; reflexivity).
  assert (H5 : ("greeter" =? "") = false) by (vm_compute; reflexivity).
  assert (H6 : js_get (VStr "greeter") (builders Catalogue.with_builder) = VBuilder 0)
    by (vm_compute; reflexivity).
  assert (H7 : heap Catalogue.with_builder !! 0
               = Some {| b_factory := VUser 0 "greeter.factory";
                         b_dependencies := VObj []; b_settings := VUndefined |})
    by (vm_compute; reflexivity).
  assert (H8 : callable (VUser 0 "greeter.factory") = true) by (vm_compute; reflexivity).
  pose proof (register_from_a_stored_builder Fixture.w 0 "welcome" VUndefined
                Catalogue.with_builder _ _ _ _ H1 H2 H3 H4 H5 H6 H7 H8) as T.
  cbv zeta in T. destruct T as [T _]. rewrite T. vm_compute. reflexivity.
Defined.

(** Registering "hello", built from "welcome", which is built from
    "greeter". *)
Lemma builder_reference_needs_a_source_witness :
  fst (exec Catalogue.w 3 (Register (VStr "hello") VUndefined) Catalogue.start)
  = Throw (TypeError (PropertyOfNullish "Builder")).
Proof.
  assert (H1 : registered (VStr "hello") (default_param VUndefined (VBool true))
                 Catalogue.start = None) by (vm_compute; reflexivity).
  assert (H2 : loadJson Catalogue.w
                 (packagePath_of (packagesDirectory Catalogue.start) "hello")
               = Ok Catalogue.hello) by (vm_compute; reflexivity).
  assert (H3 : truthy (get_prop Catalogue.hello "source") = false)
    by (vm_compute; reflexivity).
  assert (H4 : truthy (get_prop Catalogue.hello "builder") = true)
    by (vm_compute; reflexivity).
  assert (H5 : map_has (get_prop Catalogue.hello "builder") (builders Catalogue.start)
               = false) by (vm_compute; reflexivity).
  assert (H6 : names_a_source Catalogue.w (packagesDirectory Catalogue.start)
                 (get_prop Catalogue.hello "builder") = false)
    by (vm_compute; reflexivity).
  assert (H7 : exec Catalogue.w 2
                 (Register (get_prop Catalogue.hello "builder") (VBool false))
                 (loaded "hello" Catalogue.start)
               = (Ret (VUser 1 "greeter"),
                  snd (exec Catalogue.w 2 (Register (VStr "welcome") (VBool false))
                         (loaded "hello" Catalogue.start))))
    by (vm_compute; reflexivity).
  by rewrite (proj2 (builder_reference_needs_a_source Catalogue.w 2 "hello" VUndefined
                       Catalogue.start _ H1 H2 H3 H4 H5 H6) _ _ H7).
Defined.

(** [getModule("greeter")] after [register("greeter")]. *)
Lemma getModule_returns_what_register_returned_witness :
  getModule (VStr "greeter") Catalogue.with_module
  = (Ret (VUser 1 "greeter"), Catalogue.with_module).
Proof.
  assert (H1 : truthy (default_param (VBool true) (VBool true)) = true)
    by (vm_compute; reflexivity).
  assert (H2 : exec Fixture.w 1 (Register (VStr "greeter") (VBool true)) Catalogue.start
               = (Ret (VUser 1 "greeter"), Catalogue.with_module))
    by (vm_compute; reflexivity).
  exact (proj1 (getModule_returns_what_register_returned Fixture.w 1 (VStr "greeter")
                  (VBool true) Catalogue.start _ _ H1 H2)).
Defined.

(** [register("greeter")], then [register("/greeter")]. *)
Lemma leading_slash_is_another_id_witness :
  loads_of (packagePath_of (packagesDirectory Catalogue.start) "greeter")
    (trace (snd (exec Fixture.w 1 (Register (VStr "/greeter") (VBool true))
                   Catalogue.with_module)))
  = S (S (loads_of (packagePath_of (packagesDirectory Catalogue.start) "greeter")
            (trace Catalogue.start))).
Proof.
  assert (H1 : String.prefix "/" "greeter" = false) by (vm_compute; reflexivity).
  assert (H2 : has_source Fixture.w Catalogue.start (VStr "greeter")).
  { intros p pkg Hp Hload. injection Hp as <-.
    vm_compute in Hload. injection Hload as <-. vm_compute. reflexivity. }
  assert (H3 : registered (VStr "greeter") (VBool true) Catalogue.start = None)
    by (vm_compute; reflexivity).
  assert (H4 : set_has (VStr ("/" ++ "greeter")) (packages Catalogue.start) = false)
    by (vm_compute; reflexivity).
  assert (H5 : exec Fixture.w 1 (Register (VStr "greeter") (VBool true)) Catalogue.start
               = (Ret (VUser 1 "greeter"), Catalogue.with_module))
    by (vm_compute; reflexivity).
  assert (H6 : exec Fixture.w 1 (Register (VStr ("/" ++ "greeter")) (VBool true))
                 Catalogue.with_module
               = (Ret (VUser 3 "greeter"),
                  snd (exec Fixture.w 1 (Register (VStr "/greeter") (VBool true))
                         Catalogue.with_module)))
    by (vm_compute; reflexivity).
  exact (proj1 (proj2 (leading_slash_is_another_id Fixture.w 1 1 "greeter"
                         Catalogue.start _ _ _ _ H1 H2 H3 H4 H5 H6))).
Defined.

(** Registering "loop" with five levels of nesting. *)
Lemma register_of_a_self_reference_never_ends_witness :
  fst (exec Catalogue.w 5 (Register (VStr "loop") VUndefined) Catalogue.start) = Diverge.
Proof.
  assert (H1 : ("loop" =? "") = false) by (vm_compute; reflexivity).
  assert (H2 : truthy (get_prop Catalogue.loop "source") = false)
    by (vm_compute; reflexivity).
  assert (H3 : get_prop Catalogue.loop "builder" = VStr "loop")
    by (vm_compute; reflexivity).
  assert (H4 : loadJson Catalogue.w
                 (packagePath_of (packagesDirectory Catalogue.start) "loop")
               = Ok Catalogue.loop) by (vm_compute; reflexivity).
  assert (H5 : map_has (VStr "loop") (builders Catalogue.start) = false)
    by (vm_compute; reflexivity).
  assert (H6 : registered (VStr "loop") (default_param VUndefined (VBool true))
                 Catalogue.start = None) by (vm_compute; reflexivity).
  exact (proj1 (register_of_a_self_reference_never_ends Catalogue.w "loop" Catalogue.loop
                  H1 H2 H3 5 VUndefined Catalogue.start H4 H5 H6)).
Defined.

(** A batch whose second entry has no [pkg]. *)
Lemma run_stops_at_an_entry_without_pkg_witness :
  fst (exec Fixture.w 3
         (Run (VArr ([VObj (Fixture.greet "John")]
                     ++ VObj [("cmd", VStr "greet")] :: [VObj Fixture.call_test])))
         Catalogue.start)
  = Throw (ErrMustHaveValue "nextApp").
Proof.
  assert (H1 : default_param (get_prop (VObj [("cmd", VStr "greet")]) "pkg") (VStr "")
               = VStr "") by (vm_compute; reflexivity).
  rewrite (proj1 (run_stops_at_an_entry_without_pkg Fixture.w 1
                    [VObj (Fixture.greet "John")] (VObj [("cmd", VStr "greet")])
                    [VObj Fixture.call_test] Catalogue.start H1)).
  vm_compute. reflexivity.
Defined.
